(** * Conversation ingestion service: message pruning and the sync pipeline

    A shallow embedding of [main.go]: the decoded JSON trees the service
    handles, the in-place pruning of agent messages ([PruneAgentMessages]),
    the per-principal fetcher ([processUser], [getConversationDetail]), the
    batch loader ([insertToBigQuery]) and the worker pool of [runSync],
    followed by the properties proved about them. *)

From Stdlib Require Import ZArith String List Lia DecimalString.
From Stdlib Require Import Floats.SpecFloat.
From stdpp Require Import gmap strings list fin_maps.

Set Warnings "-register-all".

(** ** Decoded JSON

    [encoding/json] decodes into [interface{}] as: [nil] for null, [bool],
    [float64] for every number, [string], [[]any] for arrays and
    [map[string]any] for objects.  A freshly decoded document is a tree: no
    two places of it hold the same map, which is how [PruneAgentMessages]
    receives its argument from [getConversationDetail]. *)

Inductive value : Type :=
| VNull
| VBool (b : bool)
| VNum (f : spec_float)
| VStr (s : string)
| VArr (l : list value)
| VObj (m : gmap string value).

(** [v, ok := x.(map[string]any)] on the result of a map index expression:
    an absent key yields the nil interface, on which the assertion fails. *)
Definition asMap (v : option value) : option (gmap string value) :=
  match v with
  | Some (VObj o) => Some o
  | _ => None
  end.

(** [v, ok := x.([]any)]. *)
Definition asSlice (v : option value) : option (list value) :=
  match v with
  | Some (VArr l) => Some l
  | _ => None
  end.

(** [x == "system"] for an interface value [x]: true exactly when the dynamic
    type is [string] and the contents agree. *)
Definition ifaceEqString (v : option value) (s : string) : bool :=
  match v with
  | Some (VStr s') => bool_decide (s' = s)
  | _ => false
  end.

(** ** PruneAgentMessages (main.go, lines 74-156)

    Go maps are references, so a [delete] on an inner map is seen through
    every enclosing map; on a tree this is the same as writing the pruned
    child back under its key. *)

(** Lines 140-144: the loop over the [datasources] slice. *)
Definition pruneDatasource (item : value) : value :=
  match item with
  | VObj dsMap => VObj (delete "schema" dsMap)
  | _ => item
  end.

(** Lines 133-147: the body of the [if dataObj, ok := sysMsg["data"]] block. *)
Definition pruneData (dataObj : gmap string value) : gmap string value :=
  let dataObj := delete "result" dataObj in
  let dataObj := delete "formattedData" dataObj in
  match asMap (dataObj !! "query") with
  | Some queryObj =>
      match asSlice (queryObj !! "datasources") with
      | Some ds =>
          <["query" := VObj (<["datasources" := VArr (map pruneDatasource ds)]> queryObj)]>
            dataObj
      | None => dataObj
      end
  | None => dataObj
  end.

(** Lines 118-152: everything done once [sysMsg] has been reached. *)
Definition pruneSystemMessage (sysMsg : gmap string value) : gmap string value :=
  let sysMsg :=
    match asMap (sysMsg !! "text") with
    | Some textObj => <["text" := VObj (delete "thoughtSignature" textObj)]> sysMsg
    | None => sysMsg
    end in
  let sysMsg := delete "thoughtSignature" sysMsg in
  let sysMsg :=
    match asMap (sysMsg !! "schema") with
    | Some schemaObj =>
        <["schema" := VObj (delete "datasources" (delete "result" schemaObj))]> sysMsg
    | None => sysMsg
    end in
  let sysMsg :=
    match asMap (sysMsg !! "data") with
    | Some dataObj => <["data" := VObj (pruneData dataObj)]> sysMsg
    | None => sysMsg
    end in
  match asMap (sysMsg !! "chart") with
  | Some chartObj => <["chart" := VObj (delete "result" chartObj)]> sysMsg
  | None => sysMsg
  end.

(** Lines 94-153: the [msg["type"] == "system"] block, as a function of the
    message body.  Each failed assertion is a [continue]. *)
Definition pruneSystemBody (msgBody : gmap string value) : gmap string value :=
  let msgBody := delete "systemMessage" msgBody in
  match asMap (msgBody !! "debugInfo") with
  | None => msgBody
  | Some debugInfo =>
      let debugInfo := delete "request" debugInfo in
      match asMap (debugInfo !! "response") with
      | None => <["debugInfo" := VObj debugInfo]> msgBody
      | Some response =>
          match asMap (response !! "data") with
          | None => <["debugInfo" := VObj debugInfo]> msgBody
          | Some respData =>
              match asMap (respData !! "systemMessage") with
              | None => <["debugInfo" := VObj debugInfo]> msgBody
              | Some sysMsg =>
                  let respData :=
                    <["systemMessage" := VObj (pruneSystemMessage sysMsg)]> respData in
                  let response := <["data" := VObj respData]> response in
                  let debugInfo := <["response" := VObj response]> debugInfo in
                  <["debugInfo" := VObj debugInfo]> msgBody
              end
          end
      end
  end.

(** One iteration of the loop at line 75. *)
Definition pruneMessage (m : value) : value :=
  match m with
  | VObj msg =>
      match asMap (msg !! "message") with
      | None => m
      | Some msgBody =>
          match msgBody !! "userMessage" with
          | Some _ => VObj (<["message" := VObj (delete "debugInfo" msgBody)]> msg)
          | None =>
              if ifaceEqString (msg !! "type") "system"
              then VObj (<["message" := VObj (pruneSystemBody msgBody)]> msg)
              else m
          end
      end
  | _ => m
  end.

Definition PruneAgentMessages (messages : list value) : list value :=
  map pruneMessage messages.

(** ** Errors, results and panics *)

(** Go [error] values, by the way the program builds them. *)
Inductive error : Type :=
| ErrIO (detail : string)
    (* an error of [client.Do], of reading a body, of a decoder or an encoder *)
| ErrStatus (operation : string) (status : Z)
    (* [fmt.Errorf("... failed with status %d ...", resp.StatusCode)] *)
| ErrWrap (context : string) (cause : error).
    (* [fmt.Errorf("context: %w", err)] *)

(** [(A, error)] return values. *)
Inductive result (A : Type) : Type :=
| Ok (a : A)
| Err (e : error).
Arguments Ok {A} a.
Arguments Err {A} e.

(** A call either returns or panics (a panic in a goroutine ends the process). *)
Inductive outcome (A : Type) : Type :=
| Return (a : A)
| Panic.
Arguments Return {A} a.
Arguments Panic {A}.

(** ** Data structures (main.go, lines 19-62) *)

Record Config : Type := {
  LookerClientID : string;
  LookerClientSecret : string;
  LookerBaseURL : string;
  GCPProjectID : string;
  GCPRegion : string;
  BQDataset : string;
  BQTable : string;
  LookerUserQueryID : string
}.

(** Go keeps field names per struct; here they carry the struct as a prefix. *)
Record User : Type := {
  User_ID : Z;
  User_Email : string
}.

Record Conversation : Type := {
  Conv_ID : string;
  Conv_UserID : string;
  Conv_AgentID : string;
  Conv_Name : string;
  Conv_Sources : value;
  Conv_CreatedAt : string;
  Conv_UpdatedAt : string;
  Conv_Messages : value;
  Conv_ConversationAgent : value
}.

Record AuthToken : Type := {
  AccessToken : string;
  ExpiresIn : Z
}.

Definition WorkerPoolSize : nat := 50.

(** ** The outside world

    HTTP exchanges, the clock, the process environment and the JSON and
    multipart codecs of the Go library.  A response is a function of the
    request alone, and every request the program builds is well formed
    ([http.NewRequest] does not fail). *)

Inductive part : Type :=
| JsonPart (v : value)      (* [json.NewEncoder(part).Encode(v)] *)
| BytesPart (b : string).   (* [part.Write(b)] *)

Inductive body : Type :=
| NoBody
| TextBody (s : string)
| MultipartBody (parts : list (string * part)).  (* (Content-Type, content) *)

Record Request : Type := {
  Method : string;
  URL : string;
  Header : list (string * string);
  ReqBody : body
}.

Record Response : Type := {
  StatusCode : Z;
  RespBody : result string   (* what reading [resp.Body] to its end gives *)
}.

Record World : Type := {
  client_Do : Request -> result Response;
  time_Now : string;                    (* [time.Now().Format("2006-01-02")] *)
  GCP_ACCESS_TOKEN : string;            (* [os.Getenv("GCP_ACCESS_TOKEN")] *)
  decode_AuthToken : string -> result AuthToken;
  decode_Users : string -> result (list User);
  decode_Conversations : string -> result (list Conversation);
  decode_Conversation : string -> result Conversation;
  decode_AccessToken : string -> result string;  (* the anonymous struct of line 606 *)
  json_Marshal : Conversation -> result string;
  multipart_Boundary : string;          (* [writer.Boundary()] *)
  multipart_CreatePart : nat -> option error  (* error of the n-th [CreatePart] *)
}.

(** [json.NewDecoder(resp.Body).Decode(&x)] and
    [io.ReadAll(resp.Body)] followed by [json.Unmarshal]. *)
Definition decodeBody {A : Type} (dec : string -> result A) (resp : Response) : result A :=
  match RespBody resp with
  | Ok b => dec b
  | Err e => Err e
  end.

(** [fmt.Sprintf("%d", n)]. *)
Definition formatInt (n : Z) : string := NilZero.string_of_int (Z.to_int n).

(** What the program writes with [log.Printf] where it handles a failure or
    reports a count; purely informational lines are not recorded. *)
Inductive LogEvent : Type :=
| LogDetailFailed (id : string) (e : error)                 (* line 389 *)
| LogWorkerError (workerID : nat) (user : User) (e : error) (* line 246 *)
| LogDryRun (totalConversations userCount : nat)            (* line 277 *)
| LogUploadError (e : error)                                (* line 282 *)
| LogFinished (mode : string) (totalConversations : nat)    (* line 287 *)
| LogMarshalWarning (id : string) (e : error)               (* line 513 *)
| LogNoRows                                                 (* line 523 *)
| LogJobCreated (response : result string).                 (* line 585 *)

Section Pipeline.

(** The package-level [client] (with the world behind it) and [config]. *)
Variable w : World.
Variable config : Config.

(** ** Calls to the source system (main.go, lines 315-470) *)

Definition lookerLogin (clientID clientSecret : string) : outcome (result string) :=
  let url := LookerBaseURL config +:+ "/api/4.0/login" in
  let payload := "client_id=" +:+ clientID +:+ "&client_secret=" +:+ clientSecret in
  let req := {| Method := "POST"; URL := url;
                Header := [("Content-Type", "application/x-www-form-urlencoded")];
                ReqBody := TextBody payload |} in
  match client_Do w req with
  | Err err => Return (Err err)
  | Ok resp =>
      if negb (StatusCode resp =? 200)%Z
      then Return (Err (ErrStatus "login" (StatusCode resp)))
      else
        match decodeBody (decode_AuthToken w) resp with
        | Err err => Return (Err err)
        | Ok token =>
            (* [token.AccessToken[:10]] at line 336 *)
            if String.length (AccessToken token) <? 10
            then Panic
            else Return (Ok (AccessToken token))
        end
  end.

Definition searchUsers (token : string) : result (list User) :=
  let url := LookerBaseURL config +:+ "/api/4.0/queries/" +:+ LookerUserQueryID config
             +:+ "/run/json?limit=-1" in
  let req := {| Method := "GET"; URL := url;
                Header := [("Authorization", "token " +:+ token)];
                ReqBody := NoBody |} in
  match client_Do w req with
  | Err err => Err err
  | Ok resp =>
      if negb (StatusCode resp =? 200)%Z
      then Err (ErrStatus "search users" (StatusCode resp))
      else decodeBody (decode_Users w) resp
  end.

Definition sudoLogin (adminToken userID : string) : result string :=
  let url := LookerBaseURL config +:+ "/api/4.0/login/" +:+ userID in
  let req := {| Method := "POST"; URL := url;
                Header := [("Authorization", "token " +:+ adminToken)];
                ReqBody := NoBody |} in
  match client_Do w req with
  | Err err => Err err
  | Ok resp =>
      if negb (StatusCode resp =? 200)%Z
      then Err (ErrStatus "sudo" (StatusCode resp))
      else
        match decodeBody (decode_AuthToken w) resp with
        | Err err => Err err
        | Ok token => Ok (AccessToken token)
        end
  end.

(** [logout] sends one DELETE and ignores its outcome; it returns nothing. *)
Definition logout (token : string) : unit :=
  let url := LookerBaseURL config +:+ "/api/4.0/logout" in
  let req := {| Method := "DELETE"; URL := url;
                Header := [("Authorization", "token " +:+ token)];
                ReqBody := NoBody |} in
  match client_Do w req with
  | _ => tt
  end.

Definition searchConversations (token mode : string) : result (list Conversation) :=
  let url := LookerBaseURL config +:+ "/api/4.0/conversations/search" in
  let url := if bool_decide (mode = "daily")
             then url +:+ "?created_at=" +:+ time_Now w
             else url in
  let req := {| Method := "GET"; URL := url;
                Header := [("Authorization", "token " +:+ token)];
                ReqBody := NoBody |} in
  match client_Do w req with
  | Err err => Err err
  | Ok resp =>
      match RespBody resp with
      | Err err => Err (ErrWrap "failed to read body" err)
      | Ok body =>
          if negb (StatusCode resp =? 200)%Z
          then Err (ErrStatus "search" (StatusCode resp))
          else
            match decode_Conversations w body with
            | Err err => Err (ErrWrap "failed to unmarshal JSON" err)
            | Ok conversations => Ok conversations
            end
      end
  end.

(** ** getConversationDetail (main.go, lines 472-496) *)

Definition setMessages (c : Conversation) (messages : value) : Conversation :=
  {| Conv_ID := Conv_ID c; Conv_UserID := Conv_UserID c; Conv_AgentID := Conv_AgentID c;
     Conv_Name := Conv_Name c; Conv_Sources := Conv_Sources c;
     Conv_CreatedAt := Conv_CreatedAt c; Conv_UpdatedAt := Conv_UpdatedAt c;
     Conv_Messages := messages;
     Conv_ConversationAgent := Conv_ConversationAgent c |}.

Definition getConversationDetail (token id : string) : result Conversation :=
  let fields :=
    "id,agent_id,user_id,name,sources,created_at,updated_at,messages,conversation_agent" in
  let url := LookerBaseURL config +:+ "/api/4.0/conversations/" +:+ id
             +:+ "?fields=" +:+ fields in
  let req := {| Method := "GET"; URL := url;
                Header := [("Authorization", "token " +:+ token)];
                ReqBody := NoBody |} in
  match client_Do w req with
  | Err err => Err err
  | Ok resp =>
      match decodeBody (decode_Conversation w) resp with
      | Err err => Err err
      | Ok detail =>
          match Conv_Messages detail with
          | VArr msgs => Ok (setMessages detail (VArr (PruneAgentMessages msgs)))
          | _ => Ok detail
          end
      end
  end.

(** ** processUser (main.go, lines 366-396) *)

(** The loop at line 386, from the state ([detailed], lines logged so far) it
    is entered with. *)
Fixpoint detailLoop (userToken : string) (conversations : list Conversation)
    (logged : list LogEvent) (detailed : list Conversation)
    : list LogEvent * list Conversation :=
  match conversations with
  | [] => (logged, detailed)
  | c :: rest =>
      match getConversationDetail userToken (Conv_ID c) with
      | Err err =>
          detailLoop userToken rest (logged ++ [LogDetailFailed (Conv_ID c) err]) detailed
      | Ok detail =>
          detailLoop userToken rest logged (detailed ++ [detail])
      end
  end.

(** Returns the lines logged along with the Go return values; a nil slice is
    the empty list. *)
Definition processUser (adminToken : string) (user : User) (mode userID : string)
    : list LogEvent * result (list Conversation) :=
  match sudoLogin adminToken userID with
  | Err err => ([], Err (ErrWrap "sudo failed" err))
  | Ok userToken =>
      (* [defer logout(userToken)] runs on each return below *)
      match searchConversations userToken mode with
      | Err err => let _ := logout userToken in ([], Err (ErrWrap "search failed" err))
      | Ok conversations =>
          if length conversations =? 0
          then let _ := logout userToken in ([], Ok [])
          else
            let '(logged, detailed) := detailLoop userToken conversations [] [] in
            let _ := logout userToken in
            (logged, Ok detailed)
      end
  end.

(** ** insertToBigQuery (main.go, lines 499-613) *)

Definition getGCPToken : result string :=
  if negb (String.eqb (GCP_ACCESS_TOKEN w) EmptyString)
  then Ok (GCP_ACCESS_TOKEN w)
  else
    let req :=
      {| Method := "GET";
         URL := "http://metadata.google.internal/computeMetadata/v1/instance/service-accounts/default/token";
         Header := [("Metadata-Flavor", "Google")];
         ReqBody := NoBody |} in
    match client_Do w req with
    | Err err => Err err
    | Ok resp => decodeBody (decode_AccessToken w) resp
    end.

Definition newline : string := String (Ascii.ascii_of_nat 10) EmptyString.

(** The inner loop at line 510 over one batch received from the channel, from
    the buffer and the row count it is entered with. *)
Fixpoint marshalBatch (data : list Conversation) (logged : list LogEvent)
    (ndjson : string) (totalRows : nat) : list LogEvent * string * nat :=
  match data with
  | [] => (logged, ndjson, totalRows)
  | c :: rest =>
      match json_Marshal w c with
      | Err err =>
          marshalBatch rest (logged ++ [LogMarshalWarning (Conv_ID c) err]) ndjson totalRows
      | Ok b =>
          marshalBatch rest logged ((ndjson +:+ b) +:+ newline) (S totalRows)
      end
  end.

(** Lines 541-553. *)
Definition jobConfig : value :=
  let destinationTable : gmap string value :=
    <["projectId" := VStr (GCPProjectID config)]>
      (<["datasetId" := VStr (BQDataset config)]>
         (<["tableId" := VStr (BQTable config)]> ∅)) in
  let load : gmap string value :=
    <["destinationTable" := VObj destinationTable]>
      (<["sourceFormat" := VStr "NEWLINE_DELIMITED_JSON"]>
         (<["writeDisposition" := VStr "WRITE_APPEND"]> ∅)) in
  VObj (<["configuration" := VObj (<["load" := VObj load]> ∅)]> ∅).

(** The request of lines 568-571. *)
Definition loadJobRequest (gcpToken ndjson : string) : Request :=
  {| Method := "POST";
     URL := "https://bigquery.googleapis.com/upload/bigquery/v2/projects/"
            +:+ GCPProjectID config +:+ "/jobs?uploadType=multipart";
     Header := [("Authorization", "Bearer " +:+ gcpToken);
                ("Content-Type", "multipart/related; boundary=" +:+ multipart_Boundary w)];
     ReqBody := MultipartBody [("application/json; charset=UTF-8", JsonPart jobConfig);
                               ("application/octet-stream", BytesPart ndjson)] |}.

(** Lines 522-586: what happens once the channel is drained.  Gives the
    requests sent to the load endpoint, the lines logged and the Go return
    values. *)
Definition submitLoad (gcpToken ndjson : string) (totalRows : nat)
    : list Request * list LogEvent * (nat * option error) :=
  if totalRows =? 0
  then ([], [LogNoRows], (0, None))
  else
    match multipart_CreatePart w 0 with
    | Some err => ([], [], (totalRows, Some err))
    | None =>
        match multipart_CreatePart w 1 with
        | Some err => ([], [], (totalRows, Some err))
        | None =>
            let req := loadJobRequest gcpToken ndjson in
            match client_Do w req with
            | Err err => ([req], [], (totalRows, Some err))
            | Ok resp =>
                if negb (StatusCode resp =? 200)%Z
                then ([req], [],
                      (totalRows, Some (ErrStatus "BQ job creation" (StatusCode resp))))
                else ([req], [LogJobCreated (RespBody resp)], (totalRows, None))
            end
        end
    end.

(** The loop at line 509 over everything the channel delivers before it is
    closed. *)
Fixpoint drainLoop (batches : list (list Conversation)) (logged : list LogEvent)
    (ndjson : string) (totalRows : nat) : list LogEvent * string * nat :=
  match batches with
  | [] => (logged, ndjson, totalRows)
  | data :: rest =>
      let '(logged, ndjson, totalRows) := marshalBatch data logged ndjson totalRows in
      drainLoop rest logged ndjson totalRows
  end.

(** [insertToBigQuery] on a channel that delivers [batches] and is then
    closed. *)
Definition insertToBigQuery (batches : list (list Conversation))
    : list Request * list LogEvent * (nat * option error) :=
  match getGCPToken with
  | Err err => ([], [], (0, Some (ErrWrap "failed to get GCP token" err)))
  | Ok gcpToken =>
      let '(logged, ndjson, totalRows) := drainLoop batches [] EmptyString 0 in
      let '(reqs, logged', ret) := submitLoad gcpToken ndjson totalRows in
      (reqs, logged ++ logged', ret)
  end.

End Pipeline.

(** ** runSync (main.go, lines 216-289)

    [runSync] is run by several goroutines: the one that called it (login,
    discovery, feeding the work queue, collecting), the workers, and the one
    that closes the results channel once the wait group is at zero.  A state
    holds the place each of them has reached, the two buffered channels, and
    what an observer of the run sees; a schedule picks which goroutine moves
    next, and a goroutine that is blocked cannot be picked.  The counters are
    Go [int]s that count records held in memory, far below the point where
    they would wrap, and are natural numbers here. *)

(** A worker (lines 240-253). *)
Inductive worker : Type :=
| WRecv                                    (* at [for user := range userChan] *)
| WSend (conversations : list Conversation) (* at [convChan <- conversations] *)
| WExit.                                   (* returned; [wg.Done()] has run *)

(** The goroutine of lines 263-266. *)
Inductive closer : Type :=
| CNotStarted
| CWait      (* at [wg.Wait()] *)
| CDone.     (* [close(convChan)] has run *)

(** The goroutine that called [runSync]. *)
Inductive mainpc : Type :=
| MStart                                    (* line 217 *)
| MFeed (rest : list User)                  (* the loop at line 257 *)
| MGo                                       (* line 263 *)
| MDry (userCount totalConversations : nat) (* the loop at line 273 *)
| MDrain (gcpToken ndjson : string) (totalRows : nat)
                                            (* the loop at line 509 *)
| MDone (totalConversations : nat) (uploadErr : option error) (ret : option error)
    (* returned [ret]; [uploadErr] is the [err] of line 280 *)
| MPanic.                                   (* the process has crashed *)

Record state : Type := {
  mainPC : mainpc;
  adminToken : string;
  capacity : nat;                        (* [len(users)], of both channels *)
  userChan : list User;
  userChanClosed : bool;
  convChan : list (list Conversation);
  convChanClosed : bool;
  workers : list worker;
  closerPC : closer;
  (* what the run did, in the order it did it *)
  fetched : list User;                   (* arguments of the [processUser] calls *)
  sent : list (list Conversation);       (* batches sent on [convChan] *)
  submissions : list Request;            (* requests to the load endpoint *)
  logs : list LogEvent
}.

Definition set_mainPC (x : mainpc) (s : state) : state :=
  {| mainPC := x; adminToken := adminToken s; capacity := capacity s;
     userChan := userChan s; userChanClosed := userChanClosed s;
     convChan := convChan s; convChanClosed := convChanClosed s;
     workers := workers s; closerPC := closerPC s; fetched := fetched s;
     sent := sent s; submissions := submissions s; logs := logs s |}.

Definition set_userChan (x : list User) (s : state) : state :=
  {| mainPC := mainPC s; adminToken := adminToken s; capacity := capacity s;
     userChan := x; userChanClosed := userChanClosed s;
     convChan := convChan s; convChanClosed := convChanClosed s;
     workers := workers s; closerPC := closerPC s; fetched := fetched s;
     sent := sent s; submissions := submissions s; logs := logs s |}.

Definition close_userChan (s : state) : state :=
  {| mainPC := mainPC s; adminToken := adminToken s; capacity := capacity s;
     userChan := userChan s; userChanClosed := true;
     convChan := convChan s; convChanClosed := convChanClosed s;
     workers := workers s; closerPC := closerPC s; fetched := fetched s;
     sent := sent s; submissions := submissions s; logs := logs s |}.

Definition set_convChan (x : list (list Conversation)) (s : state) : state :=
  {| mainPC := mainPC s; adminToken := adminToken s; capacity := capacity s;
     userChan := userChan s; userChanClosed := userChanClosed s;
     convChan := x; convChanClosed := convChanClosed s;
     workers := workers s; closerPC := closerPC s; fetched := fetched s;
     sent := sent s; submissions := submissions s; logs := logs s |}.

Definition close_convChan (s : state) : state :=
  {| mainPC := mainPC s; adminToken := adminToken s; capacity := capacity s;
     userChan := userChan s; userChanClosed := userChanClosed s;
     convChan := convChan s; convChanClosed := true;
     workers := workers s; closerPC := closerPC s; fetched := fetched s;
     sent := sent s; submissions := submissions s; logs := logs s |}.

Definition set_worker (i : nat) (x : worker) (s : state) : state :=
  {| mainPC := mainPC s; adminToken := adminToken s; capacity := capacity s;
     userChan := userChan s; userChanClosed := userChanClosed s;
     convChan := convChan s; convChanClosed := convChanClosed s;
     workers := <[i := x]> (workers s); closerPC := closerPC s; fetched := fetched s;
     sent := sent s; submissions := submissions s; logs := logs s |}.

Definition set_closerPC (x : closer) (s : state) : state :=
  {| mainPC := mainPC s; adminToken := adminToken s; capacity := capacity s;
     userChan := userChan s; userChanClosed := userChanClosed s;
     convChan := convChan s; convChanClosed := convChanClosed s;
     workers := workers s; closerPC := x; fetched := fetched s;
     sent := sent s; submissions := submissions s; logs := logs s |}.

Definition add_fetched (x : User) (s : state) : state :=
  {| mainPC := mainPC s; adminToken := adminToken s; capacity := capacity s;
     userChan := userChan s; userChanClosed := userChanClosed s;
     convChan := convChan s; convChanClosed := convChanClosed s;
     workers := workers s; closerPC := closerPC s; fetched := fetched s ++ [x];
     sent := sent s; submissions := submissions s; logs := logs s |}.

Definition add_sent (x : list Conversation) (s : state) : state :=
  {| mainPC := mainPC s; adminToken := adminToken s; capacity := capacity s;
     userChan := userChan s; userChanClosed := userChanClosed s;
     convChan := convChan s; convChanClosed := convChanClosed s;
     workers := workers s; closerPC := closerPC s; fetched := fetched s;
     sent := sent s ++ [x]; submissions := submissions s; logs := logs s |}.

Definition add_submissions (x : list Request) (s : state) : state :=
  {| mainPC := mainPC s; adminToken := adminToken s; capacity := capacity s;
     userChan := userChan s; userChanClosed := userChanClosed s;
     convChan := convChan s; convChanClosed := convChanClosed s;
     workers := workers s; closerPC := closerPC s; fetched := fetched s;
     sent := sent s; submissions := submissions s ++ x; logs := logs s |}.

Definition add_logs (x : list LogEvent) (s : state) : state :=
  {| mainPC := mainPC s; adminToken := adminToken s; capacity := capacity s;
     userChan := userChan s; userChanClosed := userChanClosed s;
     convChan := convChan s; convChanClosed := convChanClosed s;
     workers := workers s; closerPC := closerPC s; fetched := fetched s;
     sent := sent s; submissions := submissions s; logs := logs s ++ x |}.

(** The state [runSync] is entered in. *)
Definition initial : state :=
  {| mainPC := MStart; adminToken := EmptyString; capacity := 0;
     userChan := []; userChanClosed := false;
     convChan := []; convChanClosed := false;
     workers := []; closerPC := CNotStarted; fetched := [];
     sent := []; submissions := []; logs := [] |}.

(** Lines 233-254: both channels are made and the pool is started. *)
Definition start_pool (poolSize : nat) (token : string) (users : list User) : state :=
  {| mainPC := MFeed users; adminToken := token; capacity := length users;
     userChan := []; userChanClosed := false;
     convChan := []; convChanClosed := false;
     workers := replicate poolSize WRecv; closerPC := CNotStarted; fetched := [];
     sent := []; submissions := []; logs := [] |}.

Definition isExit (x : worker) : bool :=
  match x with
  | WExit => true
  | _ => false
  end.

Inductive action : Type :=
| ActMain
| ActWorker (workerID : nat)
| ActCloser.

Section Sync.

Variable w : World.
Variable config : Config.
Variable poolSize : nat.   (* [WorkerPoolSize] *)
Variable mode : string.
Variable dryRun : bool.

(** One move of the calling goroutine. *)
Definition stepMain (s : state) : option state :=
  match mainPC s with
  | MStart =>
      match lookerLogin w config (LookerClientID config) (LookerClientSecret config) with
      | Panic => Some (set_mainPC MPanic s)
      | Return (Err err) =>
          Some (set_mainPC (MDone 0 None (Some (ErrWrap "failed to login as admin" err))) s)
      | Return (Ok token) =>
          match searchUsers w config token with
          | Err err =>
              Some (set_mainPC (MDone 0 None (Some (ErrWrap "failed to fetch users" err))) s)
          | Ok users => Some (start_pool poolSize token users)
          end
      end
  | MFeed (user :: rest) =>
      if length (userChan s) <? capacity s
      then Some (set_mainPC (MFeed rest) (set_userChan (userChan s ++ [user]) s))
      else None
  | MFeed [] => Some (set_mainPC MGo (close_userChan s))
  | MGo =>
      let s := set_closerPC CWait s in
      if dryRun
      then Some (set_mainPC (MDry 0 0) s)
      else
        match getGCPToken w with
        | Err err =>
            let err := ErrWrap "failed to get GCP token" err in
            Some (set_mainPC (MDone 0 (Some err) None)
                    (add_logs [LogUploadError err; LogFinished mode 0] s))
        | Ok gcpToken => Some (set_mainPC (MDrain gcpToken EmptyString 0) s)
        end
  | MDry userCount totalConversations =>
      match convChan s with
      | conversations :: rest =>
          Some (set_mainPC (MDry (S userCount) (totalConversations + length conversations))
                  (set_convChan rest s))
      | [] =>
          if convChanClosed s
          then Some (set_mainPC (MDone totalConversations None None)
                       (add_logs [LogDryRun totalConversations userCount;
                                  LogFinished mode totalConversations] s))
          else None
      end
  | MDrain gcpToken ndjson totalRows =>
      match convChan s with
      | data :: rest =>
          let '(logged, ndjson, totalRows) := marshalBatch w data [] ndjson totalRows in
          Some (set_mainPC (MDrain gcpToken ndjson totalRows)
                  (add_logs logged (set_convChan rest s)))
      | [] =>
          if convChanClosed s
          then
            let '(reqs, logged, (totalConversations, err)) :=
              submitLoad w config gcpToken ndjson totalRows in
            let failure :=
              match err with
              | Some err => [LogUploadError err]
              | None => []
              end in
            Some (set_mainPC (MDone totalConversations err None)
                    (add_logs (logged ++ failure ++ [LogFinished mode totalConversations])
                       (add_submissions reqs s)))
          else None
      end
  | MDone _ _ _ => None
  | MPanic => None
  end.

(** One move of worker [workerID]: a receive together with the call of
    [processUser] it leads to, a send, or the return once the queue is closed
    and empty. *)
Definition stepWorker (workerID : nat) (s : state) : option state :=
  match workers s !! workerID with
  | Some WRecv =>
      match userChan s with
      | user :: rest =>
          let userID := formatInt (User_ID user) in
          let '(logged, r) := processUser w config (adminToken s) user mode userID in
          let s := add_logs logged (add_fetched user (set_userChan rest s)) in
          match r with
          | Err err => Some (add_logs [LogWorkerError workerID user err] s)
          | Ok conversations =>
              if 0 <? length conversations
              then Some (set_worker workerID (WSend conversations) s)
              else Some s
          end
      | [] =>
          if userChanClosed s
          then Some (set_worker workerID WExit s)
          else None
      end
  | Some (WSend conversations) =>
      if length (convChan s) <? capacity s
      then Some (set_worker workerID WRecv
                   (add_sent conversations (set_convChan (convChan s ++ [conversations]) s)))
      else None
  | Some WExit => None
  | None => None
  end.

(** The move of the closing goroutine: [wg.Wait()] returns when every worker
    has returned. *)
Definition stepCloser (s : state) : option state :=
  match closerPC s with
  | CWait =>
      if forallb isExit (workers s)
      then Some (set_closerPC CDone (close_convChan s))
      else None
  | _ => None
  end.

Definition step (a : action) (s : state) : option state :=
  match mainPC s with
  | MPanic => None
  | _ =>
      match a with
      | ActMain => stepMain s
      | ActWorker workerID => stepWorker workerID s
      | ActCloser => stepCloser s
      end
  end.

(** Running a schedule; [None] when it picks a goroutine that cannot move. *)
Fixpoint exec (schedule : list action) (s : state) : option state :=
  match schedule with
  | [] => Some s
  | a :: rest =>
      match step a s with
      | Some s' => exec rest s'
      | None => None
      end
  end.

End Sync.

(** Every goroutine of the run has finished (or the process has crashed). *)
Definition finished (s : state) : bool :=
  match mainPC s with
  | MPanic => true
  | MDone _ _ _ =>
      forallb isExit (workers s) &&
      match closerPC s with
      | CWait => false
      | _ => true
      end
  | _ => false
  end.

(** What [runSync] returned, if it has. *)
Definition returned (s : state) : option (option error) :=
  match mainPC s with
  | MDone _ _ ret => Some ret
  | _ => None
  end.

(** ** Pruning as updates along a path

    The shape the proofs use: pruning rewrites the object found under a key,
    when there is one, and leaves every other key alone. *)

Definition onMap (f : gmap string value -> gmap string value) (v : option value) : option value :=
  match v with
  | Some (VObj o) => Some (VObj (f o))
  | _ => v
  end.

Definition updMap (k : string) (f : gmap string value -> gmap string value)
    (m : gmap string value) : gmap string value :=
  match asMap (m !! k) with
  | Some o => <[k := VObj (f o)]> m
  | None => m
  end.

Definition onSlice (f : list value -> list value) (v : option value) : option value :=
  match v with
  | Some (VArr l) => Some (VArr (f l))
  | _ => v
  end.

Definition updSlice (k : string) (f : list value -> list value)
    (m : gmap string value) : gmap string value :=
  match asSlice (m !! k) with
  | Some l => <[k := VArr (f l)]> m
  | None => m
  end.

Definition pruneQuery : gmap string value -> gmap string value :=
  updSlice "datasources" (map pruneDatasource).

Definition pruneSchema (o : gmap string value) : gmap string value :=
  delete "datasources" (delete "result" o).

Definition pruneDebugInfo (debugInfo : gmap string value) : gmap string value :=
  updMap "response" (updMap "data" (updMap "systemMessage" pruneSystemMessage))
    (delete "request" debugInfo).

Fixpoint getPath (path : list string) (v : value) : option value :=
  match path with
  | [] => Some v
  | k :: rest =>
      match v with
      | VObj o =>
          match o !! k with
          | Some v' => getPath rest v'
          | None => None
          end
      | _ => None
      end
  end.

(** ** Notions used to state the properties of the pipeline *)

(** The error [insertToBigQuery] returned to [runSync], if any. *)
Definition uploadError (s : state) : option error :=
  match mainPC s with
  | MDone _ uploadErr _ => uploadErr
  | _ => None
  end.

Section Observations.

Variable w : World.
Variable config : Config.
Variable poolSize : nat.
Variable mode : string.
Variable dryRun : bool.

(** The details [processUser] returns for a listing: those whose fetch
    succeeds, in the order of the listing. *)
Definition details (userToken : string) (conversations : list Conversation)
    : list Conversation :=
  omap (fun c => match getConversationDetail w config userToken (Conv_ID c) with
                 | Ok detail => Some detail
                 | Err _ => None
                 end) conversations.

(** The failures it logs. *)
Definition detailFailures (userToken : string) (conversations : list Conversation)
    : list LogEvent :=
  omap (fun c => match getConversationDetail w config userToken (Conv_ID c) with
                 | Ok _ => None
                 | Err err => Some (LogDetailFailed (Conv_ID c) err)
                 end) conversations.

(** The batch a worker sends for a principal, if it sends one (lines 244-251). *)
Definition workerBatch (token : string) (user : User) : option (list Conversation) :=
  match processUser w config token user mode (formatInt (User_ID user)) with
  | (_, Ok conversations) =>
      if 0 <? length conversations then Some conversations else None
  | (_, Err _) => None
  end.

(** The batches held by workers that are about to send. *)
Definition pending (ws : list worker) : list (list Conversation) :=
  omap (fun x => match x with
                 | WSend conversations => Some conversations
                 | _ => None
                 end) ws.

(** The principals the feeding loop has still to enqueue. *)
Definition tofeed (pc : mainpc) : list User :=
  match pc with
  | MFeed rest => rest
  | _ => []
  end.

(** The number of records in a sequence of batches. *)
Definition totalRecords (batches : list (list Conversation)) : nat :=
  length (concat batches).

(** The rows [insertToBigQuery] serializes from a sequence of batches. *)
Definition serializedRows (batches : list (list Conversation)) : nat :=
  let '(_, _, totalRows) := drainLoop w batches [] EmptyString 0 in totalRows.

(** Whether both parts of the multipart body could be created. *)
Definition partsCreated : bool :=
  match multipart_CreatePart w 0, multipart_CreatePart w 1 with
  | None, None => true
  | _, _ => false
  end.

(** Whether a run that sent [batches] to the results channel gets as far as
    the request to the load endpoint: it is not a dry run, the warehouse
    token was obtained, at least one row was serialized and the multipart
    body could be built. *)
Definition loadDue (batches : list (list Conversation)) : bool :=
  negb dryRun
  && match getGCPToken w with
     | Ok _ => true
     | Err _ => false
     end
  && (0 <? serializedRows batches)
  && partsCreated.

(** The states a schedule can lead to from the entry of [runSync]. *)
Definition reachable (s : state) : Prop :=
  exists schedule, exec w config poolSize mode dryRun schedule initial = Some s.

(** What holds of the calling goroutine at each of its places, once the pool
    has been started. *)
Definition main_inv (s : state) : Prop :=
  match mainPC s with
  | MStart => False
  | MFeed _ =>
      userChanClosed s = false /\ closerPC s = CNotStarted /\
      convChanClosed s = false /\ submissions s = [] /\ sent s = convChan s
  | MGo =>
      userChanClosed s = true /\ closerPC s = CNotStarted /\
      convChanClosed s = false /\ submissions s = [] /\ sent s = convChan s
  | MDry userCount totalConversations =>
      dryRun = true /\ userChanClosed s = true /\ closerPC s <> CNotStarted /\
      submissions s = [] /\
      exists received,
        sent s = received ++ convChan s /\
        userCount = length received /\ totalConversations = totalRecords received
  | MDrain gcpToken ndjson totalRows =>
      dryRun = false /\ userChanClosed s = true /\ closerPC s <> CNotStarted /\
      submissions s = [] /\ getGCPToken w = Ok gcpToken /\
      exists received logged,
        sent s = received ++ convChan s /\
        drainLoop w received [] EmptyString 0 = (logged, ndjson, totalRows)
  | MDone totalConversations uploadErr ret =>
      ret = None /\ userChanClosed s = true /\ closerPC s <> CNotStarted /\
      if dryRun
      then convChanClosed s = true /\ convChan s = [] /\ submissions s = [] /\
           uploadErr = None /\ totalConversations = totalRecords (sent s)
      else
        (exists logged,
           insertToBigQuery w config (sent s)
           = (submissions s, logged, (totalConversations, uploadErr))) /\
        match getGCPToken w with
        | Ok _ => convChanClosed s = true /\ convChan s = []
        | Err _ => sent s = convChan s
        end
  | MPanic => False
  end.

(** The invariant of the pool, for the token and the principals it was
    started with. *)
Record pool_inv (token : string) (users : list User) (s : state) : Prop := {
  pi_token : adminToken s = token;
  pi_capacity : capacity s = length users;
  pi_pool : length (workers s) = poolSize;
  pi_queue : fetched s ++ userChan s ++ tofeed (mainPC s) = users;
  pi_exit : forall i, workers s !! i = Some WExit ->
                      userChanClosed s = true /\ userChan s = [];
  pi_batches : sent s ++ pending (workers s) ≡ₚ omap (workerBatch token) (fetched s);
  pi_closed : convChanClosed s = true <-> closerPC s = CDone;
  pi_waited : convChanClosed s = true -> forallb isExit (workers s) = true;
  pi_main : main_inv s;
  pi_logged : forall err, uploadError s = Some err -> LogUploadError err ∈ logs s
}.

(** The invariant of a run. *)
Inductive run_inv : state -> Prop :=
| inv_start : run_inv initial
| inv_panic :
    lookerLogin w config (LookerClientID config) (LookerClientSecret config) = Panic ->
    run_inv (set_mainPC MPanic initial)
| inv_login_failed err :
    lookerLogin w config (LookerClientID config) (LookerClientSecret config)
    = Return (Err err) ->
    run_inv (set_mainPC (MDone 0 None (Some (ErrWrap "failed to login as admin" err))) initial)
| inv_discovery_failed token err :
    lookerLogin w config (LookerClientID config) (LookerClientSecret config)
    = Return (Ok token) ->
    searchUsers w config token = Err err ->
    run_inv (set_mainPC (MDone 0 None (Some (ErrWrap "failed to fetch users" err))) initial)
| inv_pool token users s :
    lookerLogin w config (LookerClientID config) (LookerClientSecret config)
    = Return (Ok token) ->
    searchUsers w config token = Ok users ->
    pool_inv token users s ->
    run_inv s.

End Observations.

(** ** A bound on the moves a started pool has left *)

Definition mainWeight (pc : mainpc) : nat :=
  match pc with
  | MStart => 0
  | MFeed rest => 4 * length rest + 4
  | MGo => 3
  | MDry _ _ => 1
  | MDrain _ _ _ => 1
  | MDone _ _ _ => 0
  | MPanic => 0
  end.

Definition workerWeight (x : worker) : nat :=
  match x with
  | WRecv => 1
  | WSend _ => 3
  | WExit => 0
  end.

Definition closerWeight (c : closer) : nat :=
  match c with
  | CDone => 0
  | _ => 1
  end.

Definition weight (s : state) : nat :=
  mainWeight (mainPC s) + 3 * length (userChan s)
  + list_sum (map workerWeight (workers s))
  + length (convChan s) + closerWeight (closerPC s).

(** ** A concrete deployment

    The listing of principal 1 fails, principal 2 has no conversation,
    principal 3 has two, and principal 4 has three of which the second cannot
    be fetched.  Further principals cannot be impersonated.  The world is parameterised by
    the local warehouse token, the status the load endpoint answers with, and
    the principals discovery returns. *)

Definition demoConfig : Config :=
  {| LookerClientID := "client"; LookerClientSecret := "secret";
     LookerBaseURL := "https://looker.test";
     GCPProjectID := "project"; GCPRegion := "us-central1";
     BQDataset := "analytics"; BQTable := "conversations";
     LookerUserQueryID := "42" |}.

Definition ok200 (b : string) : result Response :=
  Ok {| StatusCode := 200; RespBody := Ok b |}.

Definition authorization (req : Request) : string :=
  match Header req with
  | (_, v) :: _ => v
  | [] => EmptyString
  end.

Definition detailFields : string :=
  "?fields=id,agent_id,user_id,name,sources,created_at,updated_at,messages,conversation_agent".

Definition demoDo (loadStatus : Z) (req : Request) : result Response :=
  let url := URL req in
  if String.eqb url "https://looker.test/api/4.0/login" then ok200 "admin-token-0001"
  else if String.eqb url "https://looker.test/api/4.0/queries/42/run/json?limit=-1"
  then ok200 "rows"
  else if String.eqb url "https://looker.test/api/4.0/login/1" then ok200 "token-1"
  else if String.eqb url "https://looker.test/api/4.0/login/2" then ok200 "token-2"
  else if String.eqb url "https://looker.test/api/4.0/login/3" then ok200 "token-3"
  else if String.eqb url "https://looker.test/api/4.0/login/4" then ok200 "token-4"
  else if String.eqb url "https://looker.test/api/4.0/conversations/search"
  then
    if String.eqb (authorization req) "token token-1"
    then Ok {| StatusCode := 500; RespBody := Ok "listing unavailable" |}
    else if String.eqb (authorization req) "token token-2" then ok200 "none"
    else if String.eqb (authorization req) "token token-3" then ok200 "two"
    else ok200 "three"
  else if String.eqb url ("https://looker.test/api/4.0/conversations/c1" +:+ detailFields)
  then ok200 "c1"
  else if String.eqb url ("https://looker.test/api/4.0/conversations/c2" +:+ detailFields)
  then ok200 "c2"
  else if String.eqb url "https://looker.test/api/4.0/logout" then ok200 EmptyString
  else if String.eqb url
            "https://bigquery.googleapis.com/upload/bigquery/v2/projects/project/jobs?uploadType=multipart"
  then Ok {| StatusCode := loadStatus; RespBody := Ok "job" |}
  else Err (ErrIO "no route to host").

Definition demoConversation (id : string) (messages : value) : Conversation :=
  {| Conv_ID := id; Conv_UserID := "3"; Conv_AgentID := "agent"; Conv_Name := id;
     Conv_Sources := VNull; Conv_CreatedAt := "2026-01-01"; Conv_UpdatedAt := "2026-01-01";
     Conv_Messages := messages; Conv_ConversationAgent := VNull |}.

(** A user message with debug information, as the source system returns it. *)
Definition demoUserBody : gmap string value :=
  <["userMessage" := VObj (<["text" := VStr "revenue by month"]> ∅)]>
    (<["debugInfo" := VObj (<["request" := VStr "raw request"]> ∅)]>
       (<["id" := VStr "m1"]> ∅)).
Definition demoUserNode : gmap string value :=
  <["type" := VStr "user"]> (<["message" := VObj demoUserBody]> ∅).

(** A system message carrying a schema. *)
Definition demoSchema : gmap string value :=
  <["kind" := VStr "schema"]>
    (<["result" := VArr [VStr "bulk"]]>
       (<["datasources" := VArr [VObj (<["schema" := VStr "wide"]> ∅)]]> ∅)).
Definition demoSysMsg : gmap string value := <["schema" := VObj demoSchema]> ∅.
Definition demoRespData : gmap string value := <["systemMessage" := VObj demoSysMsg]> ∅.
Definition demoResponse : gmap string value := <["data" := VObj demoRespData]> ∅.
Definition demoDebugInfo : gmap string value :=
  <["request" := VStr "raw request"]> (<["response" := VObj demoResponse]> ∅).
Definition demoSystemBody : gmap string value :=
  <["systemMessage" := VObj demoSysMsg]> (<["debugInfo" := VObj demoDebugInfo]> ∅).
Definition demoSystemNode : gmap string value :=
  <["type" := VStr "system"]> (<["message" := VObj demoSystemBody]> ∅).

(** A system message whose debug information has no response. *)
Definition demoBrokenDebugInfo : gmap string value :=
  <["request" := VStr "raw request"]> (<["response" := VStr "lost"]> ∅).
Definition demoBrokenBody : gmap string value :=
  <["debugInfo" := VObj demoBrokenDebugInfo]> ∅.
Definition demoBrokenNode : gmap string value :=
  <["type" := VStr "system"]> (<["message" := VObj demoBrokenBody]> ∅).

(** A message of another kind. *)
Definition demoOtherBody : gmap string value := <["debugInfo" := VStr "kept"]> ∅.
Definition demoOtherNode : gmap string value :=
  <["type" := VStr "tool"]> (<["message" := VObj demoOtherBody]> ∅).

Definition demoMessages : list value :=
  [VObj demoUserNode; VObj demoSystemNode; VObj demoBrokenNode; VObj demoOtherNode;
   VStr "noise"].

Definition demoUser (n : nat) : User :=
  {| User_ID := Z.of_nat n; User_Email := "user@looker.test" |}.

Definition demoWorld (gcpToken : string) (loadStatus : Z) (principals : nat) : World :=
  {| client_Do := demoDo loadStatus;
     time_Now := "2026-01-01";
     GCP_ACCESS_TOKEN := gcpToken;
     decode_AuthToken := fun b => Ok {| AccessToken := b; ExpiresIn := 3600 |};
     decode_Users := fun _ => Ok (map demoUser (seq 1 principals));
     decode_Conversations := fun b =>
       if String.eqb b "two"
       then Ok [demoConversation "c1" VNull; demoConversation "c2" VNull]
       else if String.eqb b "three"
       then Ok [demoConversation "c1" VNull; demoConversation "c9" VNull;
                demoConversation "c2" VNull]
       else Ok [];
     decode_Conversation := fun b => Ok (demoConversation b (VArr demoMessages));
     decode_AccessToken := fun b => Ok b;
     json_Marshal := fun c => Ok ("{id:" +:+ Conv_ID c +:+ "}");
     multipart_Boundary := "boundary";
     multipart_CreatePart := fun _ => None |}.

(** A fair scheduler: at time [t] the caller moves if it can, else the first
    worker that can, starting from worker [t mod poolSize], else the closing
    goroutine.  It gives the schedule of the moves it makes. *)
Definition candidates (poolSize t : nat) : list action :=
  ActMain :: map (fun k => ActWorker ((t + k) mod poolSize)) (seq 0 poolSize)
  ++ [ActCloser].

Fixpoint firstEnabled (move : action -> state -> option state) (cands : list action)
    (s : state) : option (action * state) :=
  match cands with
  | [] => None
  | a :: rest =>
      match move a s with
      | Some s' => Some (a, s')
      | None => firstEnabled move rest s
      end
  end.

Fixpoint roundRobin (move : action -> state -> option state) (poolSize fuel t : nat)
    (s : state) : list action :=
  match fuel with
  | 0 => []
  | S fuel =>
      match firstEnabled move (candidates poolSize t) s with
      | Some (a, s') => a :: roundRobin move poolSize fuel (S t) s'
      | None => []
      end
  end.

Definition demoSchedule (w : World) (poolSize : nat) (mode : string) (dryRun : bool)
    : list action :=
  roundRobin (step w demoConfig poolSize mode dryRun) poolSize 2000 0 initial.

(** The state a schedule ends in ([initial] if it cannot be followed). *)
Definition finalState (w : World) (config : Config) (poolSize : nat) (mode : string)
    (dryRun : bool) (schedule : list action) : state :=
  match exec w config poolSize mode dryRun schedule initial with
  | Some s => s
  | None => initial
  end.

(** The details the demo world serves for [c1] and [c2], after pruning. *)
Definition demoDetail (id : string) : Conversation :=
  demoConversation id (VArr (PruneAgentMessages demoMessages)).

(** The runs used as examples: a live run whose load is accepted, one whose
    warehouse token cannot be obtained, one whose load is refused, and a dry
    run over 200 principals. *)
Definition acceptedWorld : World := demoWorld "local-token" 200 3.
Definition acceptedRun : state :=
  finalState acceptedWorld demoConfig WorkerPoolSize "historical" false
    (demoSchedule acceptedWorld WorkerPoolSize "historical" false).

Definition tokenlessWorld : World := demoWorld EmptyString 200 3.
Definition tokenlessRun : state :=
  finalState tokenlessWorld demoConfig WorkerPoolSize "historical" false
    (demoSchedule tokenlessWorld WorkerPoolSize "historical" false).

Definition refusedWorld : World := demoWorld "local-token" 500 3.
Definition refusedRun : state :=
  finalState refusedWorld demoConfig WorkerPoolSize "historical" false
    (demoSchedule refusedWorld WorkerPoolSize "historical" false).

Definition largeWorld : World := demoWorld "local-token" 200 200.
Definition largeRun : state :=
  finalState largeWorld demoConfig WorkerPoolSize "historical" true
    (demoSchedule largeWorld WorkerPoolSize "historical" true).

Definition demoPayload : string :=
  (("{id:c1}" +:+ newline) +:+ "{id:c2}") +:+ newline.

(** ** A system message with every prunable part *)

Definition richText : gmap string value :=
  <["thoughtSignature" := VStr "sig-text"]> (<["parts" := VArr [VStr "answer"]]> ∅).
Definition richDatasource : gmap string value :=
  <["schema" := VStr "wide"]> (<["name" := VStr "orders"]> ∅).
Definition richQuery : gmap string value :=
  <["datasources" := VArr [VObj richDatasource; VStr "inline"]]>
    (<["question" := VStr "revenue by month"]> ∅).
Definition richData : gmap string value :=
  <["result" := VArr [VStr "rows"]]>
    (<["formattedData" := VStr "table"]>
       (<["query" := VObj richQuery]> (<["name" := VStr "monthly"]> ∅))).
Definition richChart : gmap string value :=
  <["result" := VStr "vega"]> (<["query" := VStr "bar chart"]> ∅).
Definition richSysMsg : gmap string value :=
  <["text" := VObj richText]>
    (<["thoughtSignature" := VStr "sig"]>
       (<["data" := VObj richData]>
          (<["chart" := VObj richChart]> (<["groupId" := VStr "g1"]> ∅)))).
Definition richRespData : gmap string value :=
  <["systemMessage" := VObj richSysMsg]> (<["timestamp" := VStr "t0"]> ∅).
Definition richResponse : gmap string value :=
  <["data" := VObj richRespData]> (<["status" := VStr "ok"]> ∅).
Definition richDebugInfo : gmap string value :=
  <["request" := VStr "raw request"]>
    (<["response" := VObj richResponse]> (<["latency" := VStr "12ms"]> ∅)).
Definition richBody : gmap string value :=
  <["systemMessage" := VObj richSysMsg]>
    (<["debugInfo" := VObj richDebugInfo]> (<["id" := VStr "m2"]> ∅)).
Definition richNode : gmap string value :=
  <["type" := VStr "system"]>
    (<["message" := VObj richBody]> (<["order" := VStr "7"]> ∅)).
Definition richMessages : list value := [VObj demoUserNode; VObj richNode].

(** ** The requests of the source-system calls, as the functions build them *)

(** Lines 316-319. *)
Definition loginRequest (config : Config) (clientID clientSecret : string) : Request :=
  {| Method := "POST"; URL := LookerBaseURL config +:+ "/api/4.0/login";
     Header := [("Content-Type", "application/x-www-form-urlencoded")];
     ReqBody := TextBody ("client_id=" +:+ clientID +:+ "&client_secret=" +:+ clientSecret) |}.

(** Lines 473-476. *)
Definition detailRequest (config : Config) (token id : string) : Request :=
  {| Method := "GET";
     URL := LookerBaseURL config +:+ "/api/4.0/conversations/" +:+ id +:+ "?fields="
            +:+ "id,agent_id,user_id,name,sources,created_at,updated_at,messages,conversation_agent";
     Header := [("Authorization", "token " +:+ token)];
     ReqBody := NoBody |}.

(** A conversation whose message list, if it has one, is left as it is by
    [PruneAgentMessages]. *)
Definition prunedConversation (c : Conversation) : Prop :=
  forall msgs, Conv_Messages c = VArr msgs -> PruneAgentMessages msgs = msgs.

(** ** The payload of a load job *)

(** The records of a list that [json.Marshal] serializes, serialized, and the
    warnings logged for the others (lines 511-515). *)
Definition serialized (w : World) (records : list Conversation) : list string :=
  omap (fun c => match json_Marshal w c with
                 | Ok b => Some b
                 | Err _ => None
                 end) records.

Definition marshalWarnings (w : World) (records : list Conversation) : list LogEvent :=
  omap (fun c => match json_Marshal w c with
                 | Ok _ => None
                 | Err err => Some (LogMarshalWarning (Conv_ID c) err)
                 end) records.

(** Newline-delimited rows: each row followed by a line feed. *)
Fixpoint ndjsonLines (rows : list string) : string :=
  match rows with
  | [] => EmptyString
  | b :: rest => b +:+ newline +:+ ndjsonLines rest
  end.

(** The report of a dry run, once it has been logged (line 277). *)
Definition dryReported (s : state) : Prop :=
  match mainPC s with
  | MDone total _ _ => LogDryRun total (length (sent s)) ∈ logs s
  | _ => True
  end.

(** ** The trigger handlers (main.go, lines 176-214)

    A handler sees the method and the query of the request, writes a status
    and a body, and may start [runSync] in a goroutine of its own before it
    answers; it does not wait for the run. *)

Record Trigger : Type := {
  TriggerMethod : string;                 (* [r.Method] *)
  TriggerQuery : list (string * string)   (* [r.URL.Query()], in the order given *)
}.

(** [url.Values.Get]: the first value of the key, the empty string if it has
    none. *)
Fixpoint queryGet (query : list (string * string)) (key : string) : string :=
  match query with
  | [] => EmptyString
  | (k, v) :: rest => if String.eqb k key then v else queryGet rest key
  end.

Record Reply : Type := {
  ReplyStatus : Z;
  ReplyBody : string;
  Started : option (string * bool)   (* the [runSync(mode, dryRun)] started *)
}.

Definition handleDaily (r : Trigger) : Reply :=
  if negb (String.eqb (TriggerMethod r) "POST")
  then {| ReplyStatus := 405; ReplyBody := "Method not allowed" +:+ newline;
          Started := None |}
  else
    let dryRun := String.eqb (queryGet (TriggerQuery r) "dry-run") "true" in
    {| ReplyStatus := 202; ReplyBody := "Daily sync triggered" +:+ newline;
       Started := Some ("daily", dryRun) |}.

Definition handleHistorical (r : Trigger) : Reply :=
  if negb (String.eqb (TriggerMethod r) "POST")
  then {| ReplyStatus := 405; ReplyBody := "Method not allowed" +:+ newline;
          Started := None |}
  else
    let dryRun := String.eqb (queryGet (TriggerQuery r) "dry-run") "true" in
    {| ReplyStatus := 202; ReplyBody := "Historical sync triggered" +:+ newline;
       Started := Some ("historical", dryRun) |}.

(** ** loadConfig (main.go, lines 291-313)

    [getenv] is [os.Getenv] as the process starts; [dotenv] is [os.Getenv]
    once [godotenv.Load()] has run, whether it returned an error (which is
    only logged) or not.  [None] is [log.Fatal]. *)
Definition loadConfig (getenv dotenv : string -> string) : option Config :=
  let getenv :=
    if String.eqb (getenv "LOCAL_DEV") "true" then dotenv else getenv in
  let config :=
    {| LookerClientID := getenv "LOOKER_CLIENT_ID";
       LookerClientSecret := getenv "LOOKER_CLIENT_SECRET";
       LookerBaseURL := getenv "LOOKER_BASE_URL";
       GCPProjectID := getenv "GCP_PROJECT_ID";
       GCPRegion := getenv "GCP_REGION";
       BQDataset := getenv "BQ_DATASET";
       BQTable := getenv "BQ_TABLE";
       LookerUserQueryID := getenv "LOOKER_USER_QUERY_ID" |} in
  if String.eqb (LookerClientID config) EmptyString
     || String.eqb (LookerClientSecret config) EmptyString
     || String.eqb (LookerBaseURL config) EmptyString
     || String.eqb (LookerUserQueryID config) EmptyString
  then None
  else Some config.

(** ** Further concrete worlds and runs *)

(** The source system cannot be reached. *)
Definition offlineWorld : World :=
  {| client_Do := fun _ => Err (ErrIO "no route to host");
     time_Now := time_Now acceptedWorld;
     GCP_ACCESS_TOKEN := GCP_ACCESS_TOKEN acceptedWorld;
     decode_AuthToken := decode_AuthToken acceptedWorld;
     decode_Users := decode_Users acceptedWorld;
     decode_Conversations := decode_Conversations acceptedWorld;
     decode_Conversation := decode_Conversation acceptedWorld;
     decode_AccessToken := decode_AccessToken acceptedWorld;
     json_Marshal := json_Marshal acceptedWorld;
     multipart_Boundary := multipart_Boundary acceptedWorld;
     multipart_CreatePart := multipart_CreatePart acceptedWorld |}.
Definition offlineRun : state :=
  finalState offlineWorld demoConfig WorkerPoolSize "daily" false
    (demoSchedule offlineWorld WorkerPoolSize "daily" false).

(** Login answers with an access token of five bytes. *)
Definition shortTokenWorld : World :=
  {| client_Do := client_Do acceptedWorld;
     time_Now := time_Now acceptedWorld;
     GCP_ACCESS_TOKEN := GCP_ACCESS_TOKEN acceptedWorld;
     decode_AuthToken := fun _ => Ok {| AccessToken := "short"; ExpiresIn := 3600 |};
     decode_Users := decode_Users acceptedWorld;
     decode_Conversations := decode_Conversations acceptedWorld;
     decode_Conversation := decode_Conversation acceptedWorld;
     decode_AccessToken := decode_AccessToken acceptedWorld;
     json_Marshal := json_Marshal acceptedWorld;
     multipart_Boundary := multipart_Boundary acceptedWorld;
     multipart_CreatePart := multipart_CreatePart acceptedWorld |}.

(** The accepted run after its first three moves: the caller is feeding. *)
Definition feedingRun : state :=
  finalState acceptedWorld demoConfig WorkerPoolSize "historical" false
    (take 3 (demoSchedule acceptedWorld WorkerPoolSize "historical" false)).

(** The environment of a deployment that sets the source system only. *)
Definition demoGetenv (name : string) : string :=
  if String.eqb name "LOOKER_CLIENT_ID" then "client"
  else if String.eqb name "LOOKER_CLIENT_SECRET" then "secret"
  else if String.eqb name "LOOKER_BASE_URL" then "https://looker.test"
  else if String.eqb name "LOOKER_USER_QUERY_ID" then "42"
  else EmptyString.

(** The source system refuses the detail of [c9]: the answer has status 404
    and the body [{}], which decodes, as a JSON object with none of the
    fields does, to the conversation with every field at its zero value.
    Everything else is as in the deployment over 200 principals. *)
Definition zeroConversation : Conversation :=
  {| Conv_ID := EmptyString; Conv_UserID := EmptyString; Conv_AgentID := EmptyString;
     Conv_Name := EmptyString; Conv_Sources := VNull;
     Conv_CreatedAt := EmptyString; Conv_UpdatedAt := EmptyString;
     Conv_Messages := VNull; Conv_ConversationAgent := VNull |}.

Definition notFound : Response := {| StatusCode := 404; RespBody := Ok "{}" |}.

Definition notFoundWorld : World :=
  {| client_Do := fun req =>
       if String.eqb (URL req)
            ("https://looker.test/api/4.0/conversations/c9" +:+ detailFields)
       then Ok notFound
       else client_Do largeWorld req;
     time_Now := time_Now largeWorld;
     GCP_ACCESS_TOKEN := GCP_ACCESS_TOKEN largeWorld;
     decode_AuthToken := decode_AuthToken largeWorld;
     decode_Users := decode_Users largeWorld;
     decode_Conversations := decode_Conversations largeWorld;
     decode_Conversation := fun b =>
       if String.eqb b "{}" then Ok zeroConversation
       else decode_Conversation largeWorld b;
     decode_AccessToken := decode_AccessToken largeWorld;
     json_Marshal := json_Marshal largeWorld;
     multipart_Boundary := multipart_Boundary largeWorld;
     multipart_CreatePart := multipart_CreatePart largeWorld |}.

(** * Properties of the pruning *)

Lemma lookup_updMap k f m k' :
  updMap k f m !! k' = if decide (k = k') then onMap f (m !! k) else m !! k'.
Proof.
  unfold updMap, asMap, onMap.
  destruct (m !! k) as [[]|] eqn:E; case_decide; subst; simplify_map_eq; done.
Qed.

Lemma onMap_idemp f v : (forall o, f (f o) = f o) -> onMap f (onMap f v) = onMap f v.
Proof. intros H. destruct v as [[]|]; simpl; try done. by rewrite H. Qed.

Lemma pruneDatasource_idemp v : pruneDatasource (pruneDatasource v) = pruneDatasource v.
Proof. destruct v; simpl; try done. by rewrite delete_delete_eq. Qed.

Lemma lookup_updSlice k f m k' :
  updSlice k f m !! k' = if decide (k = k') then onSlice f (m !! k) else m !! k'.
Proof.
  unfold updSlice, asSlice, onSlice.
  destruct (m !! k) as [[]|] eqn:E; case_decide; subst; simplify_map_eq; done.
Qed.

Lemma onSlice_idemp f v : (forall l, f (f l) = f l) -> onSlice f (onSlice f v) = onSlice f v.
Proof. intros H. destruct v as [[]|]; simpl; try done. by rewrite H. Qed.

Ltac lookups :=
  repeat first [ rewrite lookup_updMap | rewrite lookup_updSlice
               | rewrite lookup_delete | rewrite lookup_insert ].

Lemma pruneData_normal d :
  pruneData d = updMap "query" pruneQuery (delete "formattedData" (delete "result" d)).
Proof.
  unfold pruneData, updMap, pruneQuery, updSlice.
  destruct (asMap _) as [q|] eqn:E; [|done].
  destruct (asSlice _) as [ds|] eqn:E'; [done|].
  symmetry. apply insert_id.
  unfold asMap in E. destruct (_ !! "query") as [[]|]; naive_solver.
Qed.

Lemma pruneSystemMessage_normal s :
  pruneSystemMessage s =
  updMap "chart" (delete "result")
    (updMap "data" pruneData
       (updMap "schema" pruneSchema
          (delete "thoughtSignature" (updMap "text" (delete "thoughtSignature") s)))).
Proof. reflexivity. Qed.

Lemma pruneSystemBody_normal b :
  pruneSystemBody b = updMap "debugInfo" pruneDebugInfo (delete "systemMessage" b).
Proof.
  unfold pruneSystemBody, pruneDebugInfo.
  unfold updMap at 1.
  destruct (asMap (delete "systemMessage" b !! "debugInfo")) as [di|] eqn:Edi; [|done].
  assert (Hdi : delete "systemMessage" b !! "debugInfo" = Some (VObj di)).
  { unfold asMap in Edi. destruct (_ !! "debugInfo") as [[]|]; naive_solver. }
  unfold updMap at 1.
  destruct (asMap (delete "request" di !! "response")) as [r|] eqn:Er.
  2:{ done. }
  assert (Hr : delete "request" di !! "response" = Some (VObj r)).
  { unfold asMap in Er. destruct (_ !! "response") as [[]|]; naive_solver. }
  unfold updMap at 1.
  destruct (asMap (r !! "data")) as [rd|] eqn:Erd.
  2:{ by rewrite (insert_id _ _ _ Hr). }
  assert (Hrd : r !! "data" = Some (VObj rd)).
  { unfold asMap in Erd. destruct (_ !! "data") as [[]|]; naive_solver. }
  unfold updMap at 1.
  destruct (asMap (rd !! "systemMessage")) as [sm|] eqn:Esm.
  2:{ by rewrite (insert_id _ _ _ Hrd), (insert_id _ _ _ Hr). }
  done.
Qed.

Lemma asMap_Some v o : asMap v = Some o -> v = Some (VObj o).
Proof. destruct v as [[]|]; simpl; congruence. Qed.

Lemma asSlice_Some v l : asSlice v = Some l -> v = Some (VArr l).
Proof. destruct v as [[]|]; simpl; congruence. Qed.

Lemma updMap_idemp k f m :
  (forall o, f (f o) = f o) -> updMap k f (updMap k f m) = updMap k f m.
Proof.
  intros H. apply map_eq. intros i. lookups.
  repeat case_decide; simplify_eq; try done. by apply onMap_idemp.
Qed.

Lemma pruneQuery_idemp q : pruneQuery (pruneQuery q) = pruneQuery q.
Proof.
  unfold pruneQuery. apply map_eq. intros i. lookups.
  repeat case_decide; simplify_eq; try done. apply onSlice_idemp. intros l.
  rewrite map_map. apply map_ext. intros; apply pruneDatasource_idemp.
Qed.

Lemma pruneData_idemp d : pruneData (pruneData d) = pruneData d.
Proof.
  rewrite !pruneData_normal. apply map_eq. intros i. lookups.
  repeat case_decide; simplify_eq; try done.
  apply onMap_idemp, pruneQuery_idemp.
Qed.

Lemma pruneSchema_idemp o : pruneSchema (pruneSchema o) = pruneSchema o.
Proof.
  unfold pruneSchema. apply map_eq. intros i. lookups.
  repeat case_decide; simplify_eq; done.
Qed.

Lemma delete_idemp (k : string) (o : gmap string value) : delete k (delete k o) = delete k o.
Proof. apply delete_delete_eq. Qed.

Lemma lookup_pruneSystemMessage s k :
  pruneSystemMessage s !! k =
  if decide (k = "chart") then onMap (delete "result") (s !! "chart")
  else if decide (k = "data") then onMap pruneData (s !! "data")
  else if decide (k = "schema") then onMap pruneSchema (s !! "schema")
  else if decide (k = "thoughtSignature") then None
  else if decide (k = "text") then onMap (delete "thoughtSignature") (s !! "text")
  else s !! k.
Proof.
  rewrite pruneSystemMessage_normal. lookups.
  repeat case_decide; simplify_eq; done.
Qed.

Lemma pruneSystemMessage_idemp s :
  pruneSystemMessage (pruneSystemMessage s) = pruneSystemMessage s.
Proof.
  apply map_eq. intros k.
  rewrite (lookup_pruneSystemMessage (pruneSystemMessage s) k).
  repeat case_decide; subst; rewrite !lookup_pruneSystemMessage;
    repeat case_decide; try done;
    apply onMap_idemp; auto using pruneData_idemp, pruneSchema_idemp, delete_idemp.
Qed.

Lemma pruneDebugInfo_idemp d : pruneDebugInfo (pruneDebugInfo d) = pruneDebugInfo d.
Proof.
  unfold pruneDebugInfo. apply map_eq. intros i. lookups.
  repeat case_decide; simplify_eq; try done.
  apply onMap_idemp. intros o. apply updMap_idemp. intros o'.
  apply updMap_idemp, pruneSystemMessage_idemp.
Qed.

Lemma pruneSystemBody_idemp b : pruneSystemBody (pruneSystemBody b) = pruneSystemBody b.
Proof.
  rewrite !pruneSystemBody_normal. apply map_eq. intros i. lookups.
  repeat case_decide; simplify_eq; try done.
  apply onMap_idemp, pruneDebugInfo_idemp.
Qed.

Lemma pruneSystemBody_userMessage b :
  pruneSystemBody b !! "userMessage" = b !! "userMessage".
Proof.
  rewrite pruneSystemBody_normal. lookups. repeat case_decide; simplify_eq; done.
Qed.

Lemma pruneMessage_user msg body u :
  msg !! "message" = Some (VObj body) -> body !! "userMessage" = Some u ->
  pruneMessage (VObj msg) = VObj (<["message" := VObj (delete "debugInfo" body)]> msg).
Proof. intros Hb Hu. unfold pruneMessage. by rewrite Hb; simpl; rewrite Hu. Qed.

Lemma pruneMessage_system msg body :
  msg !! "message" = Some (VObj body) -> body !! "userMessage" = None ->
  ifaceEqString (msg !! "type") "system" = true ->
  pruneMessage (VObj msg) = VObj (<["message" := VObj (pruneSystemBody body)]> msg).
Proof. intros Hb Hu Ht. unfold pruneMessage. by rewrite Hb; simpl; rewrite Hu, Ht. Qed.

Lemma pruneMessage_other msg body :
  msg !! "message" = Some (VObj body) -> body !! "userMessage" = None ->
  ifaceEqString (msg !! "type") "system" = false ->
  pruneMessage (VObj msg) = VObj msg.
Proof. intros Hb Hu Ht. unfold pruneMessage. by rewrite Hb; simpl; rewrite Hu, Ht. Qed.

Lemma pruneMessage_no_body msg :
  asMap (msg !! "message") = None -> pruneMessage (VObj msg) = VObj msg.
Proof. intros Hb. unfold pruneMessage. by rewrite Hb. Qed.

Lemma pruneMessage_idemp m : pruneMessage (pruneMessage m) = pruneMessage m.
Proof.
  destruct m as [| | | | |msg]; try done.
  destruct (asMap (msg !! "message")) as [body|] eqn:Eb.
  2:{ by rewrite !(pruneMessage_no_body _ Eb). }
  apply asMap_Some in Eb.
  destruct (body !! "userMessage") as [u|] eqn:Eu.
  - rewrite (pruneMessage_user _ _ _ Eb Eu).
    erewrite pruneMessage_user.
    + by rewrite insert_insert_eq, delete_delete_eq.
    + apply lookup_insert_eq.
    + rewrite lookup_delete_ne; [exact Eu|done].
  - destruct (ifaceEqString (msg !! "type") "system") eqn:Et.
    + rewrite (pruneMessage_system _ _ Eb Eu Et).
      erewrite pruneMessage_system.
      * by rewrite insert_insert_eq, pruneSystemBody_idemp.
      * apply lookup_insert_eq.
      * by rewrite pruneSystemBody_userMessage.
      * rewrite lookup_insert_ne; [exact Et|done].
    + by rewrite !(pruneMessage_other _ _ Eb Eu Et).
Qed.

(** C3.  Pruning is idempotent: pruning a pruned message list changes
    nothing. *)
Theorem C3_prune_idempotent (messages : list value) :
  PruneAgentMessages (PruneAgentMessages messages) = PruneAgentMessages messages.
Proof.
  unfold PruneAgentMessages. rewrite map_map. apply map_ext.
  intros; apply pruneMessage_idemp.
Qed.

Lemma PruneAgentMessages_lookup messages i m :
  messages !! i = Some m ->
  PruneAgentMessages messages !! i = Some (pruneMessage m).
Proof.
  intros H. unfold PruneAgentMessages.
  change (map pruneMessage messages) with (pruneMessage <$> messages).
  by rewrite list_lookup_fmap, H.
Qed.

(** C4.  A node whose body carries the [userMessage] key and a [debugInfo]
    field is pruned to the same node with [debugInfo] removed from the body:
    every other field of the body and every field of the node other than the
    body is as before. *)
Theorem C4_user_message_loses_only_debugInfo
    (messages : list value) (i : nat) (msg body : gmap string value) :
  messages !! i = Some (VObj msg) ->
  msg !! "message" = Some (VObj body) ->
  is_Some (body !! "userMessage") ->
  is_Some (body !! "debugInfo") ->
  exists msg' body' : gmap string value,
    PruneAgentMessages messages !! i = Some (VObj msg') /\
    msg' !! "message" = Some (VObj body') /\
    body' !! "debugInfo" = None /\
    (forall k, k <> "debugInfo" -> body' !! k = body !! k) /\
    (forall k, k <> "message" -> msg' !! k = msg !! k).
Proof.
  intros Hi Hb [u Hu] _.
  exists (<["message" := VObj (delete "debugInfo" body)]> msg), (delete "debugInfo" body).
  rewrite (PruneAgentMessages_lookup _ _ _ Hi).
  rewrite (pruneMessage_user _ _ _ Hb Hu).
  split; [done|]. split; [apply lookup_insert_eq|].
  split; [apply lookup_delete_eq|].
  split; intros k Hk.
  - by apply lookup_delete_ne.
  - by apply lookup_insert_ne.
Qed.

Lemma ifaceEqString_true v s : ifaceEqString v s = true <-> v = Some (VStr s).
Proof.
  destruct v as [[]|]; simpl; try (split; [done|congruence]).
  rewrite bool_decide_eq_true. split; congruence.
Qed.

Lemma ifaceEqString_false v s : ifaceEqString v s = false <-> v <> Some (VStr s).
Proof.
  rewrite <- ifaceEqString_true. destruct (ifaceEqString v s); split; congruence.
Qed.

(** C5.  For a system message (type "system", no [userMessage] key in the
    body) whose path debugInfo, response, data, systemMessage, schema is made
    of objects and whose schema has [result] and [datasources], the pruned
    node has a schema object at the same path without these two fields and
    with every other field of the schema as before. *)
Theorem C5_schema_bulk_fields_removed
    (messages : list value) (i : nat)
    (msg body debugInfo response data sysMsg schema : gmap string value) :
  messages !! i = Some (VObj msg) ->
  msg !! "type" = Some (VStr "system") ->
  msg !! "message" = Some (VObj body) ->
  body !! "userMessage" = None ->
  body !! "debugInfo" = Some (VObj debugInfo) ->
  debugInfo !! "response" = Some (VObj response) ->
  response !! "data" = Some (VObj data) ->
  data !! "systemMessage" = Some (VObj sysMsg) ->
  sysMsg !! "schema" = Some (VObj schema) ->
  is_Some (schema !! "result") ->
  is_Some (schema !! "datasources") ->
  exists (node' : value) (schema' : gmap string value),
    PruneAgentMessages messages !! i = Some node' /\
    getPath ["message"; "debugInfo"; "response"; "data"; "systemMessage"; "schema"] node'
      = Some (VObj schema') /\
    schema' !! "result" = None /\
    schema' !! "datasources" = None /\
    (forall k, k <> "result" -> k <> "datasources" -> schema' !! k = schema !! k).
Proof.
  intros Hi Ht Hb Hu Hdi Hr Hd Hs Hsc _ _.
  eexists _, (pruneSchema schema).
  rewrite (PruneAgentMessages_lookup _ _ _ Hi).
  apply ifaceEqString_true in Ht.
  rewrite (pruneMessage_system _ _ Hb Hu Ht).
  split; [reflexivity|]. split.
  - simpl. rewrite lookup_insert_eq.
    rewrite pruneSystemBody_normal. lookups. simpl.
    rewrite Hdi. simpl.
    unfold pruneDebugInfo. lookups. simpl. rewrite Hr. simpl.
    lookups. simpl. rewrite Hd. simpl.
    lookups. simpl. rewrite Hs. simpl.
    rewrite pruneSystemMessage_normal. lookups. simpl.
    by rewrite Hsc.
  - unfold pruneSchema. split; [|split].
    + lookups. by repeat case_decide.
    + lookups. by repeat case_decide.
    + intros k H1 H2. lookups. by repeat case_decide.
Qed.

Lemma pruneDebugInfo_broken di :
  asMap (getPath ["response"; "data"; "systemMessage"] (VObj di)) = None ->
  pruneDebugInfo di = delete "request" di.
Proof.
  intros H. unfold pruneDebugInfo. apply map_eq. intros k. lookups.
  repeat case_decide; simplify_eq; try done.
  simpl in H.
  destruct (di !! "response") as [[| | | | |r]|]; simpl; try done.
  do 2 f_equal. apply map_eq. intros k. lookups.
  case_decide; simplify_eq; try done.
  destruct (r !! "data") as [[| | | | |d]|]; simpl; try done.
  do 2 f_equal. apply map_eq. intros k. lookups.
  case_decide; simplify_eq; try done.
  destruct (d !! "systemMessage") as [[]|]; simpl; try done.
Qed.

Lemma pruneSystemBody_no_debugInfo body :
  asMap (body !! "debugInfo") = None -> pruneSystemBody body = delete "systemMessage" body.
Proof.
  intros H. unfold pruneSystemBody.
  rewrite lookup_delete_ne; [|done]. by rewrite H.
Qed.

Lemma pruneSystemBody_debugInfo body di :
  body !! "debugInfo" = Some (VObj di) ->
  pruneSystemBody body =
  <["debugInfo" := VObj (pruneDebugInfo di)]> (delete "systemMessage" body).
Proof.
  intros H. rewrite pruneSystemBody_normal. unfold updMap.
  rewrite lookup_delete_ne; [|done]. by rewrite H.
Qed.

(** C8.  Pruning returns a list of the same length, with a result at every
    position.  An element that is not an object holding an object under
    [message] is unchanged; so is a node that is neither a user message nor
    of type "system".  For a system message, a [debugInfo] that is absent or
    not an object leaves only the removal of the body's [systemMessage]; a
    later segment of the path response, data, systemMessage that is absent or
    not an object leaves, besides that, only the removal of [request] from
    [debugInfo]. *)
Theorem C8_prune_total_and_shape_tolerant (messages : list value) :
  length (PruneAgentMessages messages) = length messages /\
  forall (i : nat) (m : value),
    messages !! i = Some m ->
    (exists m', PruneAgentMessages messages !! i = Some m') /\
    ((forall msg, m = VObj msg -> asMap (msg !! "message") = None) ->
     PruneAgentMessages messages !! i = Some m) /\
    (forall msg body,
       m = VObj msg ->
       msg !! "message" = Some (VObj body) ->
       body !! "userMessage" = None ->
       msg !! "type" <> Some (VStr "system") ->
       PruneAgentMessages messages !! i = Some m) /\
    (forall msg body,
       m = VObj msg ->
       msg !! "type" = Some (VStr "system") ->
       msg !! "message" = Some (VObj body) ->
       body !! "userMessage" = None ->
       (asMap (body !! "debugInfo") = None ->
        PruneAgentMessages messages !! i =
        Some (VObj (<["message" := VObj (delete "systemMessage" body)]> msg))) /\
       (forall di,
          body !! "debugInfo" = Some (VObj di) ->
          asMap (getPath ["response"; "data"; "systemMessage"] (VObj di)) = None ->
          PruneAgentMessages messages !! i =
          Some (VObj (<["message" :=
                          VObj (<["debugInfo" := VObj (delete "request" di)]>
                                  (delete "systemMessage" body))]> msg)))).
Proof.
  split; [apply length_map|].
  intros i m Hi. rewrite (PruneAgentMessages_lookup _ _ _ Hi).
  split; [eauto|]. split; [|split].
  - intros H. f_equal. destruct m as [| | | | |msg]; try done.
    by apply pruneMessage_no_body, H.
  - intros msg body -> Hb Hu Ht. f_equal.
    apply (pruneMessage_other _ _ Hb Hu). by apply ifaceEqString_false.
  - intros msg body -> Ht Hb Hu. apply ifaceEqString_true in Ht.
    rewrite (pruneMessage_system _ _ Hb Hu Ht). split.
    + intros H. by rewrite (pruneSystemBody_no_debugInfo _ H).
    + intros di Hdi H.
      by rewrite (pruneSystemBody_debugInfo _ _ Hdi), (pruneDebugInfo_broken _ H).
Qed.

(** C10.  For a system message (type "system", no [userMessage] key in the
    body) whose body holds an object under [debugInfo], the pruned node holds
    under [debugInfo] an object without the [request] key; when the rest of
    the path is absent or not made of objects, that object is the original
    one less [request]. *)
Theorem C10_system_debugInfo_request_removed
    (messages : list value) (i : nat) (msg body debugInfo : gmap string value) :
  messages !! i = Some (VObj msg) ->
  msg !! "type" = Some (VStr "system") ->
  msg !! "message" = Some (VObj body) ->
  body !! "userMessage" = None ->
  body !! "debugInfo" = Some (VObj debugInfo) ->
  exists (node' : value) (debugInfo' : gmap string value),
    PruneAgentMessages messages !! i = Some node' /\
    getPath ["message"; "debugInfo"] node' = Some (VObj debugInfo') /\
    debugInfo' !! "request" = None /\
    (asMap (getPath ["response"; "data"; "systemMessage"] (VObj debugInfo)) = None ->
     debugInfo' = delete "request" debugInfo).
Proof.
  intros Hi Ht Hb Hu Hdi. apply ifaceEqString_true in Ht.
  eexists _, (pruneDebugInfo debugInfo).
  rewrite (PruneAgentMessages_lookup _ _ _ Hi), (pruneMessage_system _ _ Hb Hu Ht).
  split; [reflexivity|]. split; [|split].
  - simpl. rewrite lookup_insert_eq, (pruneSystemBody_debugInfo _ _ Hdi).
    by rewrite lookup_insert_eq.
  - unfold pruneDebugInfo. lookups. by repeat case_decide.
  - apply pruneDebugInfo_broken.
Qed.

(** * The invariant of a run *)

Section PoolProofs.

Variable w : World.
Variable config : Config.
Variable poolSize : nat.
Variable mode : string.
Variable dryRun : bool.

Lemma marshalBatch_logged data logged ndjson totalRows :
  marshalBatch w data logged ndjson totalRows =
  let '(logged', ndjson', totalRows') := marshalBatch w data [] ndjson totalRows in
  (logged ++ logged', ndjson', totalRows').
Proof.
  revert logged ndjson totalRows.
  induction data as [|c rest IH]; intros logged ndjson totalRows; simpl.
  - by rewrite app_nil_r.
  - destruct (json_Marshal w c) as [b|err].
    + apply IH.
    + rewrite IH. rewrite (IH [_]).
      destruct (marshalBatch w rest [] ndjson totalRows) as [[l n] r].
      by rewrite <- app_assoc.
Qed.

Lemma drainLoop_app a b logged ndjson totalRows :
  drainLoop w (a ++ b) logged ndjson totalRows =
  let '(logged', ndjson', totalRows') := drainLoop w a logged ndjson totalRows in
  drainLoop w b logged' ndjson' totalRows'.
Proof.
  revert logged ndjson totalRows.
  induction a as [|data rest IH]; intros logged ndjson totalRows; simpl.
  - done.
  - destruct (marshalBatch w data logged ndjson totalRows) as [[l n] r]. apply IH.
Qed.

Lemma drainLoop_snoc received data logged ndjson totalRows logged' ndjson' totalRows' :
  drainLoop w received [] EmptyString 0 = (logged, ndjson, totalRows) ->
  marshalBatch w data [] ndjson totalRows = (logged', ndjson', totalRows') ->
  drainLoop w (received ++ [data]) [] EmptyString 0 = (logged ++ logged', ndjson', totalRows').
Proof.
  intros H1 H2. rewrite drainLoop_app, H1. simpl.
  by rewrite marshalBatch_logged, H2.
Qed.

Lemma pending_app a b : pending (a ++ b) = pending a ++ pending b.
Proof. apply omap_app. Qed.

Lemma workers_split (ws : list worker) i x :
  ws !! i = Some x -> ws = take i ws ++ x :: drop (S i) ws.
Proof. intros H. symmetry. by apply take_drop_middle. Qed.

Lemma workers_insert (ws : list worker) i x y :
  ws !! i = Some x -> <[i := y]> ws = take i ws ++ y :: drop (S i) ws.
Proof. intros H. apply insert_take_drop. by eapply lookup_lt_Some. Qed.

Lemma pending_start ws i b :
  ws !! i = Some WRecv -> pending (<[i := WSend b]> ws) ≡ₚ b :: pending ws.
Proof.
  intros H. rewrite (workers_insert _ _ _ _ H).
  rewrite (workers_split _ _ _ H) at 3.
  rewrite !pending_app. simpl. by rewrite Permutation_middle.
Qed.

Lemma pending_sent ws i b :
  ws !! i = Some (WSend b) -> b :: pending (<[i := WRecv]> ws) ≡ₚ pending ws.
Proof.
  intros H. rewrite (workers_insert _ _ _ _ H).
  rewrite (workers_split _ _ _ H) at 3.
  rewrite !pending_app. simpl. by rewrite Permutation_middle.
Qed.

Lemma pending_exit ws i :
  ws !! i = Some WRecv -> pending (<[i := WExit]> ws) = pending ws.
Proof.
  intros H. rewrite (workers_insert _ _ _ _ H).
  rewrite (workers_split _ _ _ H) at 3.
  by rewrite !pending_app.
Qed.

Lemma all_exit_lookup ws i x :
  forallb isExit ws = true -> ws !! i = Some x -> x = WExit.
Proof.
  intros H Hi. rewrite forallb_forall in H.
  apply list_elem_of_lookup_2, list_elem_of_In, H in Hi. by destruct x.
Qed.

Lemma all_exit_pending ws : forallb isExit ws = true -> pending ws = [].
Proof.
  induction ws as [|x ws IH]; simpl; [done|].
  intros [Hx H]%andb_prop. destruct x; try done. by apply IH.
Qed.

Lemma insertToBigQuery_no_token batches batches' err :
  getGCPToken w = Err err ->
  insertToBigQuery w config batches = insertToBigQuery w config batches'.
Proof. intros H. unfold insertToBigQuery. by rewrite H. Qed.

Lemma main_inv_send s i b :
  convChanClosed s = false ->
  main_inv w config dryRun s ->
  main_inv w config dryRun (set_worker i WRecv (add_sent b (set_convChan (convChan s ++ [b]) s))).
Proof.
  intros Hopen Hm. unfold main_inv in *. simpl.
  destruct (mainPC s) as [|rest| |uc tc|g nd rows|total uerr ret|]; try done.
  - destruct Hm as (?&?&?&?&->). done.
  - destruct Hm as (?&?&?&?&->). done.
  - destruct Hm as (?&?&?&?&received&->&?&?).
    repeat split; try done. exists received. by rewrite <- app_assoc.
  - destruct Hm as (?&?&?&?&?&received&logged&->&?).
    repeat split; try done. exists received, logged. by rewrite <- app_assoc.
  - destruct Hm as (?&?&?&Hm). repeat split; try done.
    destruct dryRun.
    + destruct Hm as (?&_). congruence.
    + destruct Hm as [[logged Hins] Htok].
      destruct (getGCPToken w) as [g|err] eqn:Hg.
      * destruct Htok. congruence.
      * split; [|by rewrite Htok].
        exists logged. rewrite <- Hins. by eapply insertToBigQuery_no_token.
Qed.

Lemma lookup_insert_exit (ws : list worker) i j x :
  x <> WExit -> <[i := x]> ws !! j = Some WExit -> ws !! j = Some WExit.
Proof.
  intros Hx Hj. destruct (decide (i = j)) as [->|Hne].
  - destruct (decide (j < length ws)).
    + rewrite list_lookup_insert_eq in Hj; congruence.
    + rewrite list_insert_ge in Hj; [done|lia].
  - by rewrite list_lookup_insert_ne in Hj.
Qed.

Lemma stepWorker_inv token users i s s' :
  pool_inv w config poolSize mode dryRun token users s ->
  stepWorker w config mode i s = Some s' ->
  pool_inv w config poolSize mode dryRun token users s'.
Proof.
  intros [Ht Hc Hp Hq He Hb Hcl Hw Hm Hl] Hstep. unfold stepWorker in Hstep.
  assert (Hopen : forall x, workers s !! i = Some x -> x <> WExit -> convChanClosed s = false).
  { intros x Hx Hne. destruct (convChanClosed s) eqn:E; [|done].
    destruct Hne. eapply all_exit_lookup; eauto. }
  destruct (workers s !! i) as [[|b|]|] eqn:Hi; try done.
  - specialize (Hopen _ eq_refl ltac:(done)).
    destruct (userChan s) as [|user rest] eqn:Hu.
    + (* the queue is closed and empty: return *)
      destruct (userChanClosed s) eqn:Hcu; [|done].
      injection Hstep as <-.
      constructor; simpl; [done|done| | |done| |done| |done|done].
      * by rewrite length_insert.
      * by rewrite Hu.
      * by rewrite (pending_exit _ _ Hi).
      * by rewrite Hopen.
    + (* receive a principal and process it *)
      assert (Hnoexit : forall j, workers s !! j = Some WExit -> False).
      { intros j Hj. apply He in Hj as [_ Hj]. congruence. }
      rewrite Ht in Hstep.
      destruct (processUser w config token user mode (formatInt (User_ID user)))
        as [logged r] eqn:Hpu.
      assert (Hq' : (fetched s ++ [user]) ++ rest ++ tofeed (mainPC s) = users).
      { rewrite <- Hq. by rewrite <- app_assoc. }
      destruct r as [conversations|err].
      * destruct (0 <? length conversations) eqn:Hlen; injection Hstep as <-.
        -- constructor; simpl; [done|done| |done| | |done| |done| ].
           ++ by rewrite length_insert.
           ++ intros j Hj. exfalso. apply lookup_insert_exit in Hj; eauto.
           ++ rewrite (pending_start _ _ _ Hi), omap_app. simpl.
              unfold workerBatch at 2. rewrite Hpu, Hlen. simpl.
              rewrite <- Permutation_middle, Hb. apply Permutation_cons_append.
           ++ by rewrite Hopen.
           ++ intros e He'. apply elem_of_app. left. by apply Hl.
        -- constructor; simpl; [done|done|done|done| | |done|done|done| ].
           ++ intros j Hj. exfalso. eauto.
           ++ rewrite omap_app. simpl.
              unfold workerBatch at 2. rewrite Hpu, Hlen. simpl.
              by rewrite app_nil_r.
           ++ intros e He'. apply elem_of_app. left. by apply Hl.
      * injection Hstep as <-.
        constructor; simpl; [done|done|done|done| | |done|done|done| ].
        -- intros j Hj. exfalso. eauto.
        -- rewrite omap_app. simpl.
           unfold workerBatch at 2. rewrite Hpu. simpl.
           by rewrite app_nil_r.
        -- intros e He'. apply elem_of_app. left. apply elem_of_app. left. by apply Hl.
  - (* send the batch *)
    specialize (Hopen _ eq_refl ltac:(done)).
    destruct (length (convChan s) <? capacity s) eqn:Hroom; [|done].
    injection Hstep as <-.
    constructor; simpl; [done|done| |done| | |done| | |done].
    + by rewrite length_insert.
    + intros j Hj. apply (He j). by apply lookup_insert_exit in Hj.
    + rewrite <- Hb, <- app_assoc. apply Permutation_app_head. simpl.
      by rewrite (pending_sent _ _ _ Hi).
    + by rewrite Hopen.
    + by apply main_inv_send.
Qed.

Lemma stepCloser_inv token users s s' :
  pool_inv w config poolSize mode dryRun token users s ->
  stepCloser s = Some s' ->
  pool_inv w config poolSize mode dryRun token users s'.
Proof.
  intros [Ht Hc Hp Hq He Hb Hcl Hw Hm Hl] Hstep. unfold stepCloser in Hstep.
  destruct (closerPC s) eqn:Hcp; try done.
  destruct (forallb isExit (workers s)) eqn:Hall; [|done].
  injection Hstep as <-. constructor; simpl; try done.
  unfold main_inv in *. simpl.
  destruct (mainPC s) as [|rest| |uc tc|g nd rows|total uerr ret|].
  - done.
  - destruct Hm as (?&?&?). congruence.
  - destruct Hm as (?&?&?). congruence.
  - destruct Hm as (?&?&?&?). by do 3 (split; [done|]).
  - destruct Hm as (?&?&?&?). by do 3 (split; [done|]).
  - destruct Hm as (?&?&?&Hm). repeat split; try done.
    destruct dryRun.
    + destruct Hm as (?&?&?&?&?). done.
    + destruct Hm as [? Htok]. split; [done|].
      destruct (getGCPToken w); [|done]. by destruct Htok.
  - done.
Qed.

Lemma totalRecords_snoc received (b : list Conversation) :
  totalRecords (received ++ [b]) = totalRecords received + length b.
Proof.
  unfold totalRecords. rewrite concat_app, length_app. simpl.
  by rewrite app_nil_r.
Qed.

Ltac kept :=
  solve [ done
        | match goal with H : convChanClosed _ = _ |- _ => rewrite H; done end
        | intros; auto ].

Lemma stepMain_inv token users s s' :
  pool_inv w config poolSize mode dryRun token users s ->
  stepMain w config poolSize mode dryRun s = Some s' ->
  pool_inv w config poolSize mode dryRun token users s'.
Proof.
  intros [Ht Hc Hp Hq He Hb Hcl Hw Hm Hl] Hstep. unfold stepMain in Hstep.
  unfold main_inv in Hm.
  destruct (mainPC s) as [|[|user rest]| |uc tc|g nd rows|total uerr ret|] eqn:Hpc;
    try done.
  - (* close(userChan) *)
    destruct Hm as (Hcu&Hcp&Hcc&Hsub&Hsent).
    injection Hstep as <-.
    constructor; simpl; [done|done|done|done| |done|done|done| |done].
    + intros j Hj. apply He in Hj as [? ?]. done.
    + unfold main_inv. simpl. done.
  - (* userChan <- user *)
    destruct Hm as (Hcu&Hcp&Hcc&Hsub&Hsent).
    destruct (length (userChan s) <? capacity s); [|done].
    injection Hstep as <-.
    constructor; simpl; [done|done|done| | |done|done|done| |done].
    + simpl in Hq. rewrite <- Hq. by rewrite <- !app_assoc.
    + intros j Hj. apply He in Hj as [? ?]. congruence.
    + unfold main_inv. simpl. done.
  - (* go closer; collect *)
    destruct Hm as (Hcu&Hcp&Hcc&Hsub&Hsent).
    assert (Hcl' : convChanClosed s = true <-> CWait = CDone) by (rewrite Hcc; done).
    destruct dryRun eqn:Hdry.
    + injection Hstep as <-.
      constructor; simpl; [kept|kept|kept|kept|kept|kept|kept|kept| |kept].
      unfold main_inv. simpl. repeat split; try done. by exists [].
    + destruct (getGCPToken w) as [g|err] eqn:Hg; injection Hstep as <-.
      * constructor; simpl; [kept|kept|kept|kept|kept|kept|kept|kept| |kept].
        unfold main_inv. simpl. repeat split; try done. by exists [], [].
      * constructor; simpl; [kept|kept|kept|kept|kept|kept|kept|kept| | ].
        -- unfold main_inv. simpl. rewrite Hg. repeat split; try done.
           exists []. unfold insertToBigQuery. by rewrite Hg, Hsub.
        -- intros e [= <-]. apply elem_of_app. right. apply list_elem_of_here.
  - (* dry run: collect *)
    destruct Hm as (Hdry&Hcu&Hcp&Hsub&received&Hsent&Huc&Htc).
    destruct (convChan s) as [|b rest] eqn:Hch.
    + destruct (convChanClosed s) eqn:Hcc; [|done].
      injection Hstep as <-.
      constructor; simpl; [kept|kept|kept|kept|kept|kept|kept|kept| |kept].
      unfold main_inv. simpl. rewrite Hdry, Hch. repeat split; try done.
      by rewrite Hsent, app_nil_r.
    + injection Hstep as <-.
      constructor; simpl; [kept|kept|kept|kept|kept|kept|kept|kept| |kept].
      unfold main_inv. simpl. repeat split; try done.
      exists (received ++ [b]). rewrite Hsent, <- app_assoc. split; [done|].
      rewrite length_app, totalRecords_snoc. simpl. split; lia.
  - (* insertToBigQuery: collect and submit *)
    destruct Hm as (Hdry&Hcu&Hcp&Hsub&Hg&received&logged&Hsent&Hdrain).
    destruct (convChan s) as [|b rest] eqn:Hch.
    + destruct (convChanClosed s) eqn:Hcc; [|done].
      destruct (submitLoad w config g nd rows) as [[reqs logged'] [total err]] eqn:Hsubmit.
      injection Hstep as <-.
      constructor; simpl; [kept|kept|kept|kept|kept|kept|kept|kept| | ].
      * unfold main_inv. simpl. rewrite Hdry, Hg, Hch. repeat split; try done.
        exists (logged ++ logged'). unfold insertToBigQuery.
        rewrite Hg, Hsent, app_nil_r, Hdrain, Hsubmit, Hsub. done.
      * intros e He'. change (err = Some e) in He'. subst err.
        change (LogUploadError e ∈
                logs s ++ logged' ++ [LogUploadError e] ++ [LogFinished mode total]).
        rewrite !elem_of_app. right. right. left. apply list_elem_of_here.
    + destruct (marshalBatch w b [] nd rows) as [[logged' nd'] rows'] eqn:Hmb.
      injection Hstep as <-.
      constructor; simpl; [kept|kept|kept|kept|kept|kept|kept|kept| |kept].
      unfold main_inv. simpl. repeat split; try done.
      exists (received ++ [b]), (logged ++ logged').
      rewrite Hsent, <- app_assoc. split; [done|].
      by eapply drainLoop_snoc.
Qed.

Lemma pending_replicate n : pending (replicate n WRecv) = [].
Proof. induction n; simpl; auto. Qed.

Lemma pool_inv_start token users : pool_inv w config poolSize mode dryRun token users (start_pool poolSize token users).
Proof.
  constructor; simpl.
  - done.
  - done.
  - apply length_replicate.
  - done.
  - intros i Hi. apply lookup_replicate in Hi as [Hi _]. done.
  - by rewrite pending_replicate.
  - done.
  - done.
  - unfold main_inv. simpl. done.
  - done.
Qed.

Lemma step_run_inv a s s' : run_inv w config poolSize mode dryRun s -> step w config poolSize mode dryRun a s = Some s' -> run_inv w config poolSize mode dryRun s'.
Proof.
  intros Hinv Hstep. destruct Hinv as [|Hl|err Hl|token err Hl Hu|token users s Hl Hu Hp].
  - destruct a; [|done|done].
    unfold step, stepMain in Hstep. change (mainPC initial) with MStart in Hstep.
    cbv iota beta in Hstep.
    destruct (lookerLogin w config (LookerClientID config) (LookerClientSecret config))
      as [[token|err]|] eqn:Hl.
    + destruct (searchUsers w config token) as [users|err] eqn:Hu;
        injection Hstep as <-.
      * eapply inv_pool; eauto using pool_inv_start.
      * by eapply inv_discovery_failed.
    + injection Hstep as <-. by apply inv_login_failed.
    + injection Hstep as <-. by apply inv_panic.
  - done.
  - by destruct a.
  - by destruct a.
  - unfold step in Hstep.
    destruct (mainPC s) eqn:Hpc; try done;
      (destruct a;
       [ eapply inv_pool; eauto using stepMain_inv
       | eapply inv_pool; eauto using stepWorker_inv
       | eapply inv_pool; eauto using stepCloser_inv ]).
Qed.

Lemma exec_run_inv schedule s s' : run_inv w config poolSize mode dryRun s -> exec w config poolSize mode dryRun schedule s = Some s' -> run_inv w config poolSize mode dryRun s'.
Proof.
  revert s. induction schedule as [|a rest IH]; intros s Hinv Hexec; simpl in Hexec.
  - congruence.
  - destruct (step w config poolSize mode dryRun a s) as [s1|] eqn:Hstep; [|done].
    eauto using step_run_inv.
Qed.

Lemma reachable_run_inv s : reachable w config poolSize mode dryRun s -> run_inv w config poolSize mode dryRun s.
Proof. intros [schedule H]. eapply exec_run_inv; [apply inv_start|exact H]. Qed.

(** A run that got as far as starting the pool. *)
Lemma run_pool_inv schedule s token users :
  lookerLogin w config (LookerClientID config) (LookerClientSecret config)
  = Return (Ok token) ->
  searchUsers w config token = Ok users ->
  exec w config poolSize mode dryRun schedule initial = Some s ->
  finished s = true ->
  pool_inv w config poolSize mode dryRun token users s.
Proof.
  intros Hl Hu Hexec Hfin.
  assert (Hinv : run_inv w config poolSize mode dryRun s) by (eapply exec_run_inv; [apply inv_start|done]).
  destruct Hinv as [|Hl'|err Hl'|token' err Hl' Hu'|token' users' s Hl' Hu' Hp];
    try congruence; done.
Qed.

Lemma finished_pool token users s :
  0 < poolSize ->
  pool_inv w config poolSize mode dryRun token users s ->
  finished s = true ->
  forallb isExit (workers s) = true /\
  fetched s = users /\
  sent s ≡ₚ omap (workerBatch w config mode token) users.
Proof.
  intros Hpos [Ht Hc Hp Hq He Hb Hcl Hw Hm Hl] Hfin. unfold finished in Hfin.
  unfold main_inv in Hm.
  destruct (mainPC s) eqn:Hpc; try done.
  apply andb_prop in Hfin as [Hall _].
  destruct (workers s !! 0) as [x|] eqn:H0.
  2:{ apply lookup_ge_None in H0. lia. }
  assert (x = WExit) as -> by (eapply all_exit_lookup; eauto).
  apply He in H0 as [_ Hch]. rewrite Hch in Hq. simpl in Hq. rewrite app_nil_r in Hq.
  split; [done|]. split; [done|].
  rewrite (all_exit_pending _ Hall), app_nil_r, Hq in Hb. done.
Qed.

End PoolProofs.

(** * Progress *)

Section Progress.

Variable w : World.
Variable config : Config.
Variable poolSize : nat.
Variable mode : string.
Variable dryRun : bool.

Lemma weight_insert (ws : list worker) i x y :
  ws !! i = Some x ->
  list_sum (map workerWeight (<[i := y]> ws)) + workerWeight x
  = list_sum (map workerWeight ws) + workerWeight y.
Proof.
  intros H. rewrite (workers_insert _ _ _ _ H).
  pose proof (workers_split _ _ _ H) as Hs.
  assert (Hsum : list_sum (map workerWeight ws)
                 = list_sum (map workerWeight (take i ws ++ x :: drop (S i) ws)))
    by (by rewrite <- Hs).
  rewrite Hsum, !map_app, !list_sum_app. simpl. lia.
Qed.

(** Every move of a started pool uses up some of the bound. *)
Lemma step_weight a s s' :
  mainPC s <> MStart -> step w config poolSize mode dryRun a s = Some s' -> weight s' < weight s.
Proof.
  intros Hstart Hstep. unfold step in Hstep.
  destruct a as [|i|].
  - assert (Hmain : stepMain w config poolSize mode dryRun s = Some s')
      by (destruct (mainPC s); done).
    clear Hstep. unfold stepMain in Hmain. unfold weight.
    destruct (mainPC s) as [|[|user rest]| |uc tc|g nd rows|total uerr ret|] eqn:Hpc;
      try done.
    + injection Hmain as <-. simpl. lia.
    + destruct (length (userChan s) <? capacity s); [|done].
      injection Hmain as <-. simpl. rewrite length_app. simpl. lia.
    + destruct dryRun.
      * injection Hmain as <-. simpl. destruct (closerPC s); simpl; lia.
      * destruct (getGCPToken w); injection Hmain as <-; simpl;
          destruct (closerPC s); simpl; lia.
    + destruct (convChan s) as [|b rest] eqn:Hch.
      * destruct (convChanClosed s); [|done]. injection Hmain as <-. simpl. rewrite ?Hch. simpl. lia.
      * injection Hmain as <-. simpl. rewrite ?Hch. simpl. lia.
    + destruct (convChan s) as [|b rest] eqn:Hch.
      * destruct (convChanClosed s); [|done].
        destruct (submitLoad w config g nd rows) as [[reqs logged] [total err]].
        injection Hmain as <-. simpl. rewrite ?Hch. simpl. lia.
      * destruct (marshalBatch w b [] nd rows) as [[logged nd'] rows'].
        injection Hmain as <-. simpl. rewrite ?Hch. simpl. lia.
  - assert (Hw : stepWorker w config mode i s = Some s')
      by (destruct (mainPC s); done).
    clear Hstep. unfold stepWorker in Hw. unfold weight.
    destruct (workers s !! i) as [[|b|]|] eqn:Hi; try done.
    + destruct (userChan s) as [|user rest] eqn:Hu.
      * destruct (userChanClosed s); [|done]. injection Hw as <-. simpl.
        pose proof (weight_insert _ _ _ WExit Hi). rewrite ?Hu. simpl in *. lia.
      * destruct (processUser w config (adminToken s) user mode (formatInt (User_ID user)))
          as [logged [conversations|err]].
        -- destruct (0 <? length conversations); injection Hw as <-; simpl.
           ++ pose proof (weight_insert _ _ _ (WSend conversations) Hi).
              rewrite ?Hu. simpl in *. lia.
           ++ rewrite ?Hu. simpl. lia.
        -- injection Hw as <-. simpl. rewrite ?Hu. simpl. lia.
    + destruct (length (convChan s) <? capacity s); [|done].
      injection Hw as <-. simpl. rewrite length_app. simpl.
      pose proof (weight_insert _ _ _ WRecv Hi). simpl in *. lia.
  - assert (Hc : stepCloser s = Some s') by (destruct (mainPC s); done).
    clear Hstep. unfold stepCloser in Hc. unfold weight.
    destruct (closerPC s) eqn:Hcp; try done.
    destruct (forallb isExit (workers s)); [|done].
    injection Hc as <-. simpl. lia.
Qed.

Lemma not_all_exit ws :
  forallb isExit ws = false -> exists i x, ws !! i = Some x /\ x <> WExit.
Proof.
  induction ws as [|y ws IH]; simpl; [done|].
  destruct y; simpl.
  - intros _. by exists 0, WRecv.
  - intros _. by exists 0, (WSend conversations).
  - intros H. destruct (IH H) as (i & x & Hi & Hx). by exists (S i), x.
Qed.

Lemma main_inv_buffered s :
  main_inv w config dryRun s -> length (convChan s) <= length (sent s).
Proof.
  unfold main_inv.
  destruct (mainPC s) as [|rest| |uc tc|g nd rows|total uerr ret|]; try done.
  - intros (_&_&_&_&->). done.
  - intros (_&_&_&_&->). done.
  - intros (_&_&_&_&received&->&_). rewrite length_app. lia.
  - intros (_&_&_&_&_&received&logged&->&_). rewrite length_app. lia.
  - intros (_&_&_&H). destruct dryRun.
    + destruct H as (_&->&_). simpl. lia.
    + destruct H as [_ H]. destruct (getGCPToken w).
      * destruct H as [_ ->]. simpl. lia.
      * by rewrite H.
Qed.

Lemma omap_length_le {A B : Type} (f : A -> option B) (l : list A) :
  length (omap f l) <= length l.
Proof.
  induction l as [|x l IH]; simpl; [lia|].
  change (list_omap A B f l) with (omap f l).
  destruct (f x); simpl; lia.
Qed.

(** A worker that holds a batch finds room in the results channel. *)
Lemma send_has_room token users s i b :
  pool_inv w config poolSize mode dryRun token users s ->
  workers s !! i = Some (WSend b) ->
  length (convChan s) < capacity s.
Proof.
  intros [Ht Hc Hp Hq He Hb Hcl Hw Hm Hl] Hi.
  pose proof (main_inv_buffered _ Hm) as Hbuf.
  apply Permutation_length in Hb. rewrite length_app in Hb.
  pose proof (Permutation_length (pending_sent _ _ _ Hi)) as Hpend. simpl in Hpend.
  pose proof (omap_length_le (workerBatch w config mode token) (fetched s)) as Hle.
  assert (Hf : length (fetched s) <= length users).
  { rewrite <- Hq, !length_app. lia. }
  lia.
Qed.

Lemma userChan_closed_after_feed s :
  main_inv w config dryRun s ->
  (forall rest, mainPC s <> MFeed rest) ->
  userChanClosed s = true.
Proof.
  unfold main_inv. intros Hm Hpc.
  destruct (mainPC s) as [|rest| |uc tc|g nd rows|total uerr ret|]; try done.
  - by destruct (Hpc rest).
  - by destruct Hm.
  - by destruct Hm as (_&?&_).
  - by destruct Hm as (_&?&_).
  - by destruct Hm as (_&?&_).
Qed.

(** A worker that has not returned can move once feeding is over. *)
Lemma worker_enabled token users s i x :
  pool_inv w config poolSize mode dryRun token users s ->
  userChanClosed s = true ->
  workers s !! i = Some x ->
  x <> WExit ->
  exists s', stepWorker w config mode i s = Some s'.
Proof.
  intros Hinv Hclosed Hi Hx. unfold stepWorker. rewrite Hi.
  destruct x as [|b|]; [| |done].
  - destruct (userChan s) as [|user rest].
    + rewrite Hclosed. eauto.
    + destruct (processUser _ _ _ _ _ _) as [logged [conversations|err]]; [|eauto].
      destruct (0 <? length conversations); eauto.
  - pose proof (send_has_room _ _ _ _ _ Hinv Hi) as Hroom.
    apply Nat.ltb_lt in Hroom. rewrite Hroom. eauto.
Qed.

(** No deadlock: in a started pool, some goroutine can move until all have
    finished. *)
Lemma pool_progress token users s :
  pool_inv w config poolSize mode dryRun token users s ->
  finished s = false ->
  exists a s', step w config poolSize mode dryRun a s = Some s'.
Proof.
  intros Hinv Hfin.
  pose proof Hinv as [Ht Hc Hp Hq He Hb Hcl Hw Hm Hl].
  assert (Hworkers : userChanClosed s = true ->
                     forallb isExit (workers s) = false ->
                     mainPC s <> MPanic ->
                     exists a s', step w config poolSize mode dryRun a s = Some s').
  { intros Hclosed Hall Hpc. apply not_all_exit in Hall as (i & x & Hi & Hx).
    destruct (worker_enabled _ _ _ _ _ Hinv Hclosed Hi Hx) as [s' Hs'].
    exists (ActWorker i), s'. unfold step. by destruct (mainPC s). }
  assert (Hcloser : closerPC s = CWait ->
                    forallb isExit (workers s) = true ->
                    mainPC s <> MPanic ->
                    exists a s', step w config poolSize mode dryRun a s = Some s').
  { intros Hcp Hall Hpc. exists ActCloser. eexists. unfold step, stepCloser.
    rewrite Hcp, Hall. by destruct (mainPC s). }
  assert (Hblocked : userChanClosed s = true ->
                     closerPC s <> CNotStarted ->
                     convChanClosed s = false ->
                     mainPC s <> MPanic ->
                     exists a s', step w config poolSize mode dryRun a s = Some s').
  { intros Hclosed Hcp Hcc Hpc.
    destruct (forallb isExit (workers s)) eqn:Hall; [|by apply Hworkers].
    apply Hcloser; try done.
    destruct (closerPC s) eqn:E; try done.
    destruct Hcl as [_ Hcl]. rewrite Hcl in Hcc; done. }
  unfold finished in Hfin. unfold main_inv in Hm.
  destruct (mainPC s) as [|[|user rest]| |uc tc|g nd rows|total uerr ret|] eqn:Hpc;
    try done.
  - exists ActMain. eexists. unfold step, stepMain. rewrite Hpc. reflexivity.
  - exists ActMain. eexists. unfold step, stepMain. rewrite Hpc.
    assert (Hroom : length (userChan s) < capacity s).
    { rewrite Hc, <- Hq, !length_app. simpl. lia. }
    apply Nat.ltb_lt in Hroom. rewrite Hroom. reflexivity.
  - exists ActMain. unfold step, stepMain. rewrite Hpc.
    destruct dryRun; [eauto|]. destruct (getGCPToken w); eauto.
  - destruct Hm as (_&Hcu&Hcp&_).
    destruct (convChan s) as [|b rest] eqn:Hch.
    + destruct (convChanClosed s) eqn:Hcc.
      * exists ActMain. eexists. unfold step, stepMain. rewrite Hpc, Hch, Hcc. reflexivity.
      * by apply Hblocked.
    + exists ActMain. eexists. unfold step, stepMain. rewrite Hpc, Hch. reflexivity.
  - destruct Hm as (_&Hcu&Hcp&_).
    destruct (convChan s) as [|b rest] eqn:Hch.
    + destruct (convChanClosed s) eqn:Hcc.
      * exists ActMain. unfold step, stepMain. rewrite Hpc, Hch, Hcc.
        destruct (submitLoad w config g nd rows) as [[reqs logged] [total err]]. eauto.
      * by apply Hblocked.
    + exists ActMain. unfold step, stepMain. rewrite Hpc, Hch.
      destruct (marshalBatch w b [] nd rows) as [[logged nd'] rows']. eauto.
  - destruct Hm as (_&Hcu&Hcp&_).
    destruct (forallb isExit (workers s)) eqn:Hall; [|by apply Hworkers].
    destruct (closerPC s) eqn:E; try done. by apply Hcloser.
Qed.

(** A started pool can always be run to its end. *)
Lemma pool_completes token users s :
  pool_inv w config poolSize mode dryRun token users s ->
  exists schedule s', exec w config poolSize mode dryRun schedule s = Some s' /\ finished s' = true.
Proof.
  remember (weight s) as n eqn:Hn. revert s Hn.
  induction n as [n IH] using lt_wf_ind. intros s Hn Hinv.
  destruct (finished s) eqn:Hfin.
  - exists [], s. done.
  - destruct (pool_progress _ _ _ Hinv Hfin) as (a & s1 & Hstep).
    assert (Hstart : mainPC s <> MStart).
    { destruct Hinv as [_ _ _ _ _ _ _ _ Hm _]. unfold main_inv in Hm.
      by destruct (mainPC s). }
    pose proof (step_weight _ _ _ Hstart Hstep) as Hlt.
    assert (Hinv1 : pool_inv w config poolSize mode dryRun token users s1).
    { unfold step in Hstep. destruct (mainPC s) eqn:Hpc; try done;
        destruct a; eauto using stepMain_inv, stepWorker_inv, stepCloser_inv. }
    destruct (IH (weight s1) ltac:(lia) s1 eq_refl Hinv1) as (rest & s' & Hexec & Hfin').
    exists (a :: rest), s'. simpl. by rewrite Hstep.
Qed.

Lemma exec_app a b s :
  exec w config poolSize mode dryRun (a ++ b) s = match exec w config poolSize mode dryRun a s with
                     | Some s' => exec w config poolSize mode dryRun b s'
                     | None => None
                     end.
Proof.
  revert s. induction a as [|x a IH]; intros s; simpl; [done|].
  destruct (step w config poolSize mode dryRun x s); [apply IH|done].
Qed.

Lemma step_initial :
  step w config poolSize mode dryRun ActMain initial =
  match lookerLogin w config (LookerClientID config) (LookerClientSecret config) with
  | Panic => Some (set_mainPC MPanic initial)
  | Return (Err err) =>
      Some (set_mainPC (MDone 0 None (Some (ErrWrap "failed to login as admin" err)))
              initial)
  | Return (Ok token) =>
      match searchUsers w config token with
      | Err err =>
          Some (set_mainPC (MDone 0 None (Some (ErrWrap "failed to fetch users" err)))
                  initial)
      | Ok users => Some (start_pool poolSize token users)
      end
  end.
Proof. reflexivity. Qed.

(** Every run can be completed, whatever has been scheduled so far. *)
Lemma run_completes schedule s :
  exec w config poolSize mode dryRun schedule initial = Some s ->
  exists rest s', exec w config poolSize mode dryRun rest s = Some s' /\ finished s' = true.
Proof.
  intros Hexec.
  assert (Hinv : run_inv w config poolSize mode dryRun s)
    by (eapply exec_run_inv; [apply inv_start|done]).
  destruct Hinv as [|Hl|err Hl|token err Hl Hu|token users s Hl Hu Hp].
  - destruct (lookerLogin w config (LookerClientID config) (LookerClientSecret config))
      as [[token|err]|] eqn:Hl.
    + destruct (searchUsers w config token) as [users|err] eqn:Hu.
      * destruct (pool_completes token users (start_pool poolSize token users)
                    (pool_inv_start _ _ _ _ _ _ _)) as (rest & s' & Hrest & Hfin).
        exists (ActMain :: rest), s'. split; [|done].
        change (exec w config poolSize mode dryRun (ActMain :: rest) initial)
          with (match step w config poolSize mode dryRun ActMain initial with
                | Some s1 => exec w config poolSize mode dryRun rest s1
                | None => None
                end).
        by rewrite step_initial, Hl, Hu.
      * exists [ActMain]. eexists.
        change (exec w config poolSize mode dryRun [ActMain] initial)
          with (match step w config poolSize mode dryRun ActMain initial with
                | Some s1 => Some s1
                | None => None
                end).
        rewrite step_initial, Hl, Hu. done.
    + exists [ActMain]. eexists.
      change (exec w config poolSize mode dryRun [ActMain] initial)
        with (match step w config poolSize mode dryRun ActMain initial with
              | Some s1 => Some s1
              | None => None
              end).
      rewrite step_initial, Hl. done.
    + exists [ActMain]. eexists.
      change (exec w config poolSize mode dryRun [ActMain] initial)
        with (match step w config poolSize mode dryRun ActMain initial with
              | Some s1 => Some s1
              | None => None
              end).
      rewrite step_initial, Hl. done.
  - by exists [], (set_mainPC MPanic initial).
  - by eexists [], _.
  - by eexists [], _.
  - by apply (pool_completes token users).
Qed.

End Progress.

(** * Properties of the pipeline *)

Lemma submitLoad_requests w config g nd rows reqs logged ret :
  submitLoad w config g nd rows = (reqs, logged, ret) ->
  reqs = if (0 <? rows) && partsCreated w then [loadJobRequest w config g nd] else [].
Proof.
  unfold submitLoad, partsCreated.
  destruct rows as [|n]; simpl; [congruence|].
  destruct (multipart_CreatePart w 0); [congruence|].
  destruct (multipart_CreatePart w 1); [congruence|].
  destruct (client_Do w _) as [resp|err]; [|congruence].
  destruct (negb _); congruence.
Qed.

Lemma submitLoad_no_rows w config g nd reqs logged total uerr :
  submitLoad w config g nd 0 = (reqs, logged, (total, uerr)) ->
  reqs = [] /\ total = 0 /\ uerr = None.
Proof. unfold submitLoad. simpl. intros [= <- <- <- <-]. done. Qed.

Lemma submitLoad_status w config g nd rows reqs logged total uerr req resp :
  submitLoad w config g nd rows = (reqs, logged, (total, uerr)) ->
  req ∈ reqs ->
  client_Do w req = Ok resp ->
  StatusCode resp <> 200%Z ->
  reqs = [req] /\ uerr = Some (ErrStatus "BQ job creation" (StatusCode resp)).
Proof.
  unfold submitLoad. intros H Hin Hdo Hst.
  destruct (rows =? 0).
  { injection H as <- <- <- <-. by apply not_elem_of_nil in Hin. }
  destruct (multipart_CreatePart w 0).
  { injection H as <- <- <- <-. by apply not_elem_of_nil in Hin. }
  destruct (multipart_CreatePart w 1).
  { injection H as <- <- <- <-. by apply not_elem_of_nil in Hin. }
  destruct (client_Do w (loadJobRequest w config g nd)) as [resp'|err] eqn:Hdo'.
  - destruct (negb (StatusCode resp' =? 200)%Z) eqn:Hok;
      injection H as <- <- <- <-; apply list_elem_of_singleton in Hin; subst req.
    + split; congruence.
    + assert (resp' = resp) as -> by congruence.
      apply negb_false_iff, Z.eqb_eq in Hok. done.
  - injection H as <- <- <- <-. apply list_elem_of_singleton in Hin; subst req.
    congruence.
Qed.




Lemma insertToBigQuery_requests w config batches reqs logged ret :
  insertToBigQuery w config batches = (reqs, logged, ret) ->
  length reqs = if loadDue w false batches then 1 else 0.
Proof.
  unfold insertToBigQuery, loadDue, serializedRows. simpl.
  destruct (getGCPToken w) as [g|err]; [|by intros [= <- _ _]].
  destruct (drainLoop w batches [] EmptyString 0) as [[lg nd] rows].
  destruct (submitLoad w config g nd rows) as [[reqs' lg'] ret'] eqn:Hs.
  intros [= <- _ _]. rewrite (submitLoad_requests _ _ _ _ _ _ _ _ Hs). simpl.
  by destruct (_ && _).
Qed.

Lemma insertToBigQuery_no_rows w config batches reqs logged total uerr g :
  insertToBigQuery w config batches = (reqs, logged, (total, uerr)) ->
  getGCPToken w = Ok g ->
  serializedRows w batches = 0 ->
  reqs = [] /\ total = 0 /\ uerr = None.
Proof.
  unfold insertToBigQuery, serializedRows. intros H Hg Hrows. rewrite Hg in H.
  destruct (drainLoop w batches [] EmptyString 0) as [[lg nd] rows]. subst rows.
  destruct (submitLoad w config g nd 0) as [[reqs' lg'] [total' uerr']] eqn:Hs.
  injection H as <- _ <- <-. by eapply submitLoad_no_rows.
Qed.

Lemma insertToBigQuery_status w config batches reqs logged total uerr req resp :
  insertToBigQuery w config batches = (reqs, logged, (total, uerr)) ->
  req ∈ reqs ->
  client_Do w req = Ok resp ->
  StatusCode resp <> 200%Z ->
  reqs = [req] /\ uerr = Some (ErrStatus "BQ job creation" (StatusCode resp)).
Proof.
  unfold insertToBigQuery. intros H Hin Hdo Hst.
  destruct (getGCPToken w) as [g|err].
  2:{ injection H as <- _ _ _. by apply not_elem_of_nil in Hin. }
  destruct (drainLoop w batches [] EmptyString 0) as [[lg nd] rows].
  destruct (submitLoad w config g nd rows) as [[reqs' lg'] [total' uerr']] eqn:Hs.
  injection H as <- _ <- <-. by eapply submitLoad_status.
Qed.

Section Runs.

Variable w : World.
Variable config : Config.
Variable poolSize : nat.
Variable mode : string.
Variable dryRun : bool.

(** What a finished run satisfies, whichever way it went. *)
Lemma finished_run schedule s :
  exec w config poolSize mode dryRun schedule initial = Some s ->
  finished s = true ->
  length (submissions s) = (if loadDue w dryRun (sent s) then 1 else 0) /\
  (forall g, getGCPToken w = Ok g -> serializedRows w (sent s) = 0 ->
             uploadError s = None).
Proof.
  intros Hexec Hfin.
  assert (Hinv : run_inv w config poolSize mode dryRun s) by (eapply exec_run_inv; [apply inv_start|done]).
  assert (Hnone : loadDue w dryRun [] = false).
  { unfold loadDue, serializedRows. simpl. by rewrite andb_false_r. }
  destruct Hinv as [|Hl|err Hl|token err Hl Hu|token users s Hl Hu Hp];
    try (simpl; rewrite Hnone; done).
  destruct Hp as [Ht Hc Hp Hq He Hb Hcl Hw Hm Hlog].
  unfold finished in Hfin. unfold main_inv in Hm. unfold uploadError.
  destruct (mainPC s) as [| | | | |total uerr ret|]; try done.
  destruct Hm as (Hret&Hcu&Hcp&Hm).
  unfold loadDue at 1. destruct dryRun; simpl.
  - destruct Hm as (_&_&->&->&_). done.
  - destruct Hm as [[logged Hins] _]. split.
    + by apply insertToBigQuery_requests in Hins.
    + intros g Hg Hrows.
      by destruct (insertToBigQuery_no_rows _ _ _ _ _ _ _ _ Hins Hg Hrows) as (_&_&?).
Qed.

End Runs.


Lemma finished_pool_returned w config poolSize mode dryRun token users s :
  pool_inv w config poolSize mode dryRun token users s ->
  finished s = true ->
  returned s = Some None.
Proof.
  intros [Ht Hc Hp Hq He Hb Hcl Hw Hm Hlog] Hfin.
  unfold finished in Hfin. unfold main_inv in Hm. unfold returned.
  destruct (mainPC s) as [| | | | |total uerr ret|]; try done.
  by destruct Hm as (->&_).
Qed.

(** C9.  With a pool of at least one worker (50 in the program), once login
    and discovery have succeeded: whatever has been scheduled so far, the run
    can be completed; and in every finished run the principals handed to
    [processUser] are exactly the discovered ones, each as often as discovery
    listed it, and [runSync] has returned nil. *)
Theorem C9_every_principal_processed_once
    (w : World) (config : Config) (poolSize : nat) (mode : string) (dryRun : bool)
    (token : string) (users : list User) (schedule : list action) (s : state) :
  0 < poolSize ->
  lookerLogin w config (LookerClientID config) (LookerClientSecret config)
  = Return (Ok token) ->
  searchUsers w config token = Ok users ->
  exec w config poolSize mode dryRun schedule initial = Some s ->
  (exists rest s',
     exec w config poolSize mode dryRun rest s = Some s' /\ finished s' = true) /\
  (finished s = true -> fetched s ≡ₚ users /\ returned s = Some None).
Proof.
  intros Hpos Hl Hu Hexec. split; [by eapply run_completes|].
  intros Hfin.
  pose proof (run_pool_inv _ _ _ _ _ _ _ _ _ Hl Hu Hexec Hfin) as Hp.
  destruct (finished_pool _ _ _ _ _ _ _ _ Hpos Hp Hfin) as (_&->&_).
  split; [done|]. by eapply finished_pool_returned.
Qed.

(** C7 (as amended).  When the load endpoint answers a request of a run with
    a status other than 200, that request is the only one the run sends, the
    failure is what [insertToBigQuery] returns and [runSync] logs, and
    [runSync] itself returns nil. *)
Theorem C7_load_failure_is_logged_and_run_returns_nil
    (w : World) (config : Config) (poolSize : nat) (mode : string) (dryRun : bool)
    (schedule : list action) (s : state) (req : Request) (resp : Response) :
  exec w config poolSize mode dryRun schedule initial = Some s ->
  finished s = true ->
  req ∈ submissions s ->
  client_Do w req = Ok resp ->
  StatusCode resp <> 200%Z ->
  submissions s = [req] /\
  uploadError s = Some (ErrStatus "BQ job creation" (StatusCode resp)) /\
  LogUploadError (ErrStatus "BQ job creation" (StatusCode resp)) ∈ logs s /\
  returned s = Some None.
Proof.
  intros Hexec Hfin Hin Hdo Hst.
  assert (Hinv : run_inv w config poolSize mode dryRun s)
    by (eapply exec_run_inv; [apply inv_start|done]).
  destruct Hinv as [|Hl|err Hl|token err Hl Hu|token users s Hl Hu Hp];
    try (by apply not_elem_of_nil in Hin).
  destruct Hp as [Ht Hc Hp Hq He Hb Hcl Hw Hm Hlog].
  unfold finished in Hfin. unfold main_inv in Hm. unfold uploadError, returned in *.
  destruct (mainPC s) as [| | | | |total uerr ret|]; try done.
  destruct Hm as (->&Hcu&Hcp&Hm).
  destruct dryRun.
  - destruct Hm as (_&_&Hsub&_). rewrite Hsub in Hin. by apply not_elem_of_nil in Hin.
  - destruct Hm as [[logged Hins] _].
    destruct (insertToBigQuery_status _ _ _ _ _ _ _ _ _ Hins Hin Hdo Hst) as [Hreqs ->].
    auto.
Qed.

Lemma detailLoop_spec w config userToken conversations logged detailed :
  detailLoop w config userToken conversations logged detailed =
  (logged ++ detailFailures w config userToken conversations,
   detailed ++ details w config userToken conversations).
Proof.
  revert logged detailed.
  induction conversations as [|c rest IH]; intros logged detailed; simpl.
  - by rewrite !app_nil_r.
  - unfold detailFailures, details. simpl.
    destruct (getConversationDetail w config userToken (Conv_ID c)) as [detail|err].
    + rewrite IH. by rewrite <- app_assoc.
    + rewrite IH. by rewrite <- app_assoc.
Qed.

Lemma processUser_listed w config adminToken user mode userID userToken conversations :
  sudoLogin w config adminToken userID = Ok userToken ->
  searchConversations w config userToken mode = Ok conversations ->
  processUser w config adminToken user mode userID =
  (detailFailures w config userToken conversations,
   Ok (details w config userToken conversations)).
Proof.
  intros Hs Hl. unfold processUser. rewrite Hs, Hl.
  destruct conversations as [|c rest]; [done|].
  change (length (c :: rest) =? 0) with false. cbv iota.
  by rewrite detailLoop_spec.
Qed.

(** When [getConversationDetail] returns an error for one listed
    conversation, [processUser] still returns without error: it logs that
    failure and returns the details of the other conversations of the
    listing, every one whose own fetch succeeds, in the order of the
    listing. *)
Lemma detail_error_skips_only_that_record
    (w : World) (config : Config) (adminToken : string) (user : User)
    (mode userID userToken : string) (before after : list Conversation)
    (c : Conversation) (err : error) :
  sudoLogin w config adminToken userID = Ok userToken ->
  searchConversations w config userToken mode = Ok (before ++ c :: after) ->
  getConversationDetail w config userToken (Conv_ID c) = Err err ->
  exists logged detailed,
    processUser w config adminToken user mode userID = (logged, Ok detailed) /\
    LogDetailFailed (Conv_ID c) err ∈ logged /\
    detailed = details w config userToken before ++ details w config userToken after /\
    (forall c' detail,
       c' ∈ before ++ after ->
       getConversationDetail w config userToken (Conv_ID c') = Ok detail ->
       detail ∈ detailed).
Proof.
  intros Hs Hl Hc.
  eexists _, _. split; [by apply processUser_listed|].
  unfold detailFailures, details. rewrite !omap_app. simpl. rewrite Hc.
  split; [|split; [done|]].
  - rewrite elem_of_app. right. apply list_elem_of_here.
  - intros c' detail Hin Hd. rewrite <- omap_app.
    apply list_elem_of_omap. exists c'. by rewrite Hd.
Qed.

(** C6 (defect).  A detail fetch that the source system refuses is not
    skipped.  [getConversationDetail] never looks at the status of the
    answer (lines 478-495), unlike [sudoLogin], [searchConversations] and
    [searchUsers]: whenever the detail request of a listed conversation is
    answered, with whatever status, by a body that decodes, [processUser]
    logs no failure for that conversation and returns what the body decoded
    to in its place in the listing, between the details of the conversations
    before it and after it. *)
Theorem C6_refused_detail_is_returned_not_skipped
    (w : World) (config : Config) (adminToken : string) (user : User)
    (mode userID userToken : string) (before after : list Conversation)
    (c : Conversation) (resp : Response) (decoded : Conversation) :
  sudoLogin w config adminToken userID = Ok userToken ->
  searchConversations w config userToken mode = Ok (before ++ c :: after) ->
  client_Do w (detailRequest config userToken (Conv_ID c)) = Ok resp ->
  decodeBody (decode_Conversation w) resp = Ok decoded ->
  exists detail,
    getConversationDetail w config userToken (Conv_ID c) = Ok detail /\
    Conv_ID detail = Conv_ID decoded /\
    ((forall msgs, Conv_Messages decoded <> VArr msgs) -> detail = decoded) /\
    processUser w config adminToken user mode userID =
    (detailFailures w config userToken before ++ detailFailures w config userToken after,
     Ok (details w config userToken before
         ++ detail :: details w config userToken after)).
Proof.
  intros Hs Hl Hdo Hdec.
  assert (Hd : exists detail,
             getConversationDetail w config userToken (Conv_ID c) = Ok detail /\
             Conv_ID detail = Conv_ID decoded /\
             ((forall msgs, Conv_Messages decoded <> VArr msgs) -> detail = decoded)).
  { unfold getConversationDetail. unfold detailRequest in Hdo. rewrite Hdo, Hdec.
    destruct (Conv_Messages decoded) as [| | | |msgs|] eqn:Hm;
      try (exists decoded; done).
    eexists. split; [done|]. split; [done|].
    intros Hno. by destruct (Hno msgs). }
  destruct Hd as (detail & Hd & Hid & Hsame).
  exists detail. split; [done|]. split; [done|]. split; [done|].
  rewrite (processUser_listed _ _ _ _ _ _ _ _ Hs Hl).
  unfold detailFailures, details. rewrite !omap_app. simpl. by rewrite Hd.
Qed.

Lemma finished_live_pool w config poolSize mode token users s :
  pool_inv w config poolSize mode false token users s ->
  finished s = true ->
  exists logged ret, insertToBigQuery w config (sent s) = (submissions s, logged, ret).
Proof.
  intros [Ht Hc Hp Hq He Hb Hcl Hw Hm Hlog] Hfin.
  unfold finished in Hfin. unfold main_inv in Hm.
  destruct (mainPC s) as [| | | | |total uerr ret|]; try done.
  destruct Hm as (_&_&_&[[logged Hins] _]). eauto.
Qed.

(** C2 (amended).  With at least one worker, in every finished run that
    started the pool [runSync] has returned nil, every discovered principal
    was processed and the batches sent on the results channel are those of
    the principals whose processing succeeded with at least one record: a
    principal that fails and one with no record send nothing and do not keep
    the others from being processed.  In particular, when discovery gives
    three principals of which the first fails at listing, the second lists
    nothing and the third lists two conversations whose details are fetched,
    the run sends exactly one batch, the two records of the third.  Whether
    a load job follows is decided after the pool: a dry run makes none, a
    live run that cannot obtain the warehouse token makes none, and a live
    run that obtains it, serializes both records and builds the multipart
    body makes exactly one, whose payload is the two serialized records. *)
Theorem C2_failed_and_empty_principals_send_no_batch
    (w : World) (config : Config) (poolSize : nat) (mode : string) (dryRun : bool)
    (schedule : list action) (s : state) (token : string) (users : list User) :
  0 < poolSize ->
  lookerLogin w config (LookerClientID config) (LookerClientSecret config)
  = Return (Ok token) ->
  searchUsers w config token = Ok users ->
  exec w config poolSize mode dryRun schedule initial = Some s ->
  finished s = true ->
  returned s = Some None /\
  fetched s ≡ₚ users /\
  sent s ≡ₚ omap (workerBatch w config mode token) users /\
  (forall batch,
     batch ∈ sent s ->
     batch <> [] /\
     exists user logged,
       user ∈ users /\
       processUser w config token user mode (formatInt (User_ID user))
       = (logged, Ok batch)) /\
  (forall (a b c : User) (tokenA tokenB tokenC : string) (errA : error)
          (c1 c2 d1 d2 : Conversation),
     users = [a; b; c] ->
     sudoLogin w config token (formatInt (User_ID a)) = Ok tokenA ->
     searchConversations w config tokenA mode = Err errA ->
     sudoLogin w config token (formatInt (User_ID b)) = Ok tokenB ->
     searchConversations w config tokenB mode = Ok [] ->
     sudoLogin w config token (formatInt (User_ID c)) = Ok tokenC ->
     searchConversations w config tokenC mode = Ok [c1; c2] ->
     getConversationDetail w config tokenC (Conv_ID c1) = Ok d1 ->
     getConversationDetail w config tokenC (Conv_ID c2) = Ok d2 ->
     sent s = [[d1; d2]] /\
     (dryRun = true -> submissions s = []) /\
     (forall cause, getGCPToken w = Err cause -> submissions s = []) /\
     (forall gcpToken b1 b2,
        dryRun = false ->
        getGCPToken w = Ok gcpToken ->
        json_Marshal w d1 = Ok b1 ->
        json_Marshal w d2 = Ok b2 ->
        partsCreated w = true ->
        submissions s =
        [loadJobRequest w config gcpToken (((b1 +:+ newline) +:+ b2) +:+ newline)])).
Proof.
  intros Hpos Hl Hu Hexec Hfin.
  pose proof (run_pool_inv _ _ _ _ _ _ _ _ _ Hl Hu Hexec Hfin) as Hp.
  destruct (finished_pool _ _ _ _ _ _ _ _ Hpos Hp Hfin) as (_&Hf&Hsent).
  split; [by eapply finished_pool_returned|].
  split; [by rewrite Hf|]. split; [done|]. split.
  { intros batch Hin. rewrite Hsent in Hin.
    apply list_elem_of_omap in Hin as (user & Huser & Hbatch).
    unfold workerBatch in Hbatch.
    destruct (processUser w config token user mode (formatInt (User_ID user)))
      as [logged [conversations|err]] eqn:Hpu; [|done].
    destruct (0 <? length conversations) eqn:Hlen; [|done].
    injection Hbatch as <-. split.
    - intros ->. done.
    - by exists user, logged. }
  intros a b c tokenA tokenB tokenC errA c1 c2 d1 d2
    -> HsA HlA HsB HlB HsC HlC Hd1 Hd2.
  assert (Hsent' : sent s = [[d1; d2]]).
  { apply Permutation_singleton_r. rewrite Hsent. simpl.
    unfold workerBatch.
    rewrite (processUser_listed _ _ _ _ _ _ _ _ HsB HlB).
    rewrite (processUser_listed _ _ _ _ _ _ _ _ HsC HlC).
    unfold processUser at 1. rewrite HsA, HlA.
    unfold details. simpl. rewrite Hd1, Hd2. done. }
  split; [done|].
  destruct (finished_run _ _ _ _ _ _ _ Hexec Hfin) as [Hcount _].
  split; [|split].
  - intros Hdry. rewrite Hdry in Hcount. unfold loadDue in Hcount. simpl in Hcount.
    by destruct (submissions s).
  - intros cause Hg. unfold loadDue in Hcount. rewrite Hg in Hcount.
    rewrite andb_false_r in Hcount. simpl in Hcount.
    by destruct (submissions s).
  - intros g b1 b2 Hlive Hg Hm1 Hm2 Hparts. subst dryRun.
    destruct (finished_live_pool _ _ _ _ _ _ _ Hp Hfin) as (logged&ret&Hins).
    rewrite Hsent' in Hins. unfold insertToBigQuery in Hins. rewrite Hg in Hins.
    simpl in Hins. rewrite Hm1, Hm2 in Hins.
    destruct (submitLoad w config g _ 2) as [[reqs lg] ret'] eqn:Hsub.
    apply submitLoad_requests in Hsub. rewrite Hparts in Hsub. simpl in Hsub.
    injection Hins as <- _ _. done.
Qed.

(** * The properties on the concrete deployment *)

(** C4 on the user message of the concrete conversation. *)
Lemma C4_witness :
  demoMessages !! 0 = Some (VObj demoUserNode) /\
  demoUserNode !! "message" = Some (VObj demoUserBody) /\
  is_Some (demoUserBody !! "userMessage") /\
  is_Some (demoUserBody !! "debugInfo") /\
  exists msg' body' : gmap string value,
    PruneAgentMessages demoMessages !! 0 = Some (VObj msg') /\
    msg' !! "message" = Some (VObj body') /\
    body' !! "debugInfo" = None /\
    (forall k, k <> "debugInfo" -> body' !! k = demoUserBody !! k) /\
    (forall k, k <> "message" -> msg' !! k = demoUserNode !! k).
Proof.
  assert (H1 : demoMessages !! 0 = Some (VObj demoUserNode)) by reflexivity.
  assert (H2 : demoUserNode !! "message" = Some (VObj demoUserBody))
    by (vm_compute; reflexivity).
  assert (H3 : is_Some (demoUserBody !! "userMessage"))
    by (eexists; vm_compute; reflexivity).
  assert (H4 : is_Some (demoUserBody !! "debugInfo"))
    by (eexists; vm_compute; reflexivity).
  repeat (split; [assumption|]).
  exact (C4_user_message_loses_only_debugInfo demoMessages 0 demoUserNode demoUserBody
           H1 H2 H3 H4).
Defined.

(** C5 on the system message of the concrete conversation. *)
Lemma C5_witness :
  exists (node' : value) (schema' : gmap string value),
    PruneAgentMessages demoMessages !! 1 = Some node' /\
    getPath ["message"; "debugInfo"; "response"; "data"; "systemMessage"; "schema"] node'
      = Some (VObj schema') /\
    schema' !! "result" = None /\
    schema' !! "datasources" = None /\
    (forall k, k <> "result" -> k <> "datasources" -> schema' !! k = demoSchema !! k).
Proof.
  apply (C5_schema_bulk_fields_removed demoMessages 1 demoSystemNode demoSystemBody
           demoDebugInfo demoResponse demoRespData demoSysMsg demoSchema);
    try (vm_compute; reflexivity); eexists; vm_compute; reflexivity.
Defined.

(** C8 on the concrete conversation: the string element, the message of
    another kind and the system message with a broken path. *)
Lemma C8_witness :
  PruneAgentMessages demoMessages !! 4 = Some (VStr "noise") /\
  PruneAgentMessages demoMessages !! 3 = Some (VObj demoOtherNode) /\
  PruneAgentMessages demoMessages !! 2 =
  Some (VObj (<["message" :=
                  VObj (<["debugInfo" := VObj (delete "request" demoBrokenDebugInfo)]>
                          (delete "systemMessage" demoBrokenBody))]> demoBrokenNode)).
Proof.
  destruct (C8_prune_total_and_shape_tolerant demoMessages) as [_ H].
  split; [|split].
  - destruct (H 4 (VStr "noise") eq_refl) as (_ & Hskip & _). apply Hskip.
    intros msg Hmsg. discriminate Hmsg.
  - destruct (H 3 (VObj demoOtherNode) eq_refl) as (_ & _ & Hother & _).
    apply (Hother demoOtherNode demoOtherBody); try (vm_compute; reflexivity).
    vm_compute. discriminate.
  - destruct (H 2 (VObj demoBrokenNode) eq_refl) as (_ & _ & _ & Hsys).
    assert (H1 : demoBrokenNode !! "type" = Some (VStr "system"))
      by (vm_compute; reflexivity).
    assert (H2 : demoBrokenNode !! "message" = Some (VObj demoBrokenBody))
      by (vm_compute; reflexivity).
    assert (H3 : demoBrokenBody !! "userMessage" = None) by (vm_compute; reflexivity).
    assert (H4 : demoBrokenBody !! "debugInfo" = Some (VObj demoBrokenDebugInfo))
      by (vm_compute; reflexivity).
    assert (H5 : asMap (getPath ["response"; "data"; "systemMessage"]
                          (VObj demoBrokenDebugInfo)) = None)
      by (vm_compute; reflexivity).
    exact (proj2 (Hsys demoBrokenNode demoBrokenBody eq_refl H1 H2 H3)
             demoBrokenDebugInfo H4 H5).
Defined.

(** C10 on the system message with a broken path. *)
Lemma C10_witness :
  exists (node' : value) (debugInfo' : gmap string value),
    PruneAgentMessages demoMessages !! 2 = Some node' /\
    getPath ["message"; "debugInfo"] node' = Some (VObj debugInfo') /\
    debugInfo' !! "request" = None /\
    (asMap (getPath ["response"; "data"; "systemMessage"] (VObj demoBrokenDebugInfo)) = None ->
     debugInfo' = delete "request" demoBrokenDebugInfo).
Proof.
  apply (C10_system_debugInfo_request_removed demoMessages 2 demoBrokenNode
           demoBrokenBody demoBrokenDebugInfo); vm_compute; reflexivity.
Defined.

(** C6 at the failing input: the detail of the second conversation of
    principal 4 is refused with status 404.  Nothing is logged and the
    zero-valued conversation is returned between the other two. *)
Lemma C6_witness :
  client_Do notFoundWorld (detailRequest demoConfig "token-4" "c9") = Ok notFound /\
  StatusCode notFound = 404%Z /\
  processUser notFoundWorld demoConfig "admin-token-0001" (demoUser 4) "historical" "4"
  = ([], Ok [demoDetail "c1"; zeroConversation; demoDetail "c2"]).
Proof.
  assert (Hs : sudoLogin notFoundWorld demoConfig "admin-token-0001" "4" = Ok "token-4")
    by (vm_compute; reflexivity).
  assert (Hl : searchConversations notFoundWorld demoConfig "token-4" "historical"
               = Ok ([demoConversation "c1" VNull]
                     ++ demoConversation "c9" VNull :: [demoConversation "c2" VNull]))
    by (vm_compute; reflexivity).
  assert (Hdo : client_Do notFoundWorld
                  (detailRequest demoConfig "token-4"
                     (Conv_ID (demoConversation "c9" VNull))) = Ok notFound)
    by (vm_compute; reflexivity).
  assert (Hdec : decodeBody (decode_Conversation notFoundWorld) notFound
                 = Ok zeroConversation) by (vm_compute; reflexivity).
  destruct (C6_refused_detail_is_returned_not_skipped notFoundWorld demoConfig
              "admin-token-0001" (demoUser 4) "historical" "4" "token-4"
              [demoConversation "c1" VNull] [demoConversation "c2" VNull]
              (demoConversation "c9" VNull) notFound zeroConversation Hs Hl Hdo Hdec)
    as (detail & _ & _ & Hsame & Hp).
  split; [exact Hdo|]. split; [reflexivity|].
  rewrite Hp. rewrite (Hsame ltac:(intros msgs; discriminate)).
  vm_compute. reflexivity.
Defined.



(** C2 on the run over three principals whose load is accepted. *)
Lemma C2_witness :
  0 < WorkerPoolSize /\
  finished acceptedRun = true /\
  returned acceptedRun = Some None /\
  fetched acceptedRun ≡ₚ [demoUser 1; demoUser 2; demoUser 3] /\
  sent acceptedRun = [[demoDetail "c1"; demoDetail "c2"]] /\
  submissions acceptedRun
  = [loadJobRequest acceptedWorld demoConfig "local-token" demoPayload].
Proof.
  assert (Hpos : 0 < WorkerPoolSize) by (unfold WorkerPoolSize; lia).
  assert (Hl : lookerLogin acceptedWorld demoConfig (LookerClientID demoConfig)
                 (LookerClientSecret demoConfig) = Return (Ok "admin-token-0001"))
    by (vm_compute; reflexivity).
  assert (Hu : searchUsers acceptedWorld demoConfig "admin-token-0001"
               = Ok [demoUser 1; demoUser 2; demoUser 3]) by (vm_compute; reflexivity).
  assert (Hexec : exec acceptedWorld demoConfig WorkerPoolSize "historical" false
                    (demoSchedule acceptedWorld WorkerPoolSize "historical" false) initial
                  = Some acceptedRun) by (vm_compute; reflexivity).
  assert (Hfin : finished acceptedRun = true) by (vm_compute; reflexivity).
  destruct (C2_failed_and_empty_principals_send_no_batch acceptedWorld demoConfig
              WorkerPoolSize "historical" false _ acceptedRun "admin-token-0001"
              [demoUser 1; demoUser 2; demoUser 3] Hpos Hl Hu Hexec Hfin)
    as (Hret & Hfetched & _ & _ & Hscenario).
  split; [exact Hpos|]. split; [exact Hfin|]. split; [exact Hret|].
  split; [exact Hfetched|].
  destruct (Hscenario (demoUser 1) (demoUser 2) (demoUser 3)
              "token-1" "token-2" "token-3" (ErrStatus "search" 500)
              (demoConversation "c1" VNull) (demoConversation "c2" VNull)
              (demoDetail "c1") (demoDetail "c2"))
    as (Hsent & _ & _ & Hload); try (vm_compute; reflexivity).
  split; [exact Hsent|].
  apply (Hload "local-token" "{id:c1}" "{id:c2}"); vm_compute; reflexivity.
Defined.

(** C2 (as stated) fails: in a live run over three principals of which the
    first fails at listing, the second lists nothing and the third lists two
    conversations whose details are fetched, the one batch is sent, but the
    warehouse token cannot be obtained and no load job is made. *)
Lemma C2_counterexample :
  ~ (forall (w : World) (config : Config) (poolSize : nat) (mode : string)
            (schedule : list action) (s : state) (token : string)
            (a b c : User) (tokenA tokenB tokenC : string) (errA : error)
            (c1 c2 d1 d2 : Conversation),
       0 < poolSize ->
       lookerLogin w config (LookerClientID config) (LookerClientSecret config)
       = Return (Ok token) ->
       searchUsers w config token = Ok [a; b; c] ->
       sudoLogin w config token (formatInt (User_ID a)) = Ok tokenA ->
       searchConversations w config tokenA mode = Err errA ->
       sudoLogin w config token (formatInt (User_ID b)) = Ok tokenB ->
       searchConversations w config tokenB mode = Ok [] ->
       sudoLogin w config token (formatInt (User_ID c)) = Ok tokenC ->
       searchConversations w config tokenC mode = Ok [c1; c2] ->
       getConversationDetail w config tokenC (Conv_ID c1) = Ok d1 ->
       getConversationDetail w config tokenC (Conv_ID c2) = Ok d2 ->
       exec w config poolSize mode false schedule initial = Some s ->
       finished s = true ->
       length (submissions s) = 1).
Proof.
  intros H.
  assert (Hpos : 0 < WorkerPoolSize) by (unfold WorkerPoolSize; lia).
  assert (Hexec : exec tokenlessWorld demoConfig WorkerPoolSize "historical" false
                    (demoSchedule tokenlessWorld WorkerPoolSize "historical" false) initial
                  = Some tokenlessRun) by (vm_compute; reflexivity).
  assert (Hfin : finished tokenlessRun = true) by (vm_compute; reflexivity).
  specialize (H tokenlessWorld demoConfig WorkerPoolSize "historical"
                (demoSchedule tokenlessWorld WorkerPoolSize "historical" false)
                tokenlessRun "admin-token-0001"
                (demoUser 1) (demoUser 2) (demoUser 3) "token-1" "token-2" "token-3"
                (ErrStatus "search" 500)
                (demoConversation "c1" VNull) (demoConversation "c2" VNull)
                (demoDetail "c1") (demoDetail "c2") Hpos).
  repeat (match type of H with
          | ?P -> _ =>
              let Hp := fresh in
              assert (Hp : P) by first [exact Hexec | exact Hfin | vm_compute; reflexivity];
              specialize (H Hp); clear Hp
          end).
  lazymatch type of H with length _ = 1 => idtac end.
  vm_compute in H. discriminate H.
Qed.

(** C7 on the run whose load is refused. *)
Lemma C7_witness :
  finished refusedRun = true /\
  submissions refusedRun
  = [loadJobRequest refusedWorld demoConfig "local-token" demoPayload] /\
  uploadError refusedRun = Some (ErrStatus "BQ job creation" 500) /\
  LogUploadError (ErrStatus "BQ job creation" 500) ∈ logs refusedRun /\
  returned refusedRun = Some None.
Proof.
  assert (Hexec : exec refusedWorld demoConfig WorkerPoolSize "historical" false
                    (demoSchedule refusedWorld WorkerPoolSize "historical" false) initial
                  = Some refusedRun) by (vm_compute; reflexivity).
  assert (Hfin : finished refusedRun = true) by (vm_compute; reflexivity).
  assert (Hsub : submissions refusedRun
                 = [loadJobRequest refusedWorld demoConfig "local-token" demoPayload])
    by (vm_compute; reflexivity).
  assert (Hin : loadJobRequest refusedWorld demoConfig "local-token" demoPayload
                ∈ submissions refusedRun)
    by (rewrite Hsub; apply list_elem_of_here).
  assert (Hdo : client_Do refusedWorld
                  (loadJobRequest refusedWorld demoConfig "local-token" demoPayload)
                = Ok {| StatusCode := 500; RespBody := Ok "job" |})
    by (vm_compute; reflexivity).
  assert (Hst : StatusCode {| StatusCode := 500; RespBody := Ok "job" |} <> 200%Z)
    by (simpl; lia).
  split; [exact Hfin|].
  exact (C7_load_failure_is_logged_and_run_returns_nil refusedWorld demoConfig
           WorkerPoolSize "historical" false _ refusedRun _ _ Hexec Hfin Hin Hdo Hst).
Defined.

(** The run whose load is refused, and the answer its request gets. *)
Lemma refused_run_facts :
  exec refusedWorld demoConfig WorkerPoolSize "historical" false
    (demoSchedule refusedWorld WorkerPoolSize "historical" false) initial
  = Some refusedRun /\
  finished refusedRun = true /\
  loadJobRequest refusedWorld demoConfig "local-token" demoPayload ∈ submissions refusedRun /\
  client_Do refusedWorld (loadJobRequest refusedWorld demoConfig "local-token" demoPayload)
  = Ok {| StatusCode := 500; RespBody := Ok "job" |} /\
  StatusCode {| StatusCode := 500; RespBody := Ok "job" |} <> 200%Z.
Proof.
  split; [vm_compute; reflexivity|]. split; [vm_compute; reflexivity|].
  split; [|split; [vm_compute; reflexivity|simpl; lia]].
  assert (Hsub : submissions refusedRun
                 = [loadJobRequest refusedWorld demoConfig "local-token" demoPayload])
    by (vm_compute; reflexivity).
  rewrite Hsub. apply list_elem_of_here.
Qed.

(** C7 (as stated) fails: in a run whose load request is answered with status
    500, [runSync] returns nil, not an error. *)
Lemma C7_counterexample :
  ~ (forall (w : World) (config : Config) (poolSize : nat) (mode : string)
            (dryRun : bool) (schedule : list action) (s : state)
            (req : Request) (resp : Response),
       exec w config poolSize mode dryRun schedule initial = Some s ->
       finished s = true ->
       req ∈ submissions s ->
       client_Do w req = Ok resp ->
       StatusCode resp <> 200%Z ->
       exists err, returned s = Some (Some err)).
Proof.
  intros H.
  destruct refused_run_facts as (Hexec & Hfin & Hin & Hdo & Hst).
  destruct (H _ _ _ _ _ _ _ _ _ Hexec Hfin Hin Hdo Hst) as [err Herr].
  vm_compute in Herr. discriminate Herr.
Qed.

(** C9 on 200 principals and 50 workers. *)
Lemma C9_witness :
  0 < WorkerPoolSize /\
  finished largeRun = true /\
  fetched largeRun ≡ₚ map demoUser (seq 1 200) /\
  returned largeRun = Some None.
Proof.
  assert (Hpos : 0 < WorkerPoolSize) by (unfold WorkerPoolSize; lia).
  assert (Hl : lookerLogin largeWorld demoConfig (LookerClientID demoConfig)
                 (LookerClientSecret demoConfig) = Return (Ok "admin-token-0001"))
    by (vm_compute; reflexivity).
  assert (Hu : searchUsers largeWorld demoConfig "admin-token-0001"
               = Ok (map demoUser (seq 1 200))) by (vm_compute; reflexivity).
  assert (Hexec : exec largeWorld demoConfig WorkerPoolSize "historical" true
                    (demoSchedule largeWorld WorkerPoolSize "historical" true) initial
                  = Some largeRun) by (vm_compute; reflexivity).
  assert (Hfin : finished largeRun = true) by (vm_compute; reflexivity).
  split; [exact Hpos|]. split; [exact Hfin|].
  exact (proj2 (C9_every_principal_processed_once largeWorld demoConfig WorkerPoolSize
                  "historical" true "admin-token-0001" _ _ largeRun Hpos Hl Hu Hexec)
           Hfin).
Defined.

(** * More on the pruning *)

Lemma pruneSystemBody_reached body debugInfo response data sysMsg :
  body !! "debugInfo" = Some (VObj debugInfo) ->
  debugInfo !! "response" = Some (VObj response) ->
  response !! "data" = Some (VObj data) ->
  data !! "systemMessage" = Some (VObj sysMsg) ->
  pruneSystemBody body =
  <["debugInfo" :=
      VObj (<["response" :=
                VObj (<["data" :=
                          VObj (<["systemMessage" := VObj (pruneSystemMessage sysMsg)]> data)]>
                        response)]>
              (delete "request" debugInfo))]>
    (delete "systemMessage" body).
Proof.
  intros Hdi Hr Hd Hs. unfold pruneSystemBody.
  rewrite lookup_delete_ne; [|done]. rewrite Hdi. simpl.
  rewrite lookup_delete_ne; [|done]. rewrite Hr. simpl.
  rewrite Hd. simpl. rewrite Hs. simpl. done.
Qed.

Lemma dom_updMap k f (m : gmap string value) : dom (updMap k f m) = dom m.
Proof.
  unfold updMap. destruct (asMap (m !! k)) as [o|] eqn:E; [|done].
  apply asMap_Some in E. rewrite dom_insert_L.
  apply elem_of_dom_2 in E. set_solver.
Qed.

Lemma dom_pruneSystemBody body : dom (pruneSystemBody body) ⊆ dom body.
Proof.
  rewrite pruneSystemBody_normal, dom_updMap, dom_delete_L. set_solver.
Qed.

Lemma lookup_pruneSystemBody_other body k :
  k <> "debugInfo" -> k <> "systemMessage" -> pruneSystemBody body !! k = body !! k.
Proof.
  intros H1 H2. rewrite pruneSystemBody_normal. lookups.
  repeat case_decide; simplify_eq; done.
Qed.

(** X1.  Whatever the node, pruning leaves every top-level field other than
    [message] as it was and adds or removes no top-level key; when [message]
    holds an object it still does afterwards, with no key added and with
    every field other than [debugInfo] and [systemMessage] as it was. *)
Theorem X1_prune_touches_only_debugInfo_and_systemMessage
    (messages : list value) (i : nat) (msg : gmap string value) :
  messages !! i = Some (VObj msg) ->
  exists msg' : gmap string value,
    PruneAgentMessages messages !! i = Some (VObj msg') /\
    dom msg' = dom msg /\
    (forall k, k <> "message" -> msg' !! k = msg !! k) /\
    (forall v, msg !! "message" = Some v -> (forall body, v <> VObj body) ->
               msg' !! "message" = Some v) /\
    (forall body, msg !! "message" = Some (VObj body) ->
       exists body' : gmap string value,
         msg' !! "message" = Some (VObj body') /\
         dom body' ⊆ dom body /\
         (forall k, k <> "debugInfo" -> k <> "systemMessage" ->
                    body' !! k = body !! k)).
Proof.
  intros Hi. rewrite (PruneAgentMessages_lookup _ _ _ Hi).
  destruct (asMap (msg !! "message")) as [body|] eqn:Eb.
  2:{ exists msg. rewrite (pruneMessage_no_body _ Eb).
      repeat split; try done.
      intros body Hb. by rewrite Hb in Eb. }
  apply asMap_Some in Eb.
  assert (Hdom : forall body' : gmap string value,
             dom (<["message" := VObj body']> msg) = dom msg).
  { intros body'. rewrite dom_insert_L. apply elem_of_dom_2 in Eb. set_solver. }
  assert (Hother : forall (body' : gmap string value) k,
             k <> "message" -> <["message" := VObj body']> msg !! k = msg !! k).
  { intros body' k Hk. by rewrite lookup_insert_ne. }
  assert (Hnon : forall (m' : gmap string value) v,
             msg !! "message" = Some v -> (forall body0, v <> VObj body0) ->
             m' !! "message" = Some v).
  { intros m' v Hv Hne. rewrite Eb in Hv. injection Hv as <-. by destruct (Hne body). }
  destruct (body !! "userMessage") as [u|] eqn:Eu.
  - eexists. rewrite (pruneMessage_user _ _ _ Eb Eu).
    split; [done|]. split; [apply Hdom|]. split; [apply Hother|].
    split; [apply Hnon|].
    intros body0 Hb0. rewrite Eb in Hb0. injection Hb0 as <-.
    eexists. split; [apply lookup_insert_eq|]. split.
    + rewrite dom_delete_L. set_solver.
    + intros k Hk _. by rewrite lookup_delete_ne.
  - destruct (ifaceEqString (msg !! "type") "system") eqn:Et.
    + eexists. rewrite (pruneMessage_system _ _ Eb Eu Et).
      split; [done|]. split; [apply Hdom|]. split; [apply Hother|].
      split; [apply Hnon|].
      intros body0 Hb0. rewrite Eb in Hb0. injection Hb0 as <-.
      eexists. split; [apply lookup_insert_eq|]. split.
      * apply dom_pruneSystemBody.
      * apply lookup_pruneSystemBody_other.
    + exists msg. rewrite (pruneMessage_other _ _ Eb Eu Et).
      split; [done|]. split; [done|]. split; [done|]. split; [apply Hnon|].
      intros body0 Hb0. rewrite Eb in Hb0. injection Hb0 as <-.
      exists body. done.
Qed.

Section SystemMessage.

(** A system message whose path down to [systemMessage] is made of objects. *)
Variable messages : list value.
Variable i : nat.
Variables msg body debugInfo response data sysMsg : gmap string value.
Hypothesis Hnode : messages !! i = Some (VObj msg).
Hypothesis Htype : msg !! "type" = Some (VStr "system").
Hypothesis Hbody : msg !! "message" = Some (VObj body).
Hypothesis Huser : body !! "userMessage" = None.
Hypothesis HdebugInfo : body !! "debugInfo" = Some (VObj debugInfo).
Hypothesis Hresponse : debugInfo !! "response" = Some (VObj response).
Hypothesis Hdata : response !! "data" = Some (VObj data).
Hypothesis HsysMsg : data !! "systemMessage" = Some (VObj sysMsg).

Lemma pruned_system_node :
  PruneAgentMessages messages !! i =
  Some (VObj
    (<["message" :=
         VObj (<["debugInfo" :=
                   VObj (<["response" :=
                             VObj (<["data" :=
                                       VObj (<["systemMessage" :=
                                                 VObj (pruneSystemMessage sysMsg)]> data)]>
                                     response)]>
                           (delete "request" debugInfo))]>
                 (delete "systemMessage" body))]> msg)).
Proof.
  rewrite (PruneAgentMessages_lookup _ _ _ Hnode).
  apply ifaceEqString_true in Htype.
  rewrite (pruneMessage_system _ _ Hbody Huser Htype).
  by rewrite (pruneSystemBody_reached _ _ _ _ _ HdebugInfo Hresponse Hdata HsysMsg).
Qed.

Lemma pruned_system_message_at_path :
  exists node',
    PruneAgentMessages messages !! i = Some node' /\
    getPath ["message"; "debugInfo"; "response"; "data"; "systemMessage"] node'
    = Some (VObj (pruneSystemMessage sysMsg)).
Proof.
  eexists. split; [apply pruned_system_node|].
  simpl. by rewrite !lookup_insert_eq.
Qed.

(** X2.  Pruning such a message removes [systemMessage] from the body and
    [request] from [debugInfo], and along the path it changes nothing else:
    the body keeps every field but these two, [debugInfo] every field but
    [request] and [response], [response] every field but [data], and [data]
    every field but [systemMessage]. *)
Theorem X2_system_path_frame :
  exists (node' : value) (body' debugInfo' response' data' : gmap string value),
    PruneAgentMessages messages !! i = Some node' /\
    getPath ["message"] node' = Some (VObj body') /\
    getPath ["message"; "debugInfo"] node' = Some (VObj debugInfo') /\
    getPath ["message"; "debugInfo"; "response"] node' = Some (VObj response') /\
    getPath ["message"; "debugInfo"; "response"; "data"] node' = Some (VObj data') /\
    body' !! "systemMessage" = None /\
    (forall k, k <> "systemMessage" -> k <> "debugInfo" -> body' !! k = body !! k) /\
    debugInfo' !! "request" = None /\
    (forall k, k <> "request" -> k <> "response" -> debugInfo' !! k = debugInfo !! k) /\
    (forall k, k <> "data" -> response' !! k = response !! k) /\
    (forall k, k <> "systemMessage" -> data' !! k = data !! k).
Proof.
  pose (data' := <["systemMessage" := VObj (pruneSystemMessage sysMsg)]> data).
  pose (response' := <["data" := VObj data']> response).
  pose (debugInfo' := <["response" := VObj response']> (delete "request" debugInfo)).
  pose (body' := <["debugInfo" := VObj debugInfo']> (delete "systemMessage" body)).
  exists (VObj (<["message" := VObj body']> msg)), body', debugInfo', response', data'.
  split; [apply pruned_system_node|].
  subst body' debugInfo' response' data'.
  simpl. rewrite !lookup_insert_eq.
  split; [reflexivity|]. split; [reflexivity|]. split; [reflexivity|].
  split; [reflexivity|]. split.
  { rewrite lookup_insert_ne; [|done]. apply lookup_delete_eq. }
  split.
  { intros k H1 H2. rewrite lookup_insert_ne; [|done]. by rewrite lookup_delete_ne. }
  split.
  { rewrite lookup_insert_ne; [|done]. apply lookup_delete_eq. }
  split.
  { intros k H1 H2. rewrite lookup_insert_ne; [|done]. by rewrite lookup_delete_ne. }
  split; intros k Hk; by rewrite lookup_insert_ne.
Qed.

(** X3.  The signature fields are removed: the pruned [systemMessage] has no
    [thoughtSignature], and a [text] object in it has lost its own
    [thoughtSignature] and nothing else; a [text] that is not an object is
    left as it is. *)
Theorem X3_thought_signatures_removed :
  exists (node' : value) (sysMsg' : gmap string value),
    PruneAgentMessages messages !! i = Some node' /\
    getPath ["message"; "debugInfo"; "response"; "data"; "systemMessage"] node'
    = Some (VObj sysMsg') /\
    sysMsg' !! "thoughtSignature" = None /\
    (forall textObj,
       sysMsg !! "text" = Some (VObj textObj) ->
       exists textObj' : gmap string value,
         sysMsg' !! "text" = Some (VObj textObj') /\
         textObj' !! "thoughtSignature" = None /\
         (forall k, k <> "thoughtSignature" -> textObj' !! k = textObj !! k)) /\
    (forall v,
       sysMsg !! "text" = Some v -> (forall o, v <> VObj o) ->
       sysMsg' !! "text" = Some v).
Proof.
  destruct pruned_system_message_at_path as (node' & Hn & Hp).
  exists node', (pruneSystemMessage sysMsg). split; [done|]. split; [done|].
  split; [|split].
  - rewrite lookup_pruneSystemMessage. by repeat case_decide.
  - intros textObj Ht. exists (delete "thoughtSignature" textObj). split; [|split].
    + rewrite lookup_pruneSystemMessage, Ht. by repeat case_decide.
    + apply lookup_delete_eq.
    + intros k Hk. by apply lookup_delete_ne.
  - intros v Ht Hne. rewrite lookup_pruneSystemMessage, Ht.
    repeat case_decide; try done.
    destruct v; try done. by destruct (Hne m).
Qed.

(** X4.  A [data] object of the [systemMessage] loses [result] and
    [formattedData]; when it holds a [query] object with a [datasources]
    list, every object of that list loses its [schema], the other elements
    and the length of the list are as before, and so is the rest of [query];
    no other field of [data] changes. *)
Theorem X4_data_block_pruned (dataObj : gmap string value) :
  sysMsg !! "data" = Some (VObj dataObj) ->
  exists (node' : value) (sysMsg' dataObj' : gmap string value),
    PruneAgentMessages messages !! i = Some node' /\
    getPath ["message"; "debugInfo"; "response"; "data"; "systemMessage"] node'
    = Some (VObj sysMsg') /\
    sysMsg' !! "data" = Some (VObj dataObj') /\
    dataObj' !! "result" = None /\
    dataObj' !! "formattedData" = None /\
    (forall k, k <> "result" -> k <> "formattedData" -> k <> "query" ->
               dataObj' !! k = dataObj !! k) /\
    (forall (queryObj : gmap string value) (ds : list value),
       dataObj !! "query" = Some (VObj queryObj) ->
       queryObj !! "datasources" = Some (VArr ds) ->
       exists (queryObj' : gmap string value) (ds' : list value),
         dataObj' !! "query" = Some (VObj queryObj') /\
         queryObj' !! "datasources" = Some (VArr ds') /\
         (forall k, k <> "datasources" -> queryObj' !! k = queryObj !! k) /\
         length ds' = length ds /\
         (forall j (dsMap : gmap string value),
            ds !! j = Some (VObj dsMap) ->
            ds' !! j = Some (VObj (delete "schema" dsMap))) /\
         (forall j item,
            ds !! j = Some item -> (forall o, item <> VObj o) ->
            ds' !! j = Some item)).
Proof.
  intros Hdo.
  destruct pruned_system_message_at_path as (node' & Hn & Hp).
  exists node', (pruneSystemMessage sysMsg), (pruneData dataObj).
  split; [done|]. split; [done|]. split.
  { rewrite lookup_pruneSystemMessage, Hdo. by repeat case_decide. }
  rewrite pruneData_normal. split.
  { lookups. by repeat case_decide. }
  split.
  { lookups. by repeat case_decide. }
  split.
  { intros k H1 H2 H3. lookups. by repeat case_decide. }
  intros queryObj ds Hq Hds.
  exists (pruneQuery queryObj), (map pruneDatasource ds). split.
  { lookups. rewrite Hq. by repeat case_decide. }
  unfold pruneQuery. split.
  { lookups. rewrite Hds. by repeat case_decide. }
  split.
  { intros k Hk. lookups. by repeat case_decide. }
  split; [apply length_map|]. split.
  - intros j dsMap Hj.
    change (map pruneDatasource ds) with (pruneDatasource <$> ds).
    by rewrite list_lookup_fmap, Hj.
  - intros j item Hj Hne.
    change (map pruneDatasource ds) with (pruneDatasource <$> ds).
    rewrite list_lookup_fmap, Hj. simpl. f_equal.
    destruct item; try done. by destruct (Hne m).
Qed.

(** X5.  A [chart] object of the [systemMessage] loses [result] and nothing
    else. *)
Theorem X5_chart_result_removed (chartObj : gmap string value) :
  sysMsg !! "chart" = Some (VObj chartObj) ->
  exists (node' : value) (sysMsg' chartObj' : gmap string value),
    PruneAgentMessages messages !! i = Some node' /\
    getPath ["message"; "debugInfo"; "response"; "data"; "systemMessage"] node'
    = Some (VObj sysMsg') /\
    sysMsg' !! "chart" = Some (VObj chartObj') /\
    chartObj' !! "result" = None /\
    (forall k, k <> "result" -> chartObj' !! k = chartObj !! k).
Proof.
  intros Hc.
  destruct pruned_system_message_at_path as (node' & Hn & Hp).
  exists node', (pruneSystemMessage sysMsg), (delete "result" chartObj).
  split; [done|]. split; [done|]. split; [|split].
  - rewrite lookup_pruneSystemMessage, Hc. by repeat case_decide.
  - apply lookup_delete_eq.
  - intros k Hk. by apply lookup_delete_ne.
Qed.

(** X6.  Inside the [systemMessage] only [text], [thoughtSignature],
    [schema], [data] and [chart] can change: every other field is as before,
    no key is added, and a [schema], [data] or [chart] that is not an object
    is left as it is. *)
Theorem X6_system_message_frame :
  exists (node' : value) (sysMsg' : gmap string value),
    PruneAgentMessages messages !! i = Some node' /\
    getPath ["message"; "debugInfo"; "response"; "data"; "systemMessage"] node'
    = Some (VObj sysMsg') /\
    dom sysMsg' ⊆ dom sysMsg /\
    (forall k,
       k <> "text" -> k <> "thoughtSignature" -> k <> "schema" -> k <> "data" ->
       k <> "chart" -> sysMsg' !! k = sysMsg !! k) /\
    (forall k v,
       k = "schema" \/ k = "data" \/ k = "chart" ->
       sysMsg !! k = Some v -> (forall o, v <> VObj o) ->
       sysMsg' !! k = Some v).
Proof.
  destruct pruned_system_message_at_path as (node' & Hn & Hp).
  exists node', (pruneSystemMessage sysMsg). split; [done|]. split; [done|].
  split; [|split].
  - rewrite pruneSystemMessage_normal, !dom_updMap, dom_delete_L, dom_updMap.
    set_solver.
  - intros k H1 H2 H3 H4 H5. rewrite lookup_pruneSystemMessage.
    by repeat case_decide.
  - intros k v Hk Hv Hne. rewrite lookup_pruneSystemMessage.
    destruct Hk as [Hk|[Hk|Hk]]; subst k; rewrite Hv; repeat case_decide; try done;
      destruct v; try done; by destruct (Hne m).
Qed.

End SystemMessage.

(** * More on the per-principal fetcher *)

Lemma getConversationDetail_eq w config token id :
  getConversationDetail w config token id =
  match client_Do w (detailRequest config token id) with
  | Err err => Err err
  | Ok resp =>
      match decodeBody (decode_Conversation w) resp with
      | Err err => Err err
      | Ok detail =>
          match Conv_Messages detail with
          | VArr msgs => Ok (setMessages detail (VArr (PruneAgentMessages msgs)))
          | _ => Ok detail
          end
      end
  end.
Proof. reflexivity. Qed.

Lemma PruneAgentMessages_fixed msgs :
  PruneAgentMessages (PruneAgentMessages msgs) = PruneAgentMessages msgs.
Proof.
  unfold PruneAgentMessages. rewrite map_map. apply map_ext.
  intros; apply pruneMessage_idemp.
Qed.

Lemma getConversationDetail_pruned w config token id detail :
  getConversationDetail w config token id = Ok detail -> prunedConversation detail.
Proof.
  rewrite getConversationDetail_eq.
  destruct (client_Do w _) as [resp|]; [|done].
  destruct (decodeBody _ resp) as [d|]; [|done].
  destruct (Conv_Messages d) as [| | | |l|] eqn:Em; intros [= <-] msgs Hm;
    try congruence.
  simpl in Hm. injection Hm as <-. apply PruneAgentMessages_fixed.
Qed.

(** X7.  [getConversationDetail] never looks at the status of the answer: it
    fails exactly when the exchange fails or the body does not decode, with
    that error; otherwise, whatever the status, it returns the decoded
    conversation with its message list pruned when it is a list, and every
    other field, or a [messages] that is not a list, as decoded.  What it
    returns is a fixed point of the pruning. *)
Theorem X7_detail_ignores_status_and_prunes
    (w : World) (config : Config) (token id : string) :
  (forall err,
     getConversationDetail w config token id = Err err <->
     client_Do w (detailRequest config token id) = Err err \/
     exists resp,
       client_Do w (detailRequest config token id) = Ok resp /\
       decodeBody (decode_Conversation w) resp = Err err) /\
  (forall resp decoded,
     client_Do w (detailRequest config token id) = Ok resp ->
     decodeBody (decode_Conversation w) resp = Ok decoded ->
     exists detail,
       getConversationDetail w config token id = Ok detail /\
       Conv_ID detail = Conv_ID decoded /\
       Conv_UserID detail = Conv_UserID decoded /\
       Conv_AgentID detail = Conv_AgentID decoded /\
       Conv_Name detail = Conv_Name decoded /\
       Conv_Sources detail = Conv_Sources decoded /\
       Conv_CreatedAt detail = Conv_CreatedAt decoded /\
       Conv_UpdatedAt detail = Conv_UpdatedAt decoded /\
       Conv_ConversationAgent detail = Conv_ConversationAgent decoded /\
       (forall msgs, Conv_Messages decoded = VArr msgs ->
                     Conv_Messages detail = VArr (PruneAgentMessages msgs)) /\
       ((forall msgs, Conv_Messages decoded <> VArr msgs) -> detail = decoded) /\
       prunedConversation detail).
Proof.
  split.
  - intros err. rewrite getConversationDetail_eq.
    destruct (client_Do w _) as [resp|e].
    + destruct (decodeBody _ resp) as [d|e] eqn:Ed.
      * split.
        -- by destruct (Conv_Messages d).
        -- intros [H|(resp' & H & H')]; [done|]. congruence.
      * split.
        -- intros [= ->]. right. by exists resp.
        -- intros [H|(resp' & H & H')]; [done|]. congruence.
    + split.
      * intros [= ->]. by left.
      * intros [H|(resp' & H & H')]; congruence.
  - intros resp decoded Hdo Hdec.
    destruct (getConversationDetail w config token id) as [detail|e] eqn:Hget.
    2:{ rewrite getConversationDetail_eq, Hdo, Hdec in Hget.
        by destruct (Conv_Messages decoded). }
    exists detail. split; [done|].
    pose proof (getConversationDetail_pruned _ _ _ _ _ Hget) as Hpr.
    rewrite getConversationDetail_eq, Hdo, Hdec in Hget.
    destruct (Conv_Messages decoded) as [| | | |l|] eqn:Em; injection Hget as <-;
      (do 8 (split; [reflexivity|])); (split; [|split; [|exact Hpr]]);
      try (intros msgs Hm; congruence); try (intros _; reflexivity).
    + intros msgs [= <-]. reflexivity.
    + intros Hne. by destruct (Hne l).
Qed.

(** X8.  Once impersonation and listing have succeeded, [processUser] returns
    without error and accounts for every listed conversation exactly once: it
    is either among the details returned or among the failures logged.  The
    details come in the order of the listing, each the result of a successful
    fetch, and each logged line carries the error of a failed one; an empty
    listing gives an empty result and logs nothing. *)
Theorem X8_every_listed_conversation_returned_or_logged
    (w : World) (config : Config) (adminToken : string) (user : User)
    (mode userID userToken : string) (conversations : list Conversation) :
  sudoLogin w config adminToken userID = Ok userToken ->
  searchConversations w config userToken mode = Ok conversations ->
  exists logged detailed,
    processUser w config adminToken user mode userID = (logged, Ok detailed) /\
    length detailed + length logged = length conversations /\
    detailed = details w config userToken conversations /\
    (forall detail,
       detail ∈ detailed <->
       exists c, c ∈ conversations /\
                 getConversationDetail w config userToken (Conv_ID c) = Ok detail) /\
    (forall event,
       event ∈ logged <->
       exists c err,
         c ∈ conversations /\
         getConversationDetail w config userToken (Conv_ID c) = Err err /\
         event = LogDetailFailed (Conv_ID c) err) /\
    (conversations = [] -> logged = [] /\ detailed = []).
Proof.
  intros Hs Hl. eexists _, _. split; [by apply processUser_listed|].
  split; [|split; [done|split; [|split]]].
  - clear Hl. unfold details, detailFailures.
    induction conversations as [|c rest IH]; [done|].
    rewrite !(omap_app _ [c] rest), !length_app. simpl.
    destruct (getConversationDetail w config userToken (Conv_ID c)); simpl; lia.
  - intros detail. unfold details. rewrite list_elem_of_omap.
    split; intros (c & Hc & Hd); exists c; split; try done.
    + by destruct (getConversationDetail w config userToken (Conv_ID c)) as [d|];
        simplify_eq.
    + by rewrite Hd.
  - intros event. unfold detailFailures. rewrite list_elem_of_omap. split.
    + intros (c & Hc & Hd). exists c.
      destruct (getConversationDetail w config userToken (Conv_ID c)) as [d|err];
        [done|]. exists err. by simplify_eq.
    + intros (c & err & Hc & Hd & ->). exists c. by rewrite Hd.
  - by intros ->.
Qed.

(** X9.  [processUser] returns an error exactly when impersonation fails or
    listing fails, wrapping that error as "sudo failed" or "search failed";
    a failing detail fetch is never an error of [processUser].  When it
    returns an error it has logged nothing. *)
Theorem X9_processUser_fails_only_at_sudo_or_listing
    (w : World) (config : Config) (adminToken : string) (user : User)
    (mode userID : string) (logged : list LogEvent) (err : error) :
  processUser w config adminToken user mode userID = (logged, Err err) <->
  logged = [] /\
  ((exists cause,
      sudoLogin w config adminToken userID = Err cause /\
      err = ErrWrap "sudo failed" cause) \/
   (exists userToken cause,
      sudoLogin w config adminToken userID = Ok userToken /\
      searchConversations w config userToken mode = Err cause /\
      err = ErrWrap "search failed" cause)).
Proof.
  destruct (sudoLogin w config adminToken userID) as [userToken|e0] eqn:Hs.
  - destruct (searchConversations w config userToken mode) as [cs|e1] eqn:Hl.
    + rewrite (processUser_listed _ _ _ _ _ _ _ _ Hs Hl). split; [done|].
      intros (_ & [(c & H & _)|(t & c & H & H' & _)]); congruence.
    + unfold processUser. rewrite Hs, Hl. simpl. split.
      * intros [= <- <-]. split; [done|]. right. by exists userToken, e1.
      * intros (-> & [(c & H & _)|(t & c & H & H' & ->)]); [done|].
        assert (t = userToken) as -> by congruence. congruence.
  - unfold processUser. rewrite Hs. split.
    + intros [= <- <-]. split; [done|]. left. by exists e0.
    + intros (-> & [(c & H & ->)|(t & c & H & _)]); congruence.
Qed.

Lemma processUser_pruned w config adminToken user mode userID logged detailed detail :
  processUser w config adminToken user mode userID = (logged, Ok detailed) ->
  detail ∈ detailed ->
  prunedConversation detail.
Proof.
  intros Hp Hin.
  destruct (sudoLogin w config adminToken userID) as [userToken|e0] eqn:Hs.
  2:{ unfold processUser in Hp. by rewrite Hs in Hp. }
  destruct (searchConversations w config userToken mode) as [cs|e1] eqn:Hl.
  2:{ unfold processUser in Hp. by rewrite Hs, Hl in Hp. }
  rewrite (processUser_listed _ _ _ _ _ _ _ _ Hs Hl) in Hp.
  injection Hp as _ <-. unfold details in Hin.
  apply list_elem_of_omap in Hin as (c & _ & Hd).
  destruct (getConversationDetail w config userToken (Conv_ID c)) as [d|] eqn:Hget;
    [|done].
  injection Hd as ->. by eapply getConversationDetail_pruned.
Qed.

(** X10.  Every conversation [processUser] returns has been pruned: its
    message list, if it has one, is a fixed point of [PruneAgentMessages]. *)
Theorem X10_processUser_returns_pruned_conversations
    (w : World) (config : Config) (adminToken : string) (user : User)
    (mode userID : string) (logged : list LogEvent) (detailed : list Conversation)
    (detail : Conversation) :
  processUser w config adminToken user mode userID = (logged, Ok detailed) ->
  detail ∈ detailed ->
  prunedConversation detail.
Proof. apply processUser_pruned. Qed.

(** * More on the run *)

Lemma lookerLogin_eq w config clientID clientSecret :
  lookerLogin w config clientID clientSecret =
  match client_Do w (loginRequest config clientID clientSecret) with
  | Err err => Return (Err err)
  | Ok resp =>
      if negb (StatusCode resp =? 200)%Z
      then Return (Err (ErrStatus "login" (StatusCode resp)))
      else
        match decodeBody (decode_AuthToken w) resp with
        | Err err => Return (Err err)
        | Ok token =>
            if String.length (AccessToken token) <? 10
            then Panic
            else Return (Ok (AccessToken token))
        end
  end.
Proof. reflexivity. Qed.

(** X11.  [lookerLogin] panics exactly when the login exchange succeeds with
    status 200 and a body that decodes to an access token of fewer than 10
    bytes (the line that logs the first 10 bytes of the token); an error
    answer never panics, and every token it returns has at least 10 bytes. *)
Theorem X11_login_panics_on_short_token
    (w : World) (config : Config) (clientID clientSecret : string) :
  (lookerLogin w config clientID clientSecret = Panic <->
   exists resp token,
     client_Do w (loginRequest config clientID clientSecret) = Ok resp /\
     StatusCode resp = 200%Z /\
     decodeBody (decode_AuthToken w) resp = Ok token /\
     String.length (AccessToken token) < 10) /\
  (forall accessToken,
     lookerLogin w config clientID clientSecret = Return (Ok accessToken) ->
     10 <= String.length accessToken).
Proof.
  rewrite lookerLogin_eq.
  destruct (client_Do w _) as [resp|e].
  2:{ split; [|done]. split; [done|]. by intros (? & ? & ? & _). }
  destruct (negb (StatusCode resp =? 200)%Z) eqn:Hst.
  { split; [|done]. split; [done|]. intros (resp' & t & [= <-] & Hs & _).
    apply negb_true_iff, Z.eqb_neq in Hst. done. }
  apply negb_false_iff, Z.eqb_eq in Hst.
  destruct (decodeBody _ resp) as [token|e] eqn:Hd.
  2:{ split; [|done]. split; [done|]. intros (resp' & t & [= <-] & _ & Hd' & _).
      congruence. }
  destruct (String.length (AccessToken token) <? 10) eqn:Hlen.
  - apply Nat.ltb_lt in Hlen. split; [|done]. split; [|done].
    intros _. by exists resp, token.
  - apply Nat.ltb_ge in Hlen. split.
    + split; [done|]. intros (resp' & t & [= <-] & _ & Hd' & Hlt).
      assert (t = token) as -> by congruence. lia.
    + by intros t [= <-].
Qed.

Section RunFacts.

Variable w : World.
Variable config : Config.
Variable poolSize : nat.
Variable mode : string.
Variable dryRun : bool.

Lemma finished_stuck s a :
  finished s = true -> step w config poolSize mode dryRun a s = None.
Proof.
  unfold finished, step. intros Hfin.
  destruct (mainPC s) eqn:Hpc; try done.
  apply andb_prop in Hfin as [Hall Hcl].
  destruct a as [|i|].
  - unfold stepMain. by rewrite Hpc.
  - unfold stepWorker. destruct (workers s !! i) as [x|] eqn:Hi; [|done].
    by rewrite (all_exit_lookup _ _ _ Hall Hi).
  - unfold stepCloser. by destruct (closerPC s).
Qed.

Lemma run_progress s :
  run_inv w config poolSize mode dryRun s ->
  finished s = false ->
  exists a s', step w config poolSize mode dryRun a s = Some s'.
Proof.
  intros Hinv Hfin.
  destruct Hinv as [|Hl|err Hl|token err Hl Hu|token users s Hl Hu Hp]; try done.
  - exists ActMain. rewrite step_initial.
    destruct (lookerLogin w config _ _) as [[token|err]|]; eauto.
    destruct (searchUsers w config token); eauto.
  - by eapply pool_progress.
Qed.

Lemma exec_pool_inv token users schedule s0 s :
  pool_inv w config poolSize mode dryRun token users s0 ->
  exec w config poolSize mode dryRun schedule s0 = Some s ->
  pool_inv w config poolSize mode dryRun token users s /\
  length schedule + weight s <= weight s0.
Proof.
  revert s0. induction schedule as [|a rest IH]; intros s0 Hinv Hexec; simpl in Hexec.
  - injection Hexec as <-. split; [done|]. simpl. lia.
  - destruct (step w config poolSize mode dryRun a s0) as [s1|] eqn:Hstep; [|done].
    assert (Hstart : mainPC s0 <> MStart).
    { destruct Hinv as [_ _ _ _ _ _ _ _ Hm _]. unfold main_inv in Hm.
      by destruct (mainPC s0). }
    pose proof (step_weight _ _ _ _ _ _ _ _ Hstart Hstep) as Hlt.
    assert (Hinv1 : pool_inv w config poolSize mode dryRun token users s1).
    { unfold step in Hstep. destruct (mainPC s0) eqn:Hpc; try done;
        destruct a; eauto using stepMain_inv, stepWorker_inv, stepCloser_inv. }
    destruct (IH s1 Hinv1 Hexec) as [Hinv' Hlen]. split; [done|]. simpl. lia.
Qed.

(** A run that started the pool is its first move followed by a run of the
    pool. *)
Lemma exec_from_start token users schedule s :
  lookerLogin w config (LookerClientID config) (LookerClientSecret config)
  = Return (Ok token) ->
  searchUsers w config token = Ok users ->
  exec w config poolSize mode dryRun schedule initial = Some s ->
  schedule = [] /\ s = initial \/
  exists rest,
    schedule = ActMain :: rest /\
    exec w config poolSize mode dryRun rest (start_pool poolSize token users) = Some s.
Proof.
  intros Hl Hu Hexec. destruct schedule as [|a rest].
  - left. by injection Hexec as <-.
  - right. exists rest.
    change (exec w config poolSize mode dryRun (a :: rest) initial)
      with (match step w config poolSize mode dryRun a initial with
            | Some s1 => exec w config poolSize mode dryRun rest s1
            | None => None
            end) in Hexec.
    destruct a; [|done|done].
    rewrite step_initial, Hl, Hu in Hexec. done.
Qed.

End RunFacts.

(** X12.  What a finished run of [runSync] has done is decided by login and
    discovery alone.  If login panics the process has crashed; if login or
    discovery fails [runSync] has returned that error, wrapped, having
    started no worker, fetched no principal, sent no batch and submitted
    nothing; once discovery has succeeded the pool has been started and
    [runSync] returns nil, whatever happens afterwards. *)
Theorem X12_run_outcome_decided_by_login_and_discovery
    (w : World) (config : Config) (poolSize : nat) (mode : string) (dryRun : bool)
    (schedule : list action) (s : state) :
  exec w config poolSize mode dryRun schedule initial = Some s ->
  finished s = true ->
  match lookerLogin w config (LookerClientID config) (LookerClientSecret config) with
  | Panic =>
      mainPC s = MPanic /\ returned s = None /\
      workers s = [] /\ fetched s = [] /\ sent s = [] /\ submissions s = []
  | Return (Err err) =>
      returned s = Some (Some (ErrWrap "failed to login as admin" err)) /\
      workers s = [] /\ fetched s = [] /\ sent s = [] /\ submissions s = []
  | Return (Ok token) =>
      match searchUsers w config token with
      | Err err =>
          returned s = Some (Some (ErrWrap "failed to fetch users" err)) /\
          workers s = [] /\ fetched s = [] /\ sent s = [] /\ submissions s = []
      | Ok users => returned s = Some None /\ length (workers s) = poolSize
      end
  end.
Proof.
  intros Hexec Hfin.
  assert (Hinv : run_inv w config poolSize mode dryRun s)
    by (eapply exec_run_inv; [apply inv_start|done]).
  destruct Hinv as [|Hl|err Hl|token err Hl Hu|token users s Hl Hu Hp].
  - done.
  - by rewrite Hl.
  - by rewrite Hl.
  - by rewrite Hl, Hu.
  - rewrite Hl, Hu. split; [by eapply finished_pool_returned|]. by destruct Hp.
Qed.

(** X13.  A run is short: once login and discovery have succeeded, no
    schedule of [runSync] has more than 4 moves per discovered principal,
    one per worker and 6 more. *)
Theorem X13_run_length_bounded
    (w : World) (config : Config) (poolSize : nat) (mode : string) (dryRun : bool)
    (token : string) (users : list User) (schedule : list action) (s : state) :
  lookerLogin w config (LookerClientID config) (LookerClientSecret config)
  = Return (Ok token) ->
  searchUsers w config token = Ok users ->
  exec w config poolSize mode dryRun schedule initial = Some s ->
  length schedule <= 4 * length users + poolSize + 6.
Proof.
  intros Hl Hu Hexec.
  destruct (exec_from_start _ _ _ _ _ _ _ _ _ Hl Hu Hexec) as [[-> _]|(rest & -> & Hrest)].
  - simpl. lia.
  - destruct (exec_pool_inv _ _ _ _ _ _ _ _ _ _
                (pool_inv_start w config poolSize mode dryRun token users) Hrest)
      as [_ Hlen].
    assert (Hw : weight (start_pool poolSize token users)
                 = 4 * length users + poolSize + 5).
    { unfold weight. simpl.
      assert (Hsum : list_sum (map workerWeight (replicate poolSize WRecv)) = poolSize).
      { clear. induction poolSize as [|n IH]; simpl; [done|]. by rewrite IH. }
      rewrite Hsum. lia. }
    simpl. lia.
Qed.

(** X14.  No deadlock: in every state a run can reach, no goroutine can move
    exactly when all of them have finished (or the process has crashed). *)
Theorem X14_stuck_only_when_finished
    (w : World) (config : Config) (poolSize : nat) (mode : string) (dryRun : bool)
    (schedule : list action) (s : state) :
  exec w config poolSize mode dryRun schedule initial = Some s ->
  (finished s = true <->
   forall a, step w config poolSize mode dryRun a s = None).
Proof.
  intros Hexec. split.
  - intros Hfin a. by apply finished_stuck.
  - intros Hstuck. destruct (finished s) eqn:Hfin; [done|].
    assert (Hinv : run_inv w config poolSize mode dryRun s)
      by (eapply exec_run_inv; [apply inv_start|done]).
    destruct (run_progress _ _ _ _ _ _ Hinv Hfin) as (a & s' & Hstep).
    by rewrite Hstuck in Hstep.
Qed.

(** X15.  No send ever blocks: in every state a run can reach, the caller
    about to enqueue a principal finds room in the work queue, and a worker
    about to send a batch finds room in the results channel (both channels
    are made with room for one entry per discovered principal). *)
Theorem X15_sends_never_block
    (w : World) (config : Config) (poolSize : nat) (mode : string) (dryRun : bool)
    (schedule : list action) (s : state) :
  exec w config poolSize mode dryRun schedule initial = Some s ->
  (forall user rest,
     mainPC s = MFeed (user :: rest) -> length (userChan s) < capacity s) /\
  (forall workerID batch,
     workers s !! workerID = Some (WSend batch) ->
     length (convChan s) < capacity s).
Proof.
  intros Hexec.
  assert (Hinv : run_inv w config poolSize mode dryRun s)
    by (eapply exec_run_inv; [apply inv_start|done]).
  destruct Hinv as [|Hl|err Hl|token err Hl Hu|token users s Hl Hu Hp]; try done.
  split.
  - intros user rest Hpc. destruct Hp as [_ Hc _ Hq _ _ _ _ _ _].
    rewrite Hpc in Hq. rewrite Hc, <- Hq, !length_app. simpl. lia.
  - intros i b Hi. by eapply send_has_room.
Qed.

(** X16.  The channels are closed in order.  In every state a run can reach:
    the work queue is open while the caller is still feeding it; a worker has
    returned only if the work queue is closed and empty; and the results
    channel is closed only if every worker has returned, so no worker is left
    holding a batch to send on a closed channel. *)
Theorem X16_channels_closed_in_order
    (w : World) (config : Config) (poolSize : nat) (mode : string) (dryRun : bool)
    (schedule : list action) (s : state) :
  exec w config poolSize mode dryRun schedule initial = Some s ->
  (forall rest, mainPC s = MFeed rest -> userChanClosed s = false) /\
  (forall workerID,
     workers s !! workerID = Some WExit ->
     userChanClosed s = true /\ userChan s = []) /\
  (convChanClosed s = true ->
   forall workerID x, workers s !! workerID = Some x -> x = WExit).
Proof.
  intros Hexec.
  assert (Hinv : run_inv w config poolSize mode dryRun s)
    by (eapply exec_run_inv; [apply inv_start|done]).
  destruct Hinv as [|Hl|err Hl|token err Hl Hu|token users s Hl Hu Hp]; try done.
  destruct Hp as [_ _ _ _ He _ _ Hw Hm _]. split; [|split].
  - intros rest Hpc. unfold main_inv in Hm. rewrite Hpc in Hm. by destruct Hm.
  - done.
  - intros Hcl i x Hi. eapply all_exit_lookup; eauto.
Qed.

(** * More on the aggregator *)

Lemma string_app_empty_r (s : string) : s +:+ EmptyString = s.
Proof.
  induction s as [|a s IH]; [done|].
  change (String a (s +:+ EmptyString) = String a s). by rewrite IH.
Qed.

Lemma string_app_assoc (a b c : string) : a +:+ (b +:+ c) = (a +:+ b) +:+ c.
Proof.
  induction a as [|x a IH]; [done|].
  change (String x (a +:+ (b +:+ c)) = String x ((a +:+ b) +:+ c)). by rewrite IH.
Qed.

Lemma ndjsonLines_app a b : ndjsonLines (a ++ b) = ndjsonLines a +:+ ndjsonLines b.
Proof.
  induction a as [|x a IH]; simpl; [done|].
  by rewrite IH, !string_app_assoc.
Qed.

Section Aggregator.

Variable w : World.
Variable config : Config.

Lemma marshalBatch_spec data logged ndjson totalRows :
  marshalBatch w data logged ndjson totalRows =
  (logged ++ marshalWarnings w data,
   ndjson +:+ ndjsonLines (serialized w data),
   totalRows + length (serialized w data)).
Proof.
  revert logged ndjson totalRows.
  induction data as [|c rest IH]; intros logged ndjson totalRows.
  - simpl. rewrite app_nil_r, string_app_empty_r. f_equal. lia.
  - unfold serialized, marshalWarnings.
    rewrite !(omap_app _ [c] rest). fold (serialized w rest) (marshalWarnings w rest).
    simpl. destruct (json_Marshal w c) as [b|err]; rewrite IH; simpl.
    + rewrite !string_app_assoc. f_equal. lia.
    + by rewrite <- app_assoc.
Qed.

Lemma drainLoop_spec batches logged ndjson totalRows :
  drainLoop w batches logged ndjson totalRows =
  (logged ++ marshalWarnings w (concat batches),
   ndjson +:+ ndjsonLines (serialized w (concat batches)),
   totalRows + length (serialized w (concat batches))).
Proof.
  revert logged ndjson totalRows.
  induction batches as [|data rest IH]; intros logged ndjson totalRows.
  - simpl. rewrite app_nil_r, string_app_empty_r. f_equal. lia.
  - simpl. rewrite marshalBatch_spec, IH.
    unfold serialized, marshalWarnings.
    rewrite !omap_app, !length_app, ndjsonLines_app, <- app_assoc, !string_app_assoc.
    f_equal. lia.
Qed.

End Aggregator.

Lemma insertToBigQuery_spec w config batches g :
  getGCPToken w = Ok g ->
  insertToBigQuery w config batches =
  let rows := serialized w (concat batches) in
  let '(reqs, logged, ret) := submitLoad w config g (ndjsonLines rows) (length rows) in
  (reqs, marshalWarnings w (concat batches) ++ logged, ret).
Proof.
  intros Hg. unfold insertToBigQuery. rewrite Hg, drainLoop_spec. simpl.
  reflexivity.
Qed.

(** X17.  With the warehouse token in hand, the payload [insertToBigQuery]
    builds is newline-delimited: one line per record that serializes, in the
    order the batches arrive and the records are listed in them, each
    followed by a line feed.  A record that does not serialize is skipped
    with a warning.  The count returned is the number of lines, and a request
    that is sent is the load request carrying exactly this payload. *)
Theorem X17_payload_is_one_line_per_serialized_record
    (w : World) (config : Config) (batches : list (list Conversation))
    (gcpToken : string) (reqs : list Request) (logged : list LogEvent)
    (total : nat) (uploadErr : option error) :
  getGCPToken w = Ok gcpToken ->
  insertToBigQuery w config batches = (reqs, logged, (total, uploadErr)) ->
  total = length (serialized w (concat batches)) /\
  (forall req,
     req ∈ reqs ->
     req = loadJobRequest w config gcpToken (ndjsonLines (serialized w (concat batches))) /\
     ReqBody req =
     MultipartBody
       [("application/json; charset=UTF-8", JsonPart (jobConfig config));
        ("application/octet-stream",
         BytesPart (ndjsonLines (serialized w (concat batches))))]) /\
  (forall c err,
     c ∈ concat batches -> json_Marshal w c = Err err ->
     LogMarshalWarning (Conv_ID c) err ∈ logged) /\
  (forall c b,
     c ∈ concat batches -> json_Marshal w c = Ok b ->
     b ∈ serialized w (concat batches)).
Proof.
  intros Hg Hins. rewrite (insertToBigQuery_spec _ _ _ _ Hg) in Hins. simpl in Hins.
  destruct (submitLoad w config gcpToken _ _) as [[reqs' logged'] [total' err']] eqn:Hs.
  injection Hins as <- <- <- <-.
  pose proof (submitLoad_requests _ _ _ _ _ _ _ _ Hs) as Hreqs.
  split; [|split; [|split]].
  - unfold submitLoad in Hs.
    destruct (length (serialized w (concat batches))) as [|n] eqn:Hlen.
    + simpl in Hs. by injection Hs as _ _ <- _.
    + simpl in Hs.
      destruct (multipart_CreatePart w 0); [by injection Hs as _ _ <- _|].
      destruct (multipart_CreatePart w 1); [by injection Hs as _ _ <- _|].
      destruct (client_Do w _); [|by injection Hs as _ _ <- _].
      destruct (negb _); by injection Hs as _ _ <- _.
  - intros req Hin. rewrite Hreqs in Hin.
    destruct (_ && _); [|by apply not_elem_of_nil in Hin].
    apply list_elem_of_singleton in Hin. by subst req.
  - intros c err Hc Hm. apply elem_of_app. left.
    unfold marshalWarnings. apply list_elem_of_omap. exists c. by rewrite Hm.
  - intros c b Hc Hm. unfold serialized. apply list_elem_of_omap. exists c.
    by rewrite Hm.
Qed.

(** X18.  [insertToBigQuery] reports no error in exactly two cases: the
    warehouse token was obtained and no record serialized (nothing is sent),
    or the token was obtained, both multipart parts were created, and the
    load endpoint answered the one request with status 200. *)
Theorem X18_upload_succeeds_iff
    (w : World) (config : Config) (batches : list (list Conversation)) :
  snd (snd (insertToBigQuery w config batches)) = None <->
  exists gcpToken,
    getGCPToken w = Ok gcpToken /\
    (serialized w (concat batches) = [] \/
     partsCreated w = true /\
     exists resp,
       client_Do w (loadJobRequest w config gcpToken
                      (ndjsonLines (serialized w (concat batches)))) = Ok resp /\
       StatusCode resp = 200%Z).
Proof.
  destruct (getGCPToken w) as [g|e] eqn:Hg.
  2:{ unfold insertToBigQuery. rewrite Hg. simpl. split; [done|].
      by intros (g & ? & _). }
  rewrite (insertToBigQuery_spec _ _ _ _ Hg). simpl.
  unfold submitLoad, partsCreated.
  destruct (serialized w (concat batches)) as [|b rows] eqn:Hrows.
  { simpl. split; [|done]. intros _. exists g. split; [done|]. by left. }
  change (length (b :: rows) =? 0) with false. cbv iota.
  destruct (multipart_CreatePart w 0) as [e0|].
  { simpl. split; [done|]. intros (g' & _ & [?|[? _]]); done. }
  destruct (multipart_CreatePart w 1) as [e1|].
  { simpl. split; [done|]. intros (g' & _ & [?|[? _]]); done. }
  destruct (client_Do w (loadJobRequest w config g (ndjsonLines (b :: rows))))
    as [resp|e2] eqn:Hdo.
  2:{ simpl. split; [done|]. intros (g' & [= <-] & [?|[_ (resp & Hr & _)]]); [done|].
      simpl in Hdo. congruence. }
  destruct (negb (StatusCode resp =? 200)%Z) eqn:Hst; simpl.
  - apply negb_true_iff, Z.eqb_neq in Hst. split; [done|].
    intros (g' & [= <-] & [?|[_ (resp' & Hr & Hs)]]); [done|].
    simpl in Hdo. assert (resp' = resp) as -> by congruence. done.
  - apply negb_false_iff, Z.eqb_eq in Hst. split; [|done].
    intros _. exists g. split; [done|]. right. split; [done|]. by exists resp.
Qed.

(** X19.  A live run is [insertToBigQuery] applied to the batches in the
    order they were sent on the results channel: in every finished live run
    that started the pool, the requests submitted and the count and error
    handed back to [runSync] are those of that call. *)
Theorem X19_live_run_refines_insertToBigQuery
    (w : World) (config : Config) (poolSize : nat) (mode : string)
    (schedule : list action) (s : state) (token : string) (users : list User) :
  lookerLogin w config (LookerClientID config) (LookerClientSecret config)
  = Return (Ok token) ->
  searchUsers w config token = Ok users ->
  exec w config poolSize mode false schedule initial = Some s ->
  finished s = true ->
  exists logged total uploadErr,
    insertToBigQuery w config (sent s) = (submissions s, logged, (total, uploadErr)) /\
    mainPC s = MDone total uploadErr None.
Proof.
  intros Hl Hu Hexec Hfin.
  pose proof (run_pool_inv _ _ _ _ _ _ _ _ _ Hl Hu Hexec Hfin) as Hp.
  destruct Hp as [_ _ _ _ _ _ _ _ Hm _].
  unfold finished in Hfin. unfold main_inv in Hm.
  destruct (mainPC s) as [| | | | |total uerr ret|]; try done.
  destruct Hm as (-> & _ & _ & [[logged Hins] _]). by exists logged, total, uerr.
Qed.

(** X20.  When the warehouse token cannot be obtained, a live run still
    fetches every discovered principal, but nothing reaches the warehouse:
    no request is submitted, the batches sent stay unread in the results
    channel, the failure is logged, wrapped as "failed to get GCP token",
    and [runSync] returns nil with a count of 0. *)
Theorem X20_token_failure_drops_the_run
    (w : World) (config : Config) (poolSize : nat) (mode : string)
    (schedule : list action) (s : state) (token : string) (users : list User)
    (cause : error) :
  0 < poolSize ->
  lookerLogin w config (LookerClientID config) (LookerClientSecret config)
  = Return (Ok token) ->
  searchUsers w config token = Ok users ->
  getGCPToken w = Err cause ->
  exec w config poolSize mode false schedule initial = Some s ->
  finished s = true ->
  fetched s ≡ₚ users /\
  submissions s = [] /\
  convChan s = sent s /\
  mainPC s = MDone 0 (Some (ErrWrap "failed to get GCP token" cause)) None /\
  LogUploadError (ErrWrap "failed to get GCP token" cause) ∈ logs s.
Proof.
  intros Hpos Hl Hu Hg Hexec Hfin.
  pose proof (run_pool_inv _ _ _ _ _ _ _ _ _ Hl Hu Hexec Hfin) as Hp.
  destruct (finished_pool _ _ _ _ _ _ _ _ Hpos Hp Hfin) as (_ & Hf & _).
  destruct Hp as [_ _ _ _ _ _ _ _ Hm Hlog].
  unfold finished in Hfin. unfold main_inv in Hm. unfold uploadError in Hlog.
  destruct (mainPC s) as [| | | | |total uerr ret|]; try done.
  destruct Hm as (-> & _ & _ & [[logged Hins] Hrest]).
  rewrite Hg in Hrest. unfold insertToBigQuery in Hins. rewrite Hg in Hins.
  injection Hins as <- _ <- <-.
  split; [by rewrite Hf|]. split; [done|]. split; [done|]. split; [done|].
  by apply Hlog.
Qed.

Section Collecting.

Variable w : World.
Variable config : Config.
Variable poolSize : nat.
Variable mode : string.
Variable dryRun : bool.

Lemma stepWorker_mainPC i s s' :
  stepWorker w config mode i s = Some s' -> mainPC s' = mainPC s.
Proof.
  unfold stepWorker. destruct (workers s !! i) as [[|b|]|]; try done.
  - destruct (userChan s) as [|user rest].
    + destruct (userChanClosed s); [|done]. by intros [= <-].
    + destruct (processUser _ _ _ _ _ _) as [logged [conversations|err]].
      * destruct (0 <? length conversations); by intros [= <-].
      * by intros [= <-].
  - destruct (length (convChan s) <? capacity s); [|done]. by intros [= <-].
Qed.

Lemma stepCloser_mainPC s s' : stepCloser s = Some s' -> mainPC s' = mainPC s.
Proof.
  unfold stepCloser. destruct (closerPC s); try done.
  destruct (forallb isExit (workers s)); [|done]. by intros [= <-].
Qed.

(** A property kept by every move of a started pool holds along its runs. *)
Lemma exec_pool_keeps (Q : state -> Prop) token users :
  (forall s a s',
     pool_inv w config poolSize mode dryRun token users s -> Q s ->
     step w config poolSize mode dryRun a s = Some s' -> Q s') ->
  forall schedule s0 s,
    pool_inv w config poolSize mode dryRun token users s0 -> Q s0 ->
    exec w config poolSize mode dryRun schedule s0 = Some s -> Q s.
Proof.
  intros Hkeep schedule.
  induction schedule as [|a rest IH]; intros s0 s Hinv HQ Hexec; simpl in Hexec.
  - by injection Hexec as <-.
  - destruct (step w config poolSize mode dryRun a s0) as [s1|] eqn:Hstep; [|done].
    assert (Hinv1 : pool_inv w config poolSize mode dryRun token users s1).
    { unfold step in Hstep. destruct (mainPC s0) eqn:Hpc; try done;
        destruct a; eauto using stepMain_inv, stepWorker_inv, stepCloser_inv. }
    eauto.
Qed.

End Collecting.

Lemma dryReported_kept w config poolSize mode token users s a s' :
  pool_inv w config poolSize mode true token users s ->
  dryReported s ->
  step w config poolSize mode true a s = Some s' ->
  dryReported s'.
Proof.
  intros [Ht Hc Hp Hq He Hb Hcl Hw Hm Hl] HQ Hstep.
  unfold step in Hstep. unfold main_inv in Hm. unfold dryReported in *.
  destruct (mainPC s) as [|rest| |uc tc|g nd rows|total uerr ret|] eqn:Hpc; try done.
  - destruct a as [|i|].
    + unfold stepMain in Hstep. rewrite Hpc in Hstep.
      destruct rest as [|user rest].
      * by injection Hstep as <-.
      * destruct (length (userChan s) <? capacity s); [|done]. by injection Hstep as <-.
    + by rewrite (stepWorker_mainPC _ _ _ _ _ _ Hstep), Hpc.
    + by rewrite (stepCloser_mainPC _ _ Hstep), Hpc.
  - destruct a as [|i|].
    + unfold stepMain in Hstep. rewrite Hpc in Hstep. by injection Hstep as <-.
    + by rewrite (stepWorker_mainPC _ _ _ _ _ _ Hstep), Hpc.
    + by rewrite (stepCloser_mainPC _ _ Hstep), Hpc.
  - destruct Hm as (_ & _ & _ & _ & received & Hsent & Huc & Htc).
    destruct a as [|i|].
    + unfold stepMain in Hstep. rewrite Hpc in Hstep.
      destruct (convChan s) as [|b rest] eqn:Hch.
      * destruct (convChanClosed s); [|done]. injection Hstep as <-. simpl.
        rewrite Hsent, app_nil_r, <- Huc. rewrite elem_of_app. right.
        apply list_elem_of_here.
      * by injection Hstep as <-.
    + by rewrite (stepWorker_mainPC _ _ _ _ _ _ Hstep), Hpc.
    + by rewrite (stepCloser_mainPC _ _ Hstep), Hpc.
  - by destruct Hm.
  - exfalso. destruct Hm as (_ & _ & _ & Hclosed & _).
    pose proof (Hw Hclosed) as Hall.
    destruct a as [|i|].
    + unfold stepMain in Hstep. by rewrite Hpc in Hstep.
    + unfold stepWorker in Hstep.
      destruct (workers s !! i) as [x|] eqn:Hi; [|done].
      by rewrite (all_exit_lookup _ _ _ Hall Hi) in Hstep.
    + unfold stepCloser in Hstep. destruct Hcl as [Hcl _].
      by rewrite (Hcl Hclosed) in Hstep.
Qed.

(** X21.  A dry run only counts: in every finished dry run that started the
    pool nothing is submitted, every batch sent has been read from the
    results channel, and the line logged reports the total number of records
    in those batches and the number of batches, that is, of principals that
    contributed at least one record. *)
Theorem X21_dry_run_reports_totals
    (w : World) (config : Config) (poolSize : nat) (mode : string)
    (schedule : list action) (s : state) (token : string) (users : list User) :
  lookerLogin w config (LookerClientID config) (LookerClientSecret config)
  = Return (Ok token) ->
  searchUsers w config token = Ok users ->
  exec w config poolSize mode true schedule initial = Some s ->
  finished s = true ->
  submissions s = [] /\
  convChan s = [] /\
  mainPC s = MDone (totalRecords (sent s)) None None /\
  LogDryRun (totalRecords (sent s)) (length (sent s)) ∈ logs s.
Proof.
  intros Hl Hu Hexec Hfin.
  pose proof (run_pool_inv _ _ _ _ _ _ _ _ _ Hl Hu Hexec Hfin) as Hp.
  assert (HQ : dryReported s).
  { destruct (exec_from_start _ _ _ _ _ _ _ _ _ Hl Hu Hexec)
      as [[_ ->]|(rest & _ & Hrest)]; [done|].
    eapply (exec_pool_keeps w config poolSize mode true dryReported token users);
      [ intros; by eapply dryReported_kept
      | apply pool_inv_start | done | exact Hrest ]. }
  destruct Hp as [_ _ _ _ _ _ _ _ Hm _].
  unfold finished in Hfin. unfold main_inv in Hm. unfold dryReported in HQ.
  destruct (mainPC s) as [| | | | |total uerr ret|]; try done.
  destruct Hm as (-> & _ & _ & _ & Hch & Hsub & -> & ->). done.
Qed.

(** X22.  Nothing unpruned and nothing empty travels on the results channel:
    in every state a run can reach, each batch that has been sent or is held
    by a worker about to send is non-empty, is what [processUser] returned
    for a principal that was fetched, and contains only pruned
    conversations. *)
Theorem X22_batches_are_nonempty_and_pruned
    (w : World) (config : Config) (poolSize : nat) (mode : string) (dryRun : bool)
    (schedule : list action) (s : state) (batch : list Conversation) :
  exec w config poolSize mode dryRun schedule initial = Some s ->
  batch ∈ sent s \/ (exists workerID, workers s !! workerID = Some (WSend batch)) ->
  batch <> [] /\
  (exists user logged,
     user ∈ fetched s /\
     processUser w config (adminToken s) user mode (formatInt (User_ID user))
     = (logged, Ok batch)) /\
  (forall detail, detail ∈ batch -> prunedConversation detail).
Proof.
  intros Hexec Hin.
  assert (Hinv : run_inv w config poolSize mode dryRun s)
    by (eapply exec_run_inv; [apply inv_start|done]).
  destruct Hinv as [|Hl|err Hl|token err Hl Hu|token users s Hl Hu Hp];
    try (destruct Hin as [Hin|[i Hin]]; [by apply not_elem_of_nil in Hin|done]).
  destruct Hp as [Ht _ _ _ _ Hb _ _ _ _].
  assert (Hin' : batch ∈ omap (workerBatch w config mode token) (fetched s)).
  { rewrite <- Hb, elem_of_app. destruct Hin as [Hin|[i Hi]]; [by left|right].
    unfold pending. apply list_elem_of_omap. exists (WSend batch).
    split; [|done]. by eapply list_elem_of_lookup_2. }
  apply list_elem_of_omap in Hin' as (user & Huser & Hbatch).
  unfold workerBatch in Hbatch.
  destruct (processUser w config token user mode (formatInt (User_ID user)))
    as [logged [conversations|err]] eqn:Hpu; [|done].
  destruct (0 <? length conversations) eqn:Hlen; [|done].
  injection Hbatch as <-. split; [|split].
  - intros ->. done.
  - exists user, logged. by rewrite Ht.
  - intros detail Hd. by eapply processUser_pruned.
Qed.

(** ** When the load request is made *)

Section Submission.

Variable w : World.
Variable config : Config.
Variable poolSize : nat.
Variable mode : string.
Variable dryRun : bool.

(** A state that holds a load request is the end of a live run. *)
Lemma submitted_at_end s :
  run_inv w config poolSize mode dryRun s ->
  submissions s <> [] ->
  dryRun = false /\ finished s = true /\
  forallb isExit (workers s) = true /\ convChanClosed s = true /\ convChan s = [].
Proof.
  intros Hinv Hsub.
  destruct Hinv as [|Hl|err Hl|token err Hl Hu|token users s Hl Hu Hp]; try done.
  destruct Hp as [Ht Hc Hp Hq He Hb Hcl Hw Hm Hlog].
  unfold main_inv in Hm. unfold finished.
  destruct (mainPC s) as [|rest| |n m|g nd rows|total uerr ret|] eqn:Hpc; try done.
  - by destruct Hm as (_&_&_&?&_).
  - by destruct Hm as (_&_&_&?&_).
  - by destruct Hm as (_&_&_&?&_).
  - by destruct Hm as (_&_&_&?&_).
  - destruct Hm as (Hret&Hcu&Hcp&Hm). destruct dryRun.
    + by destruct Hm as (_&_&?&_).
    + destruct Hm as [[logged Hins] Hg].
      destruct (getGCPToken w) as [g|err] eqn:Htok.
      * destruct Hg as [Hclosed Hempty].
        pose proof (Hw Hclosed) as Hall. rewrite Hall.
        pose proof (proj1 Hcl Hclosed) as Hdone. by rewrite Hdone.
      * exfalso. apply Hsub. unfold insertToBigQuery in Hins. rewrite Htok in Hins.
        by injection Hins as <- _ _ _.
Qed.

End Submission.

(** X23.  The load request is the last thing a run does.  In any state a run
    of [runSync] can reach, under any interleaving, a request to the
    warehouse has been made only if the run is live, every worker has left
    its loop, the closer has closed the batch channel and the channel has
    been drained: no load is issued while principals are still being
    processed, and a dry run issues none at any point. *)
Theorem X23_load_is_requested_last
    (w : World) (config : Config) (poolSize : nat) (mode : string)
    (dryRun : bool) (schedule : list action) (s : state) (req : Request) :
  exec w config poolSize mode dryRun schedule initial = Some s ->
  req ∈ submissions s ->
  dryRun = false /\
  finished s = true /\
  forallb isExit (workers s) = true /\
  convChanClosed s = true /\
  convChan s = [].
Proof.
  intros Hexec Hreq.
  assert (Hinv : run_inv w config poolSize mode dryRun s)
    by (eapply exec_run_inv; [apply inv_start|done]).
  assert (Hsub : submissions s <> []).
  { intros Hnil. rewrite Hnil in Hreq. by apply not_elem_of_nil in Hreq. }
  exact (submitted_at_end _ _ _ _ _ _ Hinv Hsub).
Qed.

(** ** The trigger handlers *)

(** X24.  A trigger starts a run exactly when its method is [POST], spelled
    so; the run's mode is fixed by the route, and it is a dry run exactly
    when the first [dry-run] value of the query is the string [true].  Any
    other method is answered 405 and starts nothing; a trigger that starts a
    run is answered 202 without waiting for it. *)
Theorem X24_trigger_starts_run_iff_post
    (r : Trigger) (mode : string) (dryRun : bool) :
  (Started (handleDaily r) = Some (mode, dryRun) <->
   TriggerMethod r = "POST" /\ mode = "daily" /\
   dryRun = String.eqb (queryGet (TriggerQuery r) "dry-run") "true") /\
  (Started (handleHistorical r) = Some (mode, dryRun) <->
   TriggerMethod r = "POST" /\ mode = "historical" /\
   dryRun = String.eqb (queryGet (TriggerQuery r) "dry-run") "true") /\
  ReplyStatus (handleDaily r)
  = (if String.eqb (TriggerMethod r) "POST" then 202 else 405)%Z /\
  ReplyStatus (handleHistorical r)
  = (if String.eqb (TriggerMethod r) "POST" then 202 else 405)%Z /\
  (TriggerMethod r <> "POST" ->
   Started (handleDaily r) = None /\ Started (handleHistorical r) = None).
Proof.
  unfold handleDaily, handleHistorical.
  destruct (String.eqb (TriggerMethod r) "POST") eqn:Hm; simpl.
  - apply String.eqb_eq in Hm.
    split; [|split; [|split; [done|split; [done|done]]]].
    + split.
      * intros [= <- <-]. done.
      * intros (_&->&->). done.
    + split.
      * intros [= <- <-]. done.
      * intros (_&->&->). done.
  - apply String.eqb_neq in Hm.
    split; [|split; [|split; [done|split; [done|done]]]].
    + split; [done|]. by intros (?&_).
    + split; [done|]. by intros (?&_).
Qed.

(** X25.  A trigger asking for a dry run never reaches the warehouse.  If a
    handler starts a run for a [POST] whose first [dry-run] value is [true],
    then in no state that run can reach, under any interleaving and whatever
    the source system answers, has a load request been made. *)
Theorem X25_dry_run_trigger_never_loads
    (r : Trigger) (mode : string) (dryRun : bool)
    (w : World) (config : Config) (poolSize : nat)
    (schedule : list action) (s : state) :
  queryGet (TriggerQuery r) "dry-run" = "true" ->
  Started (handleDaily r) = Some (mode, dryRun) \/
  Started (handleHistorical r) = Some (mode, dryRun) ->
  exec w config poolSize mode dryRun schedule initial = Some s ->
  submissions s = [].
Proof.
  intros Hq Hstart Hexec.
  assert (Hdry : dryRun = true).
  { unfold handleDaily, handleHistorical in Hstart. rewrite Hq in Hstart.
    destruct (negb _); simpl in Hstart; destruct Hstart as [H|H]; try done;
      by injection H as _ <-. }
  assert (Hinv : run_inv w config poolSize mode dryRun s)
    by (eapply exec_run_inv; [apply inv_start|done]).
  destruct (submissions s) as [|req reqs] eqn:Hsub; [done|].
  assert (Hne : submissions s <> []) by (by rewrite Hsub).
  destruct (submitted_at_end _ _ _ _ _ _ Hinv Hne) as (Hlive&_). congruence.
Qed.

(** ** loadConfig *)

(** X26.  [loadConfig] lets the process start exactly when the four
    variables of the source system are non-empty in the environment it
    reads, and the configuration is then that environment's values; the
    four variables of the warehouse are copied but never checked.  The
    [.env] file counts only when [LOCAL_DEV] is the string [true]. *)
Theorem X26_loadConfig_requires_source_variables_only
    (getenv dotenv : string -> string) :
  let env := if String.eqb (getenv "LOCAL_DEV") "true" then dotenv else getenv in
  (forall config,
     loadConfig getenv dotenv = Some config <->
     (env "LOOKER_CLIENT_ID" <> EmptyString /\
      env "LOOKER_CLIENT_SECRET" <> EmptyString /\
      env "LOOKER_BASE_URL" <> EmptyString /\
      env "LOOKER_USER_QUERY_ID" <> EmptyString) /\
     config = {| LookerClientID := env "LOOKER_CLIENT_ID";
                 LookerClientSecret := env "LOOKER_CLIENT_SECRET";
                 LookerBaseURL := env "LOOKER_BASE_URL";
                 GCPProjectID := env "GCP_PROJECT_ID";
                 GCPRegion := env "GCP_REGION";
                 BQDataset := env "BQ_DATASET";
                 BQTable := env "BQ_TABLE";
                 LookerUserQueryID := env "LOOKER_USER_QUERY_ID" |}) /\
  (getenv "LOCAL_DEV" <> "true" ->
   forall other, loadConfig getenv other = loadConfig getenv dotenv).
Proof.
  intros env. split.
  - intros config. unfold loadConfig. fold env. simpl.
    destruct (String.eqb (env "LOOKER_CLIENT_ID") EmptyString) eqn:H1; simpl.
    { apply String.eqb_eq in H1. split; [done|]. by intros [[? _] _]. }
    destruct (String.eqb (env "LOOKER_CLIENT_SECRET") EmptyString) eqn:H2; simpl.
    { apply String.eqb_eq in H2. split; [done|]. by intros [(_&?&_) _]. }
    destruct (String.eqb (env "LOOKER_BASE_URL") EmptyString) eqn:H3; simpl.
    { apply String.eqb_eq in H3. split; [done|]. by intros [(_&_&?&_) _]. }
    destruct (String.eqb (env "LOOKER_USER_QUERY_ID") EmptyString) eqn:H4; simpl.
    { apply String.eqb_eq in H4. split; [done|]. by intros [(_&_&_&?) _]. }
    apply String.eqb_neq in H1, H2, H3, H4. split.
    + intros [= <-]. done.
    + intros [_ ->]. done.
  - intros Hlocal other. unfold loadConfig.
    apply String.eqb_neq in Hlocal. by rewrite Hlocal.
Qed.

(** * The further properties on the concrete deployment *)

(** X1 on the full system message. *)
Lemma X1_witness :
  exists msg' : gmap string value,
    PruneAgentMessages richMessages !! 1 = Some (VObj msg') /\
    dom msg' = dom richNode /\
    (forall k, k <> "message" -> msg' !! k = richNode !! k) /\
    (forall v, richNode !! "message" = Some v -> (forall body, v <> VObj body) ->
               msg' !! "message" = Some v) /\
    (forall body, richNode !! "message" = Some (VObj body) ->
       exists body' : gmap string value,
         msg' !! "message" = Some (VObj body') /\
         dom body' ⊆ dom body /\
         (forall k, k <> "debugInfo" -> k <> "systemMessage" ->
                    body' !! k = body !! k)).
Proof.
  exact (X1_prune_touches_only_debugInfo_and_systemMessage richMessages 1 richNode
           eq_refl).
Defined.

Lemma rich_path :
  richMessages !! 1 = Some (VObj richNode) /\
  richNode !! "type" = Some (VStr "system") /\
  richNode !! "message" = Some (VObj richBody) /\
  richBody !! "userMessage" = None /\
  richBody !! "debugInfo" = Some (VObj richDebugInfo) /\
  richDebugInfo !! "response" = Some (VObj richResponse) /\
  richResponse !! "data" = Some (VObj richRespData) /\
  richRespData !! "systemMessage" = Some (VObj richSysMsg).
Proof. repeat split; vm_compute; reflexivity. Defined.

(** X2 on the full system message. *)
Lemma X2_witness :
  exists (node' : value) (body' debugInfo' response' data' : gmap string value),
    PruneAgentMessages richMessages !! 1 = Some node' /\
    getPath ["message"] node' = Some (VObj body') /\
    getPath ["message"; "debugInfo"] node' = Some (VObj debugInfo') /\
    getPath ["message"; "debugInfo"; "response"] node' = Some (VObj response') /\
    getPath ["message"; "debugInfo"; "response"; "data"] node' = Some (VObj data') /\
    body' !! "systemMessage" = None /\
    (forall k, k <> "systemMessage" -> k <> "debugInfo" -> body' !! k = richBody !! k) /\
    debugInfo' !! "request" = None /\
    (forall k, k <> "request" -> k <> "response" ->
               debugInfo' !! k = richDebugInfo !! k) /\
    (forall k, k <> "data" -> response' !! k = richResponse !! k) /\
    (forall k, k <> "systemMessage" -> data' !! k = richRespData !! k).
Proof.
  destruct rich_path as (H1 & H2 & H3 & H4 & H5 & H6 & H7 & H8).
  exact (X2_system_path_frame richMessages 1 richNode richBody richDebugInfo
           richResponse richRespData richSysMsg H1 H2 H3 H4 H5 H6 H7 H8).
Defined.

(** X3 on the full system message. *)
Lemma X3_witness :
  exists (node' : value) (sysMsg' : gmap string value),
    PruneAgentMessages richMessages !! 1 = Some node' /\
    getPath ["message"; "debugInfo"; "response"; "data"; "systemMessage"] node'
    = Some (VObj sysMsg') /\
    sysMsg' !! "thoughtSignature" = None /\
    (forall textObj,
       richSysMsg !! "text" = Some (VObj textObj) ->
       exists textObj' : gmap string value,
         sysMsg' !! "text" = Some (VObj textObj') /\
         textObj' !! "thoughtSignature" = None /\
         (forall k, k <> "thoughtSignature" -> textObj' !! k = textObj !! k)) /\
    (forall v,
       richSysMsg !! "text" = Some v -> (forall o, v <> VObj o) ->
       sysMsg' !! "text" = Some v).
Proof.
  destruct rich_path as (H1 & H2 & H3 & H4 & H5 & H6 & H7 & H8).
  exact (X3_thought_signatures_removed richMessages 1 richNode richBody richDebugInfo
           richResponse richRespData richSysMsg H1 H2 H3 H4 H5 H6 H7 H8).
Defined.

(** X4 on the full system message: the one datasource object loses its
    schema, the string beside it stays. *)
Lemma X4_witness :
  exists (node' : value) (sysMsg' dataObj' queryObj' : gmap string value),
    PruneAgentMessages richMessages !! 1 = Some node' /\
    getPath ["message"; "debugInfo"; "response"; "data"; "systemMessage"] node'
    = Some (VObj sysMsg') /\
    sysMsg' !! "data" = Some (VObj dataObj') /\
    dataObj' !! "result" = None /\
    dataObj' !! "formattedData" = None /\
    dataObj' !! "name" = Some (VStr "monthly") /\
    dataObj' !! "query" = Some (VObj queryObj') /\
    queryObj' !! "datasources"
    = Some (VArr [VObj (delete "schema" richDatasource); VStr "inline"]).
Proof.
  destruct rich_path as (H1 & H2 & H3 & H4 & H5 & H6 & H7 & H8).
  assert (H9 : richSysMsg !! "data" = Some (VObj richData)) by (vm_compute; reflexivity).
  destruct (X4_data_block_pruned richMessages 1 richNode richBody richDebugInfo
              richResponse richRespData richSysMsg H1 H2 H3 H4 H5 H6 H7 H8 richData H9)
    as (node' & sysMsg' & dataObj' & Hn & Hp & Hd & Hr & Hf & Hother & Hquery).
  assert (H10 : richData !! "query" = Some (VObj richQuery)) by (vm_compute; reflexivity).
  assert (H11 : richQuery !! "datasources"
                = Some (VArr [VObj richDatasource; VStr "inline"]))
    by (vm_compute; reflexivity).
  destruct (Hquery richQuery _ H10 H11)
    as (queryObj' & ds' & Hq & Hds & _ & Hlen & Hobj & Hnon).
  exists node', sysMsg', dataObj', queryObj'.
  split; [exact Hn|]. split; [exact Hp|]. split; [exact Hd|]. split; [exact Hr|].
  split; [exact Hf|]. split.
  { rewrite Hother; [vm_compute; reflexivity|discriminate..]. }
  split; [exact Hq|]. rewrite Hds. do 2 f_equal.
  pose proof (Hobj 0 richDatasource eq_refl) as E0.
  assert (E1 : ds' !! 1 = Some (VStr "inline")).
  { apply (Hnon 1 (VStr "inline") eq_refl). intros o. discriminate. }
  destruct ds' as [|x [|y [|z rest]]]; try discriminate Hlen.
  injection E0 as ->. injection E1 as ->. reflexivity.
Defined.

(** X5 on the full system message. *)
Lemma X5_witness :
  exists (node' : value) (sysMsg' chartObj' : gmap string value),
    PruneAgentMessages richMessages !! 1 = Some node' /\
    getPath ["message"; "debugInfo"; "response"; "data"; "systemMessage"] node'
    = Some (VObj sysMsg') /\
    sysMsg' !! "chart" = Some (VObj chartObj') /\
    chartObj' !! "result" = None /\
    (forall k, k <> "result" -> chartObj' !! k = richChart !! k).
Proof.
  destruct rich_path as (H1 & H2 & H3 & H4 & H5 & H6 & H7 & H8).
  assert (H9 : richSysMsg !! "chart" = Some (VObj richChart)) by (vm_compute; reflexivity).
  exact (X5_chart_result_removed richMessages 1 richNode richBody richDebugInfo
           richResponse richRespData richSysMsg H1 H2 H3 H4 H5 H6 H7 H8 richChart H9).
Defined.

(** X6 on the full system message. *)
Lemma X6_witness :
  exists (node' : value) (sysMsg' : gmap string value),
    PruneAgentMessages richMessages !! 1 = Some node' /\
    getPath ["message"; "debugInfo"; "response"; "data"; "systemMessage"] node'
    = Some (VObj sysMsg') /\
    dom sysMsg' ⊆ dom richSysMsg /\
    (forall k,
       k <> "text" -> k <> "thoughtSignature" -> k <> "schema" -> k <> "data" ->
       k <> "chart" -> sysMsg' !! k = richSysMsg !! k) /\
    (forall k v,
       k = "schema" \/ k = "data" \/ k = "chart" ->
       richSysMsg !! k = Some v -> (forall o, v <> VObj o) ->
       sysMsg' !! k = Some v).
Proof.
  destruct rich_path as (H1 & H2 & H3 & H4 & H5 & H6 & H7 & H8).
  exact (X6_system_message_frame richMessages 1 richNode richBody richDebugInfo
           richResponse richRespData richSysMsg H1 H2 H3 H4 H5 H6 H7 H8).
Defined.

(** The concrete runs are runs, and they are over. *)
Lemma acceptedRun_exec :
  exec acceptedWorld demoConfig WorkerPoolSize "historical" false
    (demoSchedule acceptedWorld WorkerPoolSize "historical" false) initial
  = Some acceptedRun /\
  finished acceptedRun = true.
Proof. split; vm_compute; reflexivity. Qed.

Lemma refusedRun_exec :
  exec refusedWorld demoConfig WorkerPoolSize "historical" false
    (demoSchedule refusedWorld WorkerPoolSize "historical" false) initial
  = Some refusedRun /\
  finished refusedRun = true.
Proof. split; vm_compute; reflexivity. Qed.

Lemma tokenlessRun_exec :
  exec tokenlessWorld demoConfig WorkerPoolSize "historical" false
    (demoSchedule tokenlessWorld WorkerPoolSize "historical" false) initial
  = Some tokenlessRun /\
  finished tokenlessRun = true.
Proof. split; vm_compute; reflexivity. Qed.

Lemma largeRun_exec :
  exec largeWorld demoConfig WorkerPoolSize "historical" true
    (demoSchedule largeWorld WorkerPoolSize "historical" true) initial
  = Some largeRun /\
  finished largeRun = true.
Proof. split; vm_compute; reflexivity. Qed.

Lemma offlineRun_exec :
  exec offlineWorld demoConfig WorkerPoolSize "daily" false
    (demoSchedule offlineWorld WorkerPoolSize "daily" false) initial
  = Some offlineRun /\
  finished offlineRun = true.
Proof. split; vm_compute; reflexivity. Qed.

Lemma feedingRun_exec :
  exec acceptedWorld demoConfig WorkerPoolSize "historical" false
    (take 3 (demoSchedule acceptedWorld WorkerPoolSize "historical" false)) initial
  = Some feedingRun.
Proof. vm_compute; reflexivity. Qed.

Lemma demo_login (gcpToken : string) (loadStatus : Z) (principals : nat) :
  lookerLogin (demoWorld gcpToken loadStatus principals) demoConfig
    (LookerClientID demoConfig) (LookerClientSecret demoConfig)
  = Return (Ok "admin-token-0001") /\
  searchUsers (demoWorld gcpToken loadStatus principals) demoConfig "admin-token-0001"
  = Ok (map demoUser (seq 1 principals)).
Proof. split; reflexivity. Qed.

(** X7 on the first conversation of principal 3. *)
Lemma X7_witness :
  exists detail,
    getConversationDetail acceptedWorld demoConfig "token-3" "c1" = Ok detail /\
    Conv_ID detail = "c1" /\
    Conv_Messages detail = VArr (PruneAgentMessages demoMessages) /\
    prunedConversation detail.
Proof.
  destruct (X7_detail_ignores_status_and_prunes acceptedWorld demoConfig "token-3" "c1")
    as [_ H].
  destruct (H {| StatusCode := 200; RespBody := Ok "c1" |}
              (demoConversation "c1" (VArr demoMessages)) eq_refl eq_refl)
    as (detail & Hd & Hid & _ & _ & _ & _ & _ & _ & _ & Hm & _ & Hp).
  exists detail. split; [exact Hd|]. split; [exact Hid|].
  split; [exact (Hm demoMessages eq_refl)|exact Hp].
Defined.

(** X8 on principal 4, whose second conversation cannot be fetched. *)
Lemma X8_witness :
  exists logged detailed,
    processUser largeWorld demoConfig "admin-token-0001" (demoUser 4) "historical" "4"
    = (logged, Ok detailed) /\
    length detailed + length logged = 3.
Proof.
  assert (Hs : sudoLogin largeWorld demoConfig "admin-token-0001" "4" = Ok "token-4")
    by (vm_compute; reflexivity).
  assert (Hc : searchConversations largeWorld demoConfig "token-4" "historical"
               = Ok [demoConversation "c1" VNull; demoConversation "c9" VNull;
                     demoConversation "c2" VNull])
    by (vm_compute; reflexivity).
  destruct (X8_every_listed_conversation_returned_or_logged largeWorld demoConfig
              "admin-token-0001" (demoUser 4) "historical" "4" "token-4" _ Hs Hc)
    as (logged & detailed & Hp & Hlen & _).
  exists logged, detailed. split; [exact Hp|exact Hlen].
Defined.

(** X9 on principal 1, whose listing is refused. *)
Lemma X9_witness :
  processUser largeWorld demoConfig "admin-token-0001" (demoUser 1) "historical" "1"
  = ([], Err (ErrWrap "search failed" (ErrStatus "search" 500))).
Proof.
  apply (proj2 (X9_processUser_fails_only_at_sudo_or_listing largeWorld demoConfig
                  "admin-token-0001" (demoUser 1) "historical" "1" []
                  (ErrWrap "search failed" (ErrStatus "search" 500)))).
  split; [reflexivity|]. right. exists "token-1", (ErrStatus "search" 500).
  split; [vm_compute; reflexivity|]. split; [vm_compute; reflexivity|reflexivity].
Defined.

(** X10 on principal 3. *)
Lemma X10_witness : prunedConversation (demoDetail "c1").
Proof.
  assert (Hp : processUser largeWorld demoConfig "admin-token-0001" (demoUser 3)
                 "historical" "3"
               = ([], Ok [demoDetail "c1"; demoDetail "c2"]))
    by (vm_compute; reflexivity).
  assert (Hin : demoDetail "c1" ∈ [demoDetail "c1"; demoDetail "c2"])
    by apply list_elem_of_here.
  exact (X10_processUser_returns_pruned_conversations largeWorld demoConfig
           "admin-token-0001" (demoUser 3) "historical" "3" [] _ _ Hp Hin).
Defined.

(** X11 on a login answered with a token of five bytes. *)
Lemma X11_witness :
  lookerLogin shortTokenWorld demoConfig "client" "secret" = Panic.
Proof.
  apply (proj2 (proj1 (X11_login_panics_on_short_token shortTokenWorld demoConfig
                         "client" "secret"))).
  exists {| StatusCode := 200; RespBody := Ok "admin-token-0001" |},
         {| AccessToken := "short"; ExpiresIn := 3600 |}.
  split; [vm_compute; reflexivity|]. split; [reflexivity|].
  split; [vm_compute; reflexivity|]. simpl. lia.
Defined.

(** X12 on the run that cannot reach the source system. *)
Lemma X12_witness :
  returned offlineRun
  = Some (Some (ErrWrap "failed to login as admin" (ErrIO "no route to host"))) /\
  workers offlineRun = [] /\ fetched offlineRun = [] /\ sent offlineRun = [] /\
  submissions offlineRun = [].
Proof.
  destruct offlineRun_exec as [Hexec Hfin].
  exact (X12_run_outcome_decided_by_login_and_discovery offlineWorld demoConfig
           WorkerPoolSize "daily" false _ offlineRun Hexec Hfin).
Defined.

(** X13 on the run whose load is accepted: 63 moves for three principals. *)
Lemma X13_witness :
  length (demoSchedule acceptedWorld WorkerPoolSize "historical" false)
  <= 4 * length (map demoUser (seq 1 3)) + WorkerPoolSize + 6.
Proof.
  destruct (demo_login "local-token" 200 3) as [Hl Hu].
  destruct acceptedRun_exec as [Hexec _].
  exact (X13_run_length_bounded acceptedWorld demoConfig WorkerPoolSize "historical"
           false "admin-token-0001" _ _ acceptedRun Hl Hu Hexec).
Defined.

(** X14 on the run whose load is accepted. *)
Lemma X14_witness :
  finished acceptedRun = true <->
  forall a, step acceptedWorld demoConfig WorkerPoolSize "historical" false a acceptedRun
            = None.
Proof.
  destruct acceptedRun_exec as [Hexec _].
  exact (X14_stuck_only_when_finished acceptedWorld demoConfig WorkerPoolSize
           "historical" false _ acceptedRun Hexec).
Defined.

(** X15 on the run whose caller has fed two principals of three. *)
Lemma X15_witness : length (userChan feedingRun) < capacity feedingRun.
Proof.
  destruct (X15_sends_never_block acceptedWorld demoConfig WorkerPoolSize "historical"
              false _ feedingRun feedingRun_exec) as [H _].
  apply (H (demoUser 3) []). vm_compute. reflexivity.
Defined.

(** X16 on the run whose load is accepted. *)
Lemma X16_witness :
  convChanClosed acceptedRun = true /\
  forall workerID x, workers acceptedRun !! workerID = Some x -> x = WExit.
Proof.
  destruct acceptedRun_exec as [Hexec _].
  assert (Hclosed : convChanClosed acceptedRun = true) by (vm_compute; reflexivity).
  destruct (X16_channels_closed_in_order acceptedWorld demoConfig WorkerPoolSize
              "historical" false _ acceptedRun Hexec) as (_ & _ & H).
  split; [exact Hclosed|exact (H Hclosed)].
Defined.

(** X17 on the batch of principal 3. *)
Lemma X17_witness :
  2 = length (serialized acceptedWorld [demoDetail "c1"; demoDetail "c2"]) /\
  forall req,
    req ∈ [loadJobRequest acceptedWorld demoConfig "local-token" demoPayload] ->
    ReqBody req =
    MultipartBody
      [("application/json; charset=UTF-8", JsonPart (jobConfig demoConfig));
       ("application/octet-stream",
        BytesPart (ndjsonLines (serialized acceptedWorld
                                  [demoDetail "c1"; demoDetail "c2"])))].
Proof.
  assert (Hg : getGCPToken acceptedWorld = Ok "local-token") by reflexivity.
  assert (Hins : insertToBigQuery acceptedWorld demoConfig
                   [[demoDetail "c1"; demoDetail "c2"]]
                 = ([loadJobRequest acceptedWorld demoConfig "local-token" demoPayload],
                    [LogJobCreated (Ok "job")], (2, None)))
    by (vm_compute; reflexivity).
  destruct (X17_payload_is_one_line_per_serialized_record acceptedWorld demoConfig
              _ _ _ _ _ _ Hg Hins) as (Htotal & Hreq & _).
  split; [exact Htotal|].
  intros req Hin. exact (proj2 (Hreq req Hin)).
Defined.

(** X18 on the batch of principal 3, whose load is accepted. *)
Lemma X18_witness :
  snd (snd (insertToBigQuery acceptedWorld demoConfig
              [[demoDetail "c1"; demoDetail "c2"]])) = None.
Proof.
  apply (proj2 (X18_upload_succeeds_iff acceptedWorld demoConfig
                  [[demoDetail "c1"; demoDetail "c2"]])).
  exists "local-token". split; [reflexivity|]. right. split; [reflexivity|].
  exists {| StatusCode := 200; RespBody := Ok "job" |}.
  split; [vm_compute; reflexivity|reflexivity].
Defined.

(** X19 on the run whose load is refused. *)
Lemma X19_witness :
  exists logged total uploadErr,
    insertToBigQuery refusedWorld demoConfig (sent refusedRun)
    = (submissions refusedRun, logged, (total, uploadErr)) /\
    mainPC refusedRun = MDone total uploadErr None.
Proof.
  destruct (demo_login "local-token" 500 3) as [Hl Hu].
  destruct refusedRun_exec as [Hexec Hfin].
  exact (X19_live_run_refines_insertToBigQuery refusedWorld demoConfig WorkerPoolSize
           "historical" _ refusedRun "admin-token-0001" _ Hl Hu Hexec Hfin).
Defined.

(** X20 on the run that cannot obtain the warehouse token. *)
Lemma X20_witness :
  fetched tokenlessRun ≡ₚ map demoUser (seq 1 3) /\
  submissions tokenlessRun = [] /\
  convChan tokenlessRun = sent tokenlessRun /\
  mainPC tokenlessRun
  = MDone 0 (Some (ErrWrap "failed to get GCP token" (ErrIO "no route to host"))) None /\
  LogUploadError (ErrWrap "failed to get GCP token" (ErrIO "no route to host"))
  ∈ logs tokenlessRun.
Proof.
  assert (Hpos : 0 < WorkerPoolSize) by (unfold WorkerPoolSize; lia).
  destruct (demo_login EmptyString 200 3) as [Hl Hu].
  assert (Hg : getGCPToken tokenlessWorld = Err (ErrIO "no route to host"))
    by (vm_compute; reflexivity).
  destruct tokenlessRun_exec as [Hexec Hfin].
  exact (X20_token_failure_drops_the_run tokenlessWorld demoConfig WorkerPoolSize
           "historical" _ tokenlessRun "admin-token-0001" _ _ Hpos Hl Hu Hg Hexec Hfin).
Defined.

(** X21 on the dry run over 200 principals. *)
Lemma X21_witness :
  submissions largeRun = [] /\
  convChan largeRun = [] /\
  mainPC largeRun = MDone (totalRecords (sent largeRun)) None None /\
  LogDryRun (totalRecords (sent largeRun)) (length (sent largeRun)) ∈ logs largeRun.
Proof.
  destruct (demo_login "local-token" 200 200) as [Hl Hu].
  destruct largeRun_exec as [Hexec Hfin].
  exact (X21_dry_run_reports_totals largeWorld demoConfig WorkerPoolSize "historical"
           _ largeRun "admin-token-0001" _ Hl Hu Hexec Hfin).
Defined.

(** X22 on the batch of principal 3 in the run whose load is accepted. *)
Lemma X22_witness :
  [demoDetail "c1"; demoDetail "c2"] <> [] /\
  forall detail,
    detail ∈ [demoDetail "c1"; demoDetail "c2"] -> prunedConversation detail.
Proof.
  destruct acceptedRun_exec as [Hexec _].
  assert (Hsent : sent acceptedRun = [[demoDetail "c1"; demoDetail "c2"]])
    by (vm_compute; reflexivity).
  assert (Hin : [demoDetail "c1"; demoDetail "c2"] ∈ sent acceptedRun)
    by (rewrite Hsent; apply list_elem_of_here).
  destruct (X22_batches_are_nonempty_and_pruned acceptedWorld demoConfig
              WorkerPoolSize "historical" false _ acceptedRun _ Hexec
              (or_introl Hin)) as (Hne & _ & Hpruned).
  split; [exact Hne|exact Hpruned].
Defined.

(** X23 on the run whose load is accepted. *)
Lemma X23_witness :
  finished acceptedRun = true /\
  forallb isExit (workers acceptedRun) = true /\
  convChanClosed acceptedRun = true /\
  convChan acceptedRun = [].
Proof.
  destruct acceptedRun_exec as [Hexec _].
  assert (Hsub : submissions acceptedRun
                 = [loadJobRequest acceptedWorld demoConfig "local-token" demoPayload])
    by (vm_compute; reflexivity).
  assert (Hin : loadJobRequest acceptedWorld demoConfig "local-token" demoPayload
                ∈ submissions acceptedRun)
    by (rewrite Hsub; apply list_elem_of_here).
  exact (proj2 (X23_load_is_requested_last acceptedWorld demoConfig WorkerPoolSize
                  "historical" false _ acceptedRun _ Hexec Hin)).
Defined.

(** X24 on a [GET], and on a [POST] that asks for a dry run after another
    parameter. *)
Lemma X24_witness :
  Started (handleDaily {| TriggerMethod := "GET"; TriggerQuery := [] |}) = None /\
  Started (handleHistorical
             {| TriggerMethod := "POST";
                TriggerQuery := [("limit", "5"); ("dry-run", "true")] |})
  = Some ("historical", true).
Proof.
  split.
  - refine (proj1 (proj2 (proj2 (proj2 (proj2
              (X24_trigger_starts_run_iff_post
                 {| TriggerMethod := "GET"; TriggerQuery := [] |} "daily" false)))) _)).
    discriminate.
  - apply (proj2 (proj1 (proj2
              (X24_trigger_starts_run_iff_post
                 {| TriggerMethod := "POST";
                    TriggerQuery := [("limit", "5"); ("dry-run", "true")] |}
                 "historical" true)))).
    split; [reflexivity|]. split; reflexivity.
Defined.

(** X25 on the dry run over 200 principals. *)
Lemma X25_witness : submissions largeRun = [].
Proof.
  destruct largeRun_exec as [Hexec _].
  exact (X25_dry_run_trigger_never_loads
           {| TriggerMethod := "POST"; TriggerQuery := [("dry-run", "true")] |}
           "historical" true largeWorld demoConfig WorkerPoolSize _ largeRun
           eq_refl (or_intror eq_refl) Hexec).
Defined.

(** X26 on a deployment that sets the variables of the source system only. *)
Lemma X26_witness :
  loadConfig demoGetenv demoGetenv
  = Some {| LookerClientID := "client"; LookerClientSecret := "secret";
            LookerBaseURL := "https://looker.test";
            GCPProjectID := EmptyString; GCPRegion := EmptyString;
            BQDataset := EmptyString; BQTable := EmptyString;
            LookerUserQueryID := "42" |}.
Proof.
  apply (proj2 (proj1 (X26_loadConfig_requires_source_variables_only
                         demoGetenv demoGetenv) _)).
  split; [|reflexivity].
  repeat split; discriminate.
Defined.
